(** * Basket registry, expansion and mint ledger: a shallow embedding

    The TypeScript services of the backend are embedded as functions over
    explicit registry states:

    - [AssetRegistry] (registerAsset / createBasket / expandBasket),
    - [MultiChainAssetRegistry] and [MultiChainBasketRegistry],
    - [MintStateService] and [MultiChainMintStateService],
    - [CREWorkflowService.triggerMint], the workflow's [onMintRequest]
      scaling step and the dashboard's [checkMintEligibility].

    JavaScript [number]s are IEEE-754 binary64 values; they are modelled by
    [spec_float] with the operations of [SpecFloat] at precision 53 and
    maximal exponent 1024 (round to nearest, ties to even), so that
    [parseFloat], [*], [/], [+] and [Number.prototype.toString] compute
    what the engine computes. *)

From Stdlib Require Import ZArith List String Ascii Bool Lia.
From Stdlib Require Import Floats.SpecFloat.
From stdpp Require Import base option list strings gmap.

Local Open Scope string_scope.
Local Open Scope Z_scope.

(** ** JavaScript numbers *)

Module JsNumber.

Definition number := spec_float.

Definition prec : Z := 53.
Definition emax : Z := 1024.

Definition NaN : number := S754_nan.

(** The Number value for a mathematical integer. *)
Definition of_Z (z : Z) : number := binary_normalize prec emax z 0 false.

Definition add : number -> number -> number := SFadd prec emax.
Definition mul : number -> number -> number := SFmul prec emax.
Definition div : number -> number -> number := SFdiv prec emax.

(** [x === y], [x <= y] and [x > y] on numbers. *)
Definition strict_eq (x y : number) : bool := SFeqb x y.
Definition le (x y : number) : bool := SFleb x y.
Definition gt (x y : number) : bool := SFltb y x.

(** The Number value for [m * 10^e10] with [m >= 0], correctly rounded. *)
Definition of_decimal (sign : bool) (m : Z) (e10 : Z) : number :=
  match m with
  | Zpos p =>
      if 0 <=? e10
      then binary_normalize prec emax
             (if sign then - (m * 10 ^ e10) else m * 10 ^ e10) 0 false
      else SFdiv prec emax (S754_finite sign p 0)
             (S754_finite false (Z.to_pos (10 ^ (- e10))) 0)
  | _ => S754_zero sign
  end.

(** *** Characters *)

Definition is_digit (c : ascii) : bool :=
  let n := nat_of_ascii c in (48 <=? n)%nat && (n <=? 57)%nat.

Definition digit_val (c : ascii) : Z := Z.of_nat (nat_of_ascii c) - 48.

(** TAB, LF, VT, FF, CR and SPACE (strings are byte strings here; the
    non-ASCII white space of ECMAScript is not represented). *)
Definition is_white (c : ascii) : bool :=
  let n := nat_of_ascii c in
  ((9 <=? n)%nat && (n <=? 13)%nat) || (n =? 32)%nat.

Fixpoint trim_start (s : string) : string :=
  match s with
  | String c r => if is_white c then trim_start r else s
  | EmptyString => s
  end.

(** Longest run of decimal digits at the head of [s]: its value
    accumulated onto [acc], its length, and the rest. *)
Fixpoint take_digits (acc : Z) (len : nat) (s : string) : Z * nat * string :=
  match s with
  | String c r =>
      if is_digit c then take_digits (10 * acc + digit_val c) (S len) r
      else (acc, len, s)
  | EmptyString => (acc, len, s)
  end.

Definition starts_with (p s : string) : bool :=
  String.prefix p s.

(** ExponentPart: [e] or [E], an optional sign and at least one digit.
    [None] when the head of [s] is not an exponent part. *)
Definition take_exponent (s : string) : option Z :=
  match s with
  | String c r =>
      if (Ascii.eqb c "e" || Ascii.eqb c "E")%bool then
        let '(sg, r') :=
          match r with
          | String "+" r' => (false, r')
          | String "-" r' => (true, r')
          | _ => (false, r)
          end in
        let '(v, n, _) := take_digits 0 0%nat r' in
        match n with
        | O => None
        | _ => Some (if sg then - v else v)
        end
      else None
  | EmptyString => None
  end.

(** [parseFloat]: leading white space is skipped and the longest prefix
    that is a StrDecimalLiteral is converted; [NaN] when there is none. *)
Definition parseFloat (input : string) : number :=
  let s := trim_start input in
  let '(sign, s1) :=
    match s with
    | String "+" r => (false, r)
    | String "-" r => (true, r)
    | _ => (false, s)
    end in
  if starts_with "Infinity" s1 then S754_infinity sign
  else
    let '(ip, ilen, s2) := take_digits 0 0%nat s1 in
    let '(m, flen, s3, ok) :=
      match s2 with
      | String "." r =>
          let '(m, flen, s3) := take_digits ip 0%nat r in
          (m, flen, s3, negb ((ilen =? 0)%nat && (flen =? 0)%nat))
      | _ => (ip, 0%nat, s2, negb (ilen =? 0)%nat)
      end in
    if ok then
      let e := match take_exponent s3 with Some e => e | None => 0 end in
      of_decimal sign m (e - Z.of_nat flen)
    else NaN.

(** *** Number.prototype.toString, radix 10 *)

(** Decimal digits of a non-negative integer, most significant first. *)
Fixpoint digits_fuel (fuel : nat) (z : Z) (acc : string) : string :=
  match fuel with
  | O => acc
  | S f =>
      let acc' := String (ascii_of_nat (Z.to_nat (48 + z mod 10))) acc in
      if z <? 10 then acc' else digits_fuel f (z / 10) acc'
  end.

Definition digits_of_Z (z : Z) : string :=
  digits_fuel (S (Z.to_nat (Z.log2 z))) z "".

Fixpoint zeros (n : nat) : string :=
  match n with
  | O => ""
  | S k => String "0" (zeros k)
  end.

(** A positive finite value [m * 2^e] as a fraction. *)
Definition frac_of (m : positive) (e : Z) : Z * Z :=
  if 0 <=? e then (Zpos m * 2 ^ e, 1) else (Zpos m, 2 ^ (- e)).

(** The [n] with [10^(n-1) <= num/den < 10^n], searched upwards from 1
    when the value is at least 1 and downwards from 0 otherwise. *)
Fixpoint exp10_up (fuel : nat) (num den : Z) (n : Z) : Z :=
  match fuel with
  | O => n
  | S f => if num <? den * 10 ^ n then n else exp10_up f num den (n + 1)
  end.

Definition exp10 (num den : Z) : Z :=
  if den <=? num then exp10_up 400 num den 1
  else
    (* num/den < 1: the least t >= 0 with num * 10^(t+1) >= den gives n = -t *)
    (fix go (fuel : nat) (t : Z) : Z :=
       match fuel with
       | O => - t
       | S f => if den <=? num * 10 ^ (t + 1) then - t else go f (t + 1)
       end) 400%nat 0.

(** For [k] digits: the candidates [s] with [s * 10^(n-k)] next to the
    value, keeping those that convert back to [x]; the closer one wins,
    the even one on a tie. The result is [(s, n)]. *)
Definition candidate (x : number) (num den n k : Z) : option (Z * Z) :=
  let q := n - k in
  let a := num * 10 ^ (Z.max (- q) 0) in
  let b := den * 10 ^ (Z.max q 0) in
  let lo := a / b in
  let r := a mod b in
  let back s := SFeqb (of_decimal false s q) x in
  let fix_up s := if s =? 10 ^ k then (10 ^ (k - 1), n + 1) else (s, n) in
  if r =? 0 then (if back lo then Some (lo, n) else None)
  else
    match back lo, back (lo + 1) with
    | true, true =>
        match 2 * r ?= b with
        | Lt => Some (lo, n)
        | Gt => Some (fix_up (lo + 1))
        | Eq => Some (if Z.even lo then (lo, n) else fix_up (lo + 1))
        end
    | true, false => Some (lo, n)
    | false, true => Some (fix_up (lo + 1))
    | false, false => None
    end.

Fixpoint shortest (fuel : nat) (x : number) (num den n k : Z) : Z * Z * Z :=
  match fuel with
  | O => (num * 10 ^ (Z.max (k - n) 0) / (den * 10 ^ (Z.max (n - k) 0)), n, k)
  | S f =>
      match candidate x num den n k with
      | Some (s, n') => (s, n', k)
      | None => shortest f x num den n (k + 1)
      end
  end.

Definition split_at (n : nat) (s : string) : string * string :=
  (String.substring 0 n s, String.substring n (String.length s - n) s).

Definition format_digits (ds : string) (n k : Z) : string :=
  if (k <=? n) && (n <=? 21) then ds ++ zeros (Z.to_nat (n - k))
  else if (0 <? n) && (n <=? 21) then
    let '(a, b) := split_at (Z.to_nat n) ds in a ++ "." ++ b
  else if (-6 <? n) && (n <=? 0) then
    "0." ++ zeros (Z.to_nat (- n)) ++ ds
  else
    let e := n - 1 in
    let es := (if e <? 0 then "-" else "+") ++ digits_of_Z (Z.abs e) in
    if k =? 1 then ds ++ "e" ++ es
    else
      let '(a, b) := split_at 1 ds in a ++ "." ++ b ++ "e" ++ es.

Definition toString (x : number) : string :=
  match x with
  | S754_nan => "NaN"
  | S754_zero _ => "0"
  | S754_infinity s => if s then "-Infinity" else "Infinity"
  | S754_finite sg m e =>
      let '(num, den) := frac_of m e in
      let n := exp10 num den in
      let '(s, n', k) := shortest 17 (S754_finite false m e) num den n 1 in
      (if sg then "-" else "") ++ format_digits (digits_of_Z s) n' k
  end.

(** *** Math.floor, parseInt, BigInt *)

(** The mathematical integer a Number holds, when it is one. *)
Definition to_integer (x : number) : option Z :=
  match x with
  | S754_zero _ => Some 0
  | S754_finite s m e =>
      if 0 <=? e then Some (cond_Zopp s (Zpos m * 2 ^ e))
      else if Zpos m mod 2 ^ (- e) =? 0
      then Some (cond_Zopp s (Zpos m / 2 ^ (- e)))
      else None
  | _ => None
  end.

(** [Math.floor] *)
Definition floor (x : number) : number :=
  match x with
  | S754_finite s m e =>
      if 0 <=? e then x
      else
        let q := cond_Zopp s (Zpos m) / 2 ^ (- e) in
        if q =? 0 then S754_zero s else of_Z q
  | _ => x
  end.

Definition hex_val (c : ascii) : option Z :=
  let n := nat_of_ascii c in
  if is_digit c then Some (Z.of_nat n - 48)
  else if (97 <=? n)%nat && (n <=? 102)%nat then Some (Z.of_nat n - 87)
  else if (65 <=? n)%nat && (n <=? 70)%nat then Some (Z.of_nat n - 55)
  else None.

(** Longest run of digits of radix [radix] (at most 16). *)
Fixpoint take_radix (radix : Z) (acc : Z) (len : nat) (s : string)
  : Z * nat * string :=
  match s with
  | String c r =>
      match hex_val c with
      | Some d =>
          if d <? radix then take_radix radix (radix * acc + d) (S len) r
          else (acc, len, s)
      | None => (acc, len, s)
      end
  | EmptyString => (acc, len, s)
  end.

(** [parseInt(input)] with no radix argument. *)
Definition parseInt (input : string) : number :=
  let s := trim_start input in
  let '(sign, s1) :=
    match s with
    | String "+" r => (false, r)
    | String "-" r => (true, r)
    | _ => (false, s)
    end in
  let '(radix, s2) :=
    match s1 with
    | String "0" (String "x" r) => (16, r)
    | String "0" (String "X" r) => (16, r)
    | _ => (10, s1)
    end in
  let '(v, n, _) := take_radix radix 0 0%nat s2 in
  match n with
  | O => NaN
  | _ => match v with
         | 0 => S754_zero sign
         | _ => of_Z (if sign then - v else v)
         end
  end.

Fixpoint trim_end_aux (s : string) : string * bool :=
  match s with
  | EmptyString => (s, true)
  | String c r =>
      let '(r', blank) := trim_end_aux r in
      if blank && is_white c then (EmptyString, true)
      else (String c r', false)
  end.

Definition trim (s : string) : string := fst (trim_end_aux (trim_start s)).

(** [BigInt(s)] for a string: [None] is the SyntaxError. *)
Definition bigint_of_string (input : string) : option Z :=
  let s := trim input in
  let all radix r :=
    let '(v, n, rest) := take_radix radix 0 0%nat r in
    if negb (n =? 0)%nat && String.eqb rest "" then Some v else None in
  match s with
  | EmptyString => Some 0
  | String "0" (String "x" r) | String "0" (String "X" r) => all 16 r
  | String "0" (String "o" r) | String "0" (String "O" r) => all 8 r
  | String "0" (String "b" r) | String "0" (String "B" r) => all 2 r
  | String "-" r => option_map Z.opp (all 10 r)
  | String "+" r => all 10 r
  | _ => all 10 s
  end.

(** [BigInt(x)] for a Number: [None] is the RangeError. *)
Definition bigint_of_number (x : number) : option Z := to_integer x.

End JsNumber.

(** ** Results of calls that may throw *)

(** A thrown [Error] is the left injection; its payload is the data the
    message is built from ([message] renders the template string). *)
Inductive Error :=
| AssetAlreadyExists (id : string)
| BasketAlreadyExists (id : string)
| AssetNotFound (id : string)
| BasketNotFound (id : string)
| WeightsMustSumTo100 (totalWeight : JsNumber.number)
| NoAssetsMatchingFilter
| MintRecordNotFound (id : string)
| WorkflowFailed (msg : option string)
| AtLeastOneChain
| DefaultChainNotInAssetChains (defaultChain : string)
| AlreadyDeployedOnChain (assetId chainId : string)
| NotDeployedOnChain (assetId chainId : string)
| CannotRemoveAssetOnlyChain
| BasketAtLeastOneChain
| DefaultChainNotSupported (defaultChain : string)
| BasketAlreadySupportsChain (basketId chainId : string)
| BasketDoesNotSupportChain (basketId chainId : string)
| CannotRemoveBasketOnlyChain
| ChainNotConfigured (id : string)
| BigIntSyntaxError (s : string)
| BigIntRangeError
| SubmissionError (symbol : string).

Definition message (e : Error) : string :=
  (match e with
   | AssetAlreadyExists id => "Asset " ++ id ++ " already exists"
   | BasketAlreadyExists id => "Basket " ++ id ++ " already exists"
   | AssetNotFound id => "Asset " ++ id ++ " not found"
   | BasketNotFound id => "Basket " ++ id ++ " not found"
   | WeightsMustSumTo100 t =>
       "Asset weights must sum to 100 (current: " ++ JsNumber.toString t ++ ")"
   | NoAssetsMatchingFilter => "No assets found matching filter"
   | MintRecordNotFound id => "Mint record " ++ id ++ " not found"
   | WorkflowFailed (Some m) => m
   | WorkflowFailed None => "Workflow failed"
   | AtLeastOneChain => "Asset must be deployed on at least one chain"
   | DefaultChainNotInAssetChains c =>
       "Default chain " ++ c ++ " not found in asset chains"
   | AlreadyDeployedOnChain a c =>
       "Asset " ++ a ++ " already deployed on chain " ++ c
   | NotDeployedOnChain a c => "Asset " ++ a ++ " not deployed on chain " ++ c
   | CannotRemoveAssetOnlyChain => "Cannot remove asset from its only chain"
   | BasketAtLeastOneChain => "Basket must support at least one chain"
   | DefaultChainNotSupported c =>
       "Default chain " ++ c ++ " not in supported chains"
   | BasketAlreadySupportsChain b c =>
       "Basket " ++ b ++ " already supports chain " ++ c
   | BasketDoesNotSupportChain b c =>
       "Basket " ++ b ++ " does not support chain " ++ c
   | CannotRemoveBasketOnlyChain => "Cannot remove basket from its only chain"
   | ChainNotConfigured id => "Chain " ++ id ++ " not configured"
   | BigIntSyntaxError s => "Cannot convert " ++ s ++ " to a BigInt"
   | BigIntRangeError => "The number cannot be converted to a BigInt"
   | SubmissionError sym => "Failed to mint " ++ sym
   end)%string.

Definition Result (A : Type) : Type := Error + A.

Definition Ok {A} (a : A) : Result A := inr a.
Definition Throw {A} (e : Error) : Result A := inl e.

Definition bind {A B} (r : Result A) (k : A -> Result B) : Result B :=
  match r with
  | inl e => inl e
  | inr a => k a
  end.

Notation "'let?' x ':=' r 'in' k" := (bind r (fun x => k))
  (at level 10, x name, r at level 100, k at level 200).

(** ** Core types (types/index.ts) *)

(** Values of type [any] found in [metadata] records. *)
#[local] Unset Elimination Schemes.
Inductive JsValue :=
| JNull
| JBool (b : bool)
| JNum (n : JsNumber.number)
| JStr (s : string)
| JArr (items : list JsValue)
| JObj (props : list (string * JsValue)).
#[local] Set Elimination Schemes.

Definition Metadata := option (list (string * JsValue)).

Inductive AssetType :=
| monetary | digital_asset | nft | physical_backed | custom.

Definition AssetType_eqb (a b : AssetType) : bool :=
  match a, b with
  | monetary, monetary | digital_asset, digital_asset | nft, nft
  | physical_backed, physical_backed | custom, custom => true
  | _, _ => false
  end.

Record Asset := {
  a_id : string;
  a_type : AssetType;
  a_name : string;
  a_symbol : string;
  a_decimals : JsNumber.number;
  a_contractAddress : string;
  a_metadata : Metadata;
  a_createdAt : string;
  a_updatedAt : string;
}.

Inductive BasketStatus := active | paused | deprecated.

Record BasketAsset := {
  assetId : string;
  weight : JsNumber.number;   (* percentage 0-100 *)
  proportion : string;
}.

Record Basket := {
  b_id : string;
  b_name : string;
  b_symbol : string;
  b_description : option string;
  b_assets : list BasketAsset;
  b_totalValueLocked : option string;
  b_status : BasketStatus;
  b_createdAt : string;
  b_updatedAt : string;
}.

Inductive MintStatus := pending | completed | failed.

Definition is_terminal (s : MintStatus) : bool :=
  match s with pending => false | _ => true end.

Record MintedAsset := {
  ma_assetId : string;
  ma_symbol : string;
  ma_type : AssetType;
  ma_amount : string;
  ma_contractAddress : string;
  ma_txHash : option string;
}.

Record MintRecord := {
  mr_id : string;
  mr_basketId : string;
  mr_transactionId : string;
  mr_beneficiary : string;
  mr_amount : string;
  mr_assets : list MintedAsset;
  mr_status : MintStatus;
  mr_createdAt : string;
  mr_completedAt : option string;
  mr_error : option string;
}.

Record MintRequest := {
  rq_basketId : string;
  rq_beneficiary : string;
  rq_amount : string;
  rq_assetTypeFilter : option AssetType;
  rq_chainId : option string;
}.

Record AssetPayload := {
  ap_assetId : string;
  ap_symbol : string;
  ap_type : AssetType;
  ap_amount : string;
  ap_contractAddress : string;
  ap_metadata : Metadata;
}.

(** ** AssetRegistry (services/asset-registry.ts) *)

Module AssetRegistry.

(** The two private maps of the class. Persistence ([saveAssets],
    [saveBaskets], [backupToHome]) writes the maps out and does not feed
    back into them. *)
Record state := {
  assets : gmap string Asset;
  baskets : gmap string Basket;
}.

Definition empty : state := {| assets := ∅; baskets := ∅ |}.

(** [{ ...asset, createdAt: now, updatedAt: now }] *)
Definition stamp_asset (asset : Asset) (now : string) : Asset :=
  {| a_id := a_id asset; a_type := a_type asset; a_name := a_name asset;
     a_symbol := a_symbol asset; a_decimals := a_decimals asset;
     a_contractAddress := a_contractAddress asset;
     a_metadata := a_metadata asset;
     a_createdAt := now; a_updatedAt := now |}.

Definition stamp_basket (basket : Basket) (now : string) : Basket :=
  {| b_id := b_id basket; b_name := b_name basket;
     b_symbol := b_symbol basket; b_description := b_description basket;
     b_assets := b_assets basket;
     b_totalValueLocked := b_totalValueLocked basket;
     b_status := b_status basket;
     b_createdAt := now; b_updatedAt := now |}.

Definition registerAsset (asset : Asset) (now : string) (st : state)
  : Result (Asset * state) :=
  match assets st !! a_id asset with
  | Some _ => Throw (AssetAlreadyExists (a_id asset))
  | None =>
      let fullAsset := stamp_asset asset now in
      Ok (fullAsset,
          {| assets := <[a_id asset := fullAsset]> (assets st);
             baskets := baskets st |})
  end.

Definition getAsset (id : string) (st : state) : option Asset :=
  assets st !! id.

Definition getBasket (id : string) (st : state) : option Basket :=
  baskets st !! id.

(** The loop [for (const basketAsset of basket.assets)] of
    [createBasket]: the first entry whose asset is unknown throws. *)
Fixpoint validate_assets (st : state) (l : list BasketAsset)
  : Result unit :=
  match l with
  | [] => Ok tt
  | ba :: rest =>
      match assets st !! assetId ba with
      | None => Throw (AssetNotFound (assetId ba))
      | Some _ => validate_assets st rest
      end
  end.

(** [basket.assets.reduce((sum, ba) => sum + ba.weight, 0)] *)
Definition totalWeight (l : list BasketAsset) : JsNumber.number :=
  fold_left (fun sum ba => JsNumber.add sum (weight ba)) l (JsNumber.of_Z 0).

Definition createBasket (basket : Basket) (now : string) (st : state)
  : Result (Basket * state) :=
  match baskets st !! b_id basket with
  | Some _ => Throw (BasketAlreadyExists (b_id basket))
  | None =>
      let? _ := validate_assets st (b_assets basket) in
      let total := totalWeight (b_assets basket) in
      if negb (JsNumber.strict_eq total (JsNumber.of_Z 100))
      then Throw (WeightsMustSumTo100 total)
      else
        let fullBasket := stamp_basket basket now in
        Ok (fullBasket,
            {| assets := assets st;
               baskets := <[b_id basket := fullBasket]> (baskets st) |})
  end.

(** [(totalAmountNum * basketAsset.weight) / 100] rendered by
    [toString]. *)
Definition proportionalAmount (totalAmountNum : JsNumber.number)
    (ba : BasketAsset) : JsNumber.number :=
  JsNumber.div (JsNumber.mul totalAmountNum (weight ba)) (JsNumber.of_Z 100).

(** The body of the [for] loop of [expandBasket]: entries whose asset is
    not in the asset map are passed over by [continue]. *)
Fixpoint expand_entries (st : state) (totalAmountNum : JsNumber.number)
    (l : list BasketAsset) : list (Asset * string) :=
  match l with
  | [] => []
  | ba :: rest =>
      match assets st !! assetId ba with
      | None => expand_entries st totalAmountNum rest
      | Some asset =>
          (asset, JsNumber.toString (proportionalAmount totalAmountNum ba))
            :: expand_entries st totalAmountNum rest
      end
  end.

Definition expandBasket (basketId : string) (totalAmount : string)
    (st : state) : Result (list (Asset * string)) :=
  match baskets st !! basketId with
  | None => Throw (BasketNotFound basketId)
  | Some basket =>
      let totalAmountNum := JsNumber.parseFloat totalAmount in
      Ok (expand_entries st totalAmountNum (b_assets basket))
  end.

(** The calls a client of the registry can make, and the state they leave
    behind (a call that throws leaves it as it was). *)
Inductive call :=
| RegisterAsset (asset : Asset) (now : string)
| CreateBasket (basket : Basket) (now : string).

Definition step (st : state) (c : call) : state :=
  match c with
  | RegisterAsset asset now =>
      match registerAsset asset now st with
      | inr (_, st') => st'
      | inl _ => st
      end
  | CreateBasket basket now =>
      match createBasket basket now st with
      | inr (_, st') => st'
      | inl _ => st
      end
  end.

Definition run (calls : list call) (st : state) : state :=
  fold_left step calls st.

End AssetRegistry.

(** ** MintStateService (services/mint-state.ts) *)

(** [status?: 'completed' | 'failed'] *)
Inductive TerminalStatus := Completed | Failed.

Definition status_of (t : TerminalStatus) : MintStatus :=
  match t with Completed => completed | Failed => failed end.

(** The [updates] argument of [updateMintRecord]; [None] is an absent
    property. *)
Record MintUpdates (A : Type) := {
  u_status : option TerminalStatus;
  u_assets : option (list A);
  u_error : option string;
}.
Arguments u_status {A} _.
Arguments u_assets {A} _.
Arguments u_error {A} _.

Module MintStateService.

(** [private mints: Map<string, MintRecord>] *)
Abbreviation state := (gmap string MintRecord).

Definition mint_id (transactionId : string) : string :=
  ("mint-" ++ transactionId)%string.

Definition createMintRecord (basketId transactionId beneficiary amount : string)
    (assets : list MintedAsset) (now : string) (mints : state)
  : MintRecord * state :=
  let id := mint_id transactionId in
  let record :=
    {| mr_id := id; mr_basketId := basketId;
       mr_transactionId := transactionId; mr_beneficiary := beneficiary;
       mr_amount := amount; mr_assets := assets; mr_status := pending;
       mr_createdAt := now; mr_completedAt := None; mr_error := None |} in
  (record, <[id := record]> mints).

Definition getMintRecord (id : string) (mints : state) : option MintRecord :=
  mints !! id.

(** [{ ...record, ...updates, completedAt: updates.status ? now :
    record.completedAt }] *)
Definition apply_updates (record : MintRecord)
    (updates : MintUpdates MintedAsset) (now : string) : MintRecord :=
  {| mr_id := mr_id record; mr_basketId := mr_basketId record;
     mr_transactionId := mr_transactionId record;
     mr_beneficiary := mr_beneficiary record;
     mr_amount := mr_amount record;
     mr_assets := default (mr_assets record) (u_assets updates);
     mr_status := from_option status_of (mr_status record) (u_status updates);
     mr_createdAt := mr_createdAt record;
     mr_completedAt :=
       match u_status updates with
       | Some _ => Some now
       | None => mr_completedAt record
       end;
     mr_error :=
       match u_error updates with
       | Some e => Some e
       | None => mr_error record
       end |}.

Definition updateMintRecord (id : string) (updates : MintUpdates MintedAsset)
    (now : string) (mints : state) : Result (MintRecord * state) :=
  match mints !! id with
  | None => Throw (MintRecordNotFound id)
  | Some record =>
      let updated := apply_updates record updates now in
      Ok (updated, <[id := updated]> mints)
  end.

(** The calls a client of the service can make, and the ledger they
    leave behind (a call that throws leaves it as it was). *)
Inductive call :=
| Create (basketId transactionId beneficiary amount : string)
    (assets : list MintedAsset) (now : string)
| Update (id : string) (updates : MintUpdates MintedAsset) (now : string).

Definition step (mints : state) (c : call) : state :=
  match c with
  | Create b t ben amt assets now =>
      snd (createMintRecord b t ben amt assets now mints)
  | Update id u now =>
      match updateMintRecord id u now mints with
      | inr (_, mints') => mints'
      | inl _ => mints
      end
  end.

Definition run (calls : list call) (mints : state) : state :=
  fold_left step calls mints.

End MintStateService.

(** ** Multi-chain types used by the ledger (types/multichain.ts) *)

Record ChainMintedAsset := {
  cma_assetId : string;
  cma_symbol : string;
  cma_type : string;
  cma_amount : string;
  cma_chainId : string;
  cma_chainName : string;
  cma_contractAddress : string;
  cma_explorerUrl : option string;
  cma_txHash : option string;
}.

Record MultiChainMintRecord := {
  mcr_id : string;
  mcr_basketId : string;
  mcr_chainId : string;
  mcr_chainName : string;
  mcr_transactionId : string;
  mcr_beneficiary : string;
  mcr_amount : string;
  mcr_assets : list ChainMintedAsset;
  mcr_status : MintStatus;
  mcr_createdAt : string;
  mcr_completedAt : option string;
  mcr_error : option string;
}.

(** ** MultiChainMintStateService (services/multichain-mint-state.ts) *)

Module MultiChainMintStateService.

Abbreviation state := (gmap string MultiChainMintRecord).

Definition mint_id (chainId transactionId : string) : string :=
  ("mint-" ++ chainId ++ "-" ++ transactionId)%string.

Definition createMintRecord
    (basketId chainId chainName transactionId beneficiary amount : string)
    (assets : list ChainMintedAsset) (now : string) (mints : state)
  : MultiChainMintRecord * state :=
  let id := mint_id chainId transactionId in
  let record :=
    {| mcr_id := id; mcr_basketId := basketId; mcr_chainId := chainId;
       mcr_chainName := chainName; mcr_transactionId := transactionId;
       mcr_beneficiary := beneficiary; mcr_amount := amount;
       mcr_assets := assets; mcr_status := pending; mcr_createdAt := now;
       mcr_completedAt := None; mcr_error := None |} in
  (record, <[id := record]> mints).

Definition getMintRecord (id : string) (mints : state)
  : option MultiChainMintRecord :=
  mints !! id.

Definition apply_updates (record : MultiChainMintRecord)
    (updates : MintUpdates ChainMintedAsset) (now : string)
  : MultiChainMintRecord :=
  {| mcr_id := mcr_id record; mcr_basketId := mcr_basketId record;
     mcr_chainId := mcr_chainId record; mcr_chainName := mcr_chainName record;
     mcr_transactionId := mcr_transactionId record;
     mcr_beneficiary := mcr_beneficiary record;
     mcr_amount := mcr_amount record;
     mcr_assets := default (mcr_assets record) (u_assets updates);
     mcr_status :=
       from_option status_of (mcr_status record) (u_status updates);
     mcr_createdAt := mcr_createdAt record;
     mcr_completedAt :=
       match u_status updates with
       | Some _ => Some now
       | None => mcr_completedAt record
       end;
     mcr_error :=
       match u_error updates with
       | Some e => Some e
       | None => mcr_error record
       end |}.

Definition updateMintRecord (id : string)
    (updates : MintUpdates ChainMintedAsset) (now : string) (mints : state)
  : Result (MultiChainMintRecord * state) :=
  match mints !! id with
  | None => Throw (MintRecordNotFound id)
  | Some record =>
      let updated := apply_updates record updates now in
      Ok (updated, <[id := updated]> mints)
  end.

Inductive call :=
| Create (basketId chainId chainName transactionId beneficiary amount : string)
    (assets : list ChainMintedAsset) (now : string)
| Update (id : string) (updates : MintUpdates ChainMintedAsset) (now : string).

Definition step (mints : state) (c : call) : state :=
  match c with
  | Create b ch chn t ben amt assets now =>
      snd (createMintRecord b ch chn t ben amt assets now mints)
  | Update id u now =>
      match updateMintRecord id u now mints with
      | inr (_, mints') => mints'
      | inl _ => mints
      end
  end.

Definition run (calls : list call) (mints : state) : state :=
  fold_left step calls mints.

End MultiChainMintStateService.

(** ** CREWorkflowService (services/cre-workflow.ts) *)

Module CREWorkflowService.

Record PayloadMetadata := {
  pm_timestamp : string;
  pm_assetCount : nat;
  pm_assetTypes : list AssetType;
}.

Record WorkflowPayload := {
  wp_messageType : string;
  wp_transactionId : string;
  wp_senderName : string;
  wp_senderAccount : string;
  wp_senderBankCode : string;
  wp_beneficiaryName : string;
  wp_beneficiaryAccount : string;
  wp_amount : string;
  wp_assets : list AssetPayload;
  wp_valueDate : string;
  wp_bankReference : string;
  wp_metadata : PayloadMetadata;
}.

(** What [runCRESimulation] resolves to. *)
Record SimulationResult := {
  sim_success : bool;
  sim_output : string;
  sim_error : option string;
}.

Record CREWorkflowResult := {
  r_success : bool;
  r_transactionId : string;
  r_mintRecord : option MintRecord;
  r_output : option string;
  r_error : option string;
}.

Definition hex_digit (n : nat) : ascii :=
  ascii_of_nat (if (n <? 10)%nat then 48 + n else 87 + n).

Fixpoint hex_of (s : string) : string :=
  match s with
  | EmptyString => ""
  | String c r =>
      let n := nat_of_ascii c in
      String (hex_digit (n / 16)) (String (hex_digit (n mod 16)) (hex_of r))
  end.

(** A continuation byte of a UTF-8 character. *)
Definition is_continuation (c : ascii) : bool :=
  let n := nat_of_ascii c in (128 <=? n)%nat && (n <=? 191)%nat.

(** [s] without the incomplete character at its end: the flag tells that
    the bytes seen so far, from the end, are continuation bytes. *)
Fixpoint drop_partial_aux (s : string) : string * bool :=
  match s with
  | EmptyString => (EmptyString, true)
  | String c r =>
      let '(r', tail) := drop_partial_aux r in
      if tail then (EmptyString, is_continuation c) else (String c r', false)
  end.

Definition drop_partial (s : string) : string := fst (drop_partial_aux s).

(** [buffer.write(transactionId)] into a buffer of 32 bytes, the string
    being the UTF-8 bytes of the id: the first 32 bytes are written, less
    the bytes of a character that does not fit whole. *)
Definition written (transactionId : string) : string :=
  let head := String.substring 0 32 transactionId in
  match String.get 32 transactionId with
  | Some c => if is_continuation c then drop_partial head else head
  | None => head
  end.

(** [Buffer.alloc(32)], [buffer.write(transactionId)], hexadecimal. *)
Definition generateBankReference (transactionId : string) : string :=
  let written := written transactionId in
  ("0x" ++ hex_of written
        ++ JsNumber.zeros (2 * (32 - String.length written)))%string.

(** [[...new Set(assets.map(a => a.type))]] *)
Fixpoint distinct_types (seen : list AssetType) (l : list AssetType)
  : list AssetType :=
  match l with
  | [] => []
  | t :: r =>
      if existsb (AssetType_eqb t) seen then distinct_types seen r
      else t :: distinct_types (t :: seen) r
  end.

Definition buildWorkflowPayload (transactionId bankReference beneficiary
    amount : string) (assets : list AssetPayload) (now_value now_stamp : string)
  : WorkflowPayload :=
  {| wp_messageType := "MT103-MULTI-ASSET";
     wp_transactionId := transactionId;
     wp_senderName := "BSKT Backend";
     wp_senderAccount := "BSKT001";
     wp_senderBankCode := "BSKTAPI";
     wp_beneficiaryName := "Wallet";
     wp_beneficiaryAccount := beneficiary;
     wp_amount := amount;
     wp_assets := assets;
     wp_valueDate := String.substring 0 10 now_value;
     wp_bankReference := bankReference;
     wp_metadata :=
       {| pm_timestamp := now_stamp;
          pm_assetCount := length assets;
          pm_assetTypes := distinct_types [] (map ap_type assets) |} |}.

(** The reserve balance the mock workflow reports. *)
Definition mockReserveBalance : string := "1000000000".

Definition quoted (s : string) : string :=
  (String (ascii_of_nat 34) s ++ String (ascii_of_nat 34) "")%string.

Definition newline : string := String (ascii_of_nat 10) "".

(** [JSON.stringify({...}, null, 2)] of the mock output (the transaction
    id and the timestamp hold no character that needs escaping). *)
Definition mockOutput (transactionId now : string) : string :=
  ("{" ++ newline
   ++ "  " ++ quoted "success" ++ ": true," ++ newline
   ++ "  " ++ quoted "transactionId" ++ ": " ++ quoted transactionId ++ ","
   ++ newline
   ++ "  " ++ quoted "porVerified" ++ ": true," ++ newline
   ++ "  " ++ quoted "reserveBalance" ++ ": " ++ quoted mockReserveBalance
   ++ "," ++ newline
   ++ "  " ++ quoted "timestamp" ++ ": " ++ quoted now ++ "," ++ newline
   ++ "  " ++ quoted "message" ++ ": "
   ++ quoted "POR verification successful via mock CRE workflow" ++ newline
   ++ "}")%string.

(** The promise of [runCRESimulation] resolves, 1500 ms later, to a
    successful result whatever the payload holds. *)
Definition runCRESimulation (payload : WorkflowPayload) (now : string)
  : SimulationResult :=
  {| sim_success := true;
     sim_output := mockOutput (wp_transactionId payload) now;
     sim_error := None |}.

Definition filterAssets (f : option AssetType)
    (expanded : list (Asset * string)) : list (Asset * string) :=
  match f with
  | Some t => filter (fun ea => AssetType_eqb (a_type (fst ea)) t) expanded
  | None => expanded
  end.

Definition toMintedAsset (ea : Asset * string) : MintedAsset :=
  {| ma_assetId := a_id (fst ea); ma_symbol := a_symbol (fst ea);
     ma_type := a_type (fst ea); ma_amount := snd ea;
     ma_contractAddress := a_contractAddress (fst ea); ma_txHash := None |}.

Definition toAssetPayload (ea : Asset * string) : AssetPayload :=
  {| ap_assetId := a_id (fst ea); ap_symbol := a_symbol (fst ea);
     ap_type := a_type (fst ea); ap_amount := snd ea;
     ap_contractAddress := a_contractAddress (fst ea);
     ap_metadata := a_metadata (fst ea) |}.

(** The [catch] block. *)
Definition failure (transactionId : string) (e : Error) : CREWorkflowResult :=
  {| r_success := false; r_transactionId := transactionId;
     r_mintRecord := None; r_output := None; r_error := Some (message e) |}.

(** The part of [triggerMint] after [await this.runCRESimulation(payload)]:
    it runs on the ledger as it is when the promise resolves. *)
Definition resume (transactionId : string) (mintRecord : MintRecord)
    (mintedAssets : list MintedAsset) (workflowResult : SimulationResult)
    (now : string) (mints : MintStateService.state)
  : CREWorkflowResult * MintStateService.state :=
  if sim_success workflowResult then
    match MintStateService.updateMintRecord (mr_id mintRecord)
            {| u_status := Some Completed; u_assets := Some mintedAssets;
               u_error := None |} now mints with
    | inl e => (failure transactionId e, mints)
    | inr (updated, mints') =>
        ({| r_success := true; r_transactionId := transactionId;
            r_mintRecord := Some updated;
            r_output := Some (sim_output workflowResult);
            r_error := None |}, mints')
    end
  else
    match MintStateService.updateMintRecord (mr_id mintRecord)
            {| u_status := Some Failed; u_assets := None;
               u_error := sim_error workflowResult |} now mints with
    | inl e => (failure transactionId e, mints)
    | inr (_, mints') =>
        (failure transactionId
           (WorkflowFailed
              (match sim_error workflowResult with
               | Some m => if String.eqb m "" then None else Some m
               | None => None
               end)), mints')
    end.

(** [triggerMint] either returns without suspending, or suspends on the
    workflow promise with the ledger as it then is and the code to run when
    the promise resolves. *)
Inductive Outcome :=
| Finished (result : CREWorkflowResult) (mints : MintStateService.state)
| Awaiting (payload : WorkflowPayload) (mints : MintStateService.state)
    (k : SimulationResult -> string -> MintStateService.state ->
         CREWorkflowResult * MintStateService.state).

(** [transactionId] is what [generateTransactionId] drew; [now_create],
    [now_value] and [now_stamp] are the clock readings of
    [createMintRecord] and [buildWorkflowPayload]. *)
Definition triggerMint (request : MintRequest) (transactionId : string)
    (now_create now_value now_stamp : string)
    (registry : AssetRegistry.state) (mints : MintStateService.state)
  : Outcome :=
  let bankReference := generateBankReference transactionId in
  match AssetRegistry.getBasket (rq_basketId request) registry with
  | None =>
      Finished (failure transactionId (BasketNotFound (rq_basketId request)))
        mints
  | Some _ =>
      match AssetRegistry.expandBasket (rq_basketId request)
              (rq_amount request) registry with
      | inl e => Finished (failure transactionId e) mints
      | inr expandedAssets =>
          let filteredAssets :=
            filterAssets (rq_assetTypeFilter request) expandedAssets in
          match filteredAssets with
          | [] => Finished (failure transactionId NoAssetsMatchingFilter) mints
          | _ :: _ =>
              let mintedAssets := map toMintedAsset filteredAssets in
              let '(mintRecord, mints') :=
                MintStateService.createMintRecord (rq_basketId request)
                  transactionId (rq_beneficiary request) (rq_amount request)
                  mintedAssets now_create mints in
              let assetPayloads := map toAssetPayload filteredAssets in
              let payload :=
                buildWorkflowPayload transactionId bankReference
                  (rq_beneficiary request) (rq_amount request) assetPayloads
                  now_value now_stamp in
              Awaiting payload mints'
                (resume transactionId mintRecord mintedAssets)
          end
      end
  end.

(** A whole run: the simulation resolves at [now_sim], the rest of
    [triggerMint] runs at [now_update] on the ledger [between] made of the
    one left at the suspension (other requests may have run meanwhile). *)
Definition triggerMint_run (request : MintRequest) (transactionId : string)
    (now_create now_value now_stamp now_sim now_update : string)
    (between : MintStateService.state -> MintStateService.state)
    (registry : AssetRegistry.state) (mints : MintStateService.state)
  : CREWorkflowResult * MintStateService.state :=
  match triggerMint request transactionId now_create now_value now_stamp
          registry mints with
  | Finished r m => (r, m)
  | Awaiting payload m k =>
      k (runCRESimulation payload now_sim) now_update (between m)
  end.

(** The assets a request is minted for: the expansion of its basket after
    the type filter (none when the basket is unknown). *)
Definition filteredAssetsOf (request : MintRequest)
    (registry : AssetRegistry.state) : list (Asset * string) :=
  match AssetRegistry.getBasket (rq_basketId request) registry with
  | Some basket =>
      filterAssets (rq_assetTypeFilter request)
        (AssetRegistry.expand_entries registry
           (JsNumber.parseFloat (rq_amount request)) (b_assets basket))
  | None => []
  end.

(** A request is accepted when [triggerMint] gets past its two [throw]s:
    the basket exists and at least one asset is left after the filter. *)
Definition accepted (request : MintRequest) (registry : AssetRegistry.state)
  : bool :=
  match filteredAssetsOf request registry with
  | [] => false
  | _ :: _ => true
  end.

End CREWorkflowService.

(** ** Plain JavaScript objects used as string-keyed records *)

Module JsObject.

(** The own enumerable properties, in creation order. An object has each
    property name once ([wf]). *)
Abbreviation t V := (list (string * V)).

Definition wf {V} (o : t V) : Prop := NoDup (map fst o).

Fixpoint own {V} (o : t V) (k : string) : option V :=
  match o with
  | [] => None
  | (k', v) :: r => if String.eqb k' k then Some v else own r k
  end.

(** The properties every plain object inherits from [Object.prototype];
    all of them are functions or objects, hence truthy. *)
Definition inherited_keys : list string :=
  [ "constructor"; "__defineGetter__"; "__defineSetter__"; "hasOwnProperty";
    "__lookupGetter__"; "__lookupSetter__"; "isPrototypeOf";
    "propertyIsEnumerable"; "toString"; "valueOf"; "__proto__";
    "toLocaleString" ].

Definition inherited (k : string) : bool :=
  existsb (String.eqb k) inherited_keys.

(** Truthiness of [o[k]] for an object whose own values are objects: the
    own property when there is one, the inherited one otherwise. *)
Definition truthy {V} (o : t V) (k : string) : bool :=
  match own o k with
  | Some _ => true
  | None => inherited k
  end.

(** [o[k] = v] for a [k] that is not [__proto__]. *)
Fixpoint set {V} (o : t V) (k : string) (v : V) : t V :=
  match o with
  | [] => [(k, v)]
  | (k', v') :: r =>
      if String.eqb k' k then (k', v) :: r else (k', v') :: set r k v
  end.

(** [delete o[k]] *)
Definition delete {V} (o : t V) (k : string) : t V :=
  filter (fun p => negb (String.eqb (fst p) k)) o.

(** An array index: the canonical decimal form of an integer below
    [2^32 - 1]. *)
Definition array_index (k : string) : option Z :=
  let '(v, n, rest) := JsNumber.take_digits 0 0%nat k in
  if (negb (n =? 0)%nat) && String.eqb rest ""
     && String.eqb (JsNumber.digits_of_Z v) k && (v <? 4294967295)
  then Some v else None.

Fixpoint insert_index (i : Z) (k : string) (l : list (Z * string))
  : list (Z * string) :=
  match l with
  | [] => [(i, k)]
  | (j, k') :: r =>
      if i <=? j then (i, k) :: l else (j, k') :: insert_index i k r
  end.

(** [Object.keys(o)]: array indices in ascending order, then the other
    names in creation order. *)
Definition keys {V} (o : t V) : list string :=
  let names := map fst o in
  let idx :=
    fold_right (fun k acc =>
                  match array_index k with
                  | Some i => insert_index i k acc
                  | None => acc
                  end) [] names in
  map snd idx
  ++ filter (fun k => bool_decide (array_index k = None)) names.

End JsObject.

(** ** POST /:basketId/expand (routes/baskets.ts) *)

Module BasketsRoute.

Record ExpandedItem := {
  ei_assetId : string;
  ei_symbol : string;
  ei_type : AssetType;
  ei_amount : string;
}.

(** The [error] of a 400 answer: a text the code gives, or the message of
    the TypeError that destructuring [req.body] raises (its wording is the
    engine's). *)
Inductive ErrorText :=
| Text (s : string)
| DestructureTypeError.

Inductive Response :=
| Status400 (error : ErrorText) (msg : option string)
| Json200 (basketId : string) (totalAmount : string)
    (items : list ExpandedItem).

(** [const { amount } = req.body]. The body is [None] ([undefined]) when no
    parser filled it in; [undefined] and [null] cannot be destructured
    (the outer [None]); a value that is not an object has no property
    [amount] (the inner [None] is [undefined]). *)
Definition body_amount (body : option JsValue) : option (option JsValue) :=
  match body with
  | None | Some JNull => None
  | Some (JObj props) => Some (JsObject.own props "amount")
  | Some _ => Some None
  end.

(** [!amount || typeof amount !== 'string'] *)
Definition amount_string (amount : option JsValue) : option string :=
  match amount with
  | Some (JStr s) => if String.eqb s "" then None else Some s
  | _ => None
  end.

(** The handler: every throw inside the [try] is answered by the [catch]
    with status 400 and the error's message. *)
Definition expand (basketId : string) (body : option JsValue)
    (st : AssetRegistry.state) : Response :=
  match body_amount body with
  | None => Status400 DestructureTypeError None
  | Some amount =>
      match amount_string amount with
      | None =>
          Status400 (Text "VALIDATION_ERROR")
            (Some "amount is required and must be a string")
      | Some amount =>
          match AssetRegistry.expandBasket basketId amount st with
          | inl e => Status400 (Text (message e)) None
          | inr expanded =>
              Json200 basketId amount
                (map (fun e : Asset * string =>
                        {| ei_assetId := a_id (fst e);
                           ei_symbol := a_symbol (fst e);
                           ei_type := a_type (fst e);
                           ei_amount := snd e |}) expanded)
          end
      end
  end.

End BasketsRoute.

(** ** Multi-chain entities (types/multichain.ts) *)

Record ChainAsset := {
  ca_chainId : string;
  ca_contractAddress : string;
  ca_decimals : JsNumber.number;
  ca_metadata : Metadata;
}.

(** Objects that several values may hold are named by references. *)
Abbreviation object_ref := nat.

(** [chains] is a reference to the object that holds the asset's chains:
    two assets can hold the same object. [defaultChain] is [None] when the
    property holds [undefined], which is what element 0 of an empty array
    is. *)
Record MultiChainAsset := {
  mca_id : string;
  mca_type : AssetType;
  mca_name : string;
  mca_symbol : string;
  mca_chains : object_ref;
  mca_defaultChain : option string;
  mca_metadata : Metadata;
  mca_createdAt : string;
  mca_updatedAt : string;
}.

Record ChainBasketAsset := {
  cba_assetId : string;
  cba_weight : JsNumber.number;
  cba_proportion : string;
  cba_chainId : option string;
}.

Record MultiChainBasket := {
  mcb_id : string;
  mcb_name : string;
  mcb_symbol : string;
  mcb_description : option string;
  mcb_assets : list ChainBasketAsset;
  mcb_supportedChains : list string;
  mcb_defaultChain : option string;
  mcb_status : BasketStatus;
  mcb_createdAt : string;
  mcb_updatedAt : string;
}.

(** The property key a value is converted to when it indexes an object. *)
Definition property_key (k : option string) : string :=
  match k with
  | Some s => s
  | None => "undefined"
  end.

(** ** MultiChainAssetRegistry (services/multichain-asset-registry.ts) *)

Module MultiChainAssetRegistry.

(** The private map of the class, and the [chains] objects of the program.
    [registerMultiChainAsset] stores [{ ...asset, createdAt, updatedAt }]:
    the spread copies the properties of [asset], not the objects they hold,
    so the stored asset holds the [chains] object of the caller, and assets
    registered with one object share it. [addAssetToChain] and
    [removeAssetFromChain] change that object in place. A reference that
    [objects] does not hold reads as the empty object. *)
Record state := {
  assets : gmap string MultiChainAsset;
  objects : gmap object_ref (JsObject.t ChainAsset);
}.

(** The registry before the first call, with the objects the callers
    hold. *)
Definition init (objects : gmap object_ref (JsObject.t ChainAsset)) : state :=
  {| assets := ∅; objects := objects |}.

(** [asset.chains] *)
Definition chains_of (st : state) (asset : MultiChainAsset)
  : JsObject.t ChainAsset :=
  objects st !!! mca_chains asset.

(** [asset.defaultChain = ...; asset.updatedAt = ...] on the stored
    asset. *)
Definition with_default (asset : MultiChainAsset)
    (defaultChain : option string) (updatedAt : string) : MultiChainAsset :=
  {| mca_id := mca_id asset; mca_type := mca_type asset;
     mca_name := mca_name asset; mca_symbol := mca_symbol asset;
     mca_chains := mca_chains asset; mca_defaultChain := defaultChain;
     mca_metadata := mca_metadata asset;
     mca_createdAt := mca_createdAt asset; mca_updatedAt := updatedAt |}.

Definition registerMultiChainAsset (asset : MultiChainAsset) (now : string)
    (st : state) : Result (MultiChainAsset * state) :=
  match assets st !! mca_id asset with
  | Some _ => Throw (AssetAlreadyExists (mca_id asset))
  | None =>
      if (length (JsObject.keys (chains_of st asset)) =? 0)%nat
      then Throw AtLeastOneChain
      else if negb (JsObject.truthy (chains_of st asset)
                      (property_key (mca_defaultChain asset)))
      then Throw (DefaultChainNotInAssetChains
                    (property_key (mca_defaultChain asset)))
      else
        let fullAsset :=
          {| mca_id := mca_id asset; mca_type := mca_type asset;
             mca_name := mca_name asset; mca_symbol := mca_symbol asset;
             mca_chains := mca_chains asset;
             mca_defaultChain := mca_defaultChain asset;
             mca_metadata := mca_metadata asset;
             mca_createdAt := now; mca_updatedAt := now |} in
        Ok (fullAsset,
            {| assets := <[mca_id asset := fullAsset]> (assets st);
               objects := objects st |})
  end.

Definition getAsset (id : string) (st : state) : option MultiChainAsset :=
  assets st !! id.

(** [asset.chains[chainId] = chainAsset] writes into the object the asset
    holds. *)
Definition addAssetToChain (assetId chainId : string) (chainAsset : ChainAsset)
    (now : string) (st : state) : Result (MultiChainAsset * state) :=
  match assets st !! assetId with
  | None => Throw (AssetNotFound assetId)
  | Some asset =>
      if JsObject.truthy (chains_of st asset) chainId
      then Throw (AlreadyDeployedOnChain assetId chainId)
      else
        let asset' := with_default asset (mca_defaultChain asset) now in
        Ok (asset',
            {| assets := <[assetId := asset']> (assets st);
               objects :=
                 <[mca_chains asset :=
                     JsObject.set (chains_of st asset) chainId chainAsset]>
                   (objects st) |})
  end.

(** [delete asset.chains[chainId]] deletes from the object the asset
    holds. *)
Definition removeAssetFromChain (assetId chainId : string) (now : string)
    (st : state) : Result (MultiChainAsset * state) :=
  match assets st !! assetId with
  | None => Throw (AssetNotFound assetId)
  | Some asset =>
      if negb (JsObject.truthy (chains_of st asset) chainId)
      then Throw (NotDeployedOnChain assetId chainId)
      else if (length (JsObject.keys (chains_of st asset)) =? 1)%nat
      then Throw CannotRemoveAssetOnlyChain
      else
        let defaultChain :=
          if bool_decide (mca_defaultChain asset = Some chainId) then
            let remainingChains :=
              filter (fun c => negb (String.eqb c chainId))
                (JsObject.keys (chains_of st asset)) in
            head remainingChains
          else mca_defaultChain asset in
        let asset' := with_default asset defaultChain now in
        Ok (asset',
            {| assets := <[assetId := asset']> (assets st);
               objects :=
                 <[mca_chains asset :=
                     JsObject.delete (chains_of st asset) chainId]>
                   (objects st) |})
  end.

Inductive call :=
| Register (asset : MultiChainAsset) (now : string)
| AddChain (assetId chainId : string) (chainAsset : ChainAsset) (now : string)
| RemoveChain (assetId chainId : string) (now : string).

Definition step (st : state) (c : call) : state :=
  let r :=
    match c with
    | Register asset now => registerMultiChainAsset asset now st
    | AddChain a ch ca now => addAssetToChain a ch ca now st
    | RemoveChain a ch now => removeAssetFromChain a ch now st
    end in
  match r with
  | inr (_, st') => st'
  | inl _ => st
  end.

Definition run (calls : list call) (st : state) : state :=
  fold_left step calls st.

End MultiChainAssetRegistry.

(** ** MultiChainBasketRegistry (services/multichain-basket-registry.ts) *)

Module MultiChainBasketRegistry.

(** The private map of the class. Each basket is kept with the chains its
    [supportedChains] array holds. [createBasket] stores the array it is
    given and [addChainToBasket] pushes onto that array, so baskets created
    from one array also see the chain one of them gains;
    [removeChainFromBasket] gives the basket a new array. The map below
    follows, for each basket, the calls made on that basket. *)
Abbreviation state := (gmap string MultiChainBasket).

(** [supportedChains.includes(defaultChain)]: an array of strings never
    includes [undefined]. *)
Definition includes (l : list string) (k : option string) : bool :=
  match k with
  | Some c => existsb (String.eqb c) l
  | None => false
  end.

Definition with_chains (basket : MultiChainBasket)
    (supportedChains : list string) (defaultChain : option string)
    (updatedAt : string) : MultiChainBasket :=
  {| mcb_id := mcb_id basket; mcb_name := mcb_name basket;
     mcb_symbol := mcb_symbol basket;
     mcb_description := mcb_description basket;
     mcb_assets := mcb_assets basket;
     mcb_supportedChains := supportedChains;
     mcb_defaultChain := defaultChain;
     mcb_status := mcb_status basket;
     mcb_createdAt := mcb_createdAt basket; mcb_updatedAt := updatedAt |}.

Definition totalWeight (l : list ChainBasketAsset) : JsNumber.number :=
  fold_left (fun sum ba => JsNumber.add sum (cba_weight ba)) l
    (JsNumber.of_Z 0).

Definition createBasket (basket : MultiChainBasket) (now : string)
    (st : state) : Result (MultiChainBasket * state) :=
  match st !! mcb_id basket with
  | Some _ => Throw (BasketAlreadyExists (mcb_id basket))
  | None =>
      if (length (mcb_supportedChains basket) =? 0)%nat
      then Throw BasketAtLeastOneChain
      else if negb (includes (mcb_supportedChains basket)
                      (mcb_defaultChain basket))
      then Throw (DefaultChainNotSupported
                    (property_key (mcb_defaultChain basket)))
      else
        let total := totalWeight (mcb_assets basket) in
        if negb (JsNumber.strict_eq total (JsNumber.of_Z 100))
        then Throw (WeightsMustSumTo100 total)
        else
          let fullBasket :=
            {| mcb_id := mcb_id basket; mcb_name := mcb_name basket;
               mcb_symbol := mcb_symbol basket;
               mcb_description := mcb_description basket;
               mcb_assets := mcb_assets basket;
               mcb_supportedChains := mcb_supportedChains basket;
               mcb_defaultChain := mcb_defaultChain basket;
               mcb_status := mcb_status basket;
               mcb_createdAt := now; mcb_updatedAt := now |} in
          Ok (fullBasket, <[mcb_id basket := fullBasket]> st)
  end.

Definition getBasket (id : string) (st : state) : option MultiChainBasket :=
  st !! id.

Definition addChainToBasket (basketId chainId : string) (now : string)
    (st : state) : Result (MultiChainBasket * state) :=
  match st !! basketId with
  | None => Throw (BasketNotFound basketId)
  | Some basket =>
      if includes (mcb_supportedChains basket) (Some chainId)
      then Throw (BasketAlreadySupportsChain basketId chainId)
      else
        let basket' :=
          with_chains basket (mcb_supportedChains basket ++ [chainId])
            (mcb_defaultChain basket) now in
        Ok (basket', <[basketId := basket']> st)
  end.

Definition removeChainFromBasket (basketId chainId : string) (now : string)
    (st : state) : Result (MultiChainBasket * state) :=
  match st !! basketId with
  | None => Throw (BasketNotFound basketId)
  | Some basket =>
      if negb (includes (mcb_supportedChains basket) (Some chainId))
      then Throw (BasketDoesNotSupportChain basketId chainId)
      else if (length (mcb_supportedChains basket) =? 1)%nat
      then Throw CannotRemoveBasketOnlyChain
      else
        let defaultChain :=
          if bool_decide (mcb_defaultChain basket = Some chainId) then
            let remainingChains :=
              filter (fun c => negb (String.eqb c chainId))
                (mcb_supportedChains basket) in
            head remainingChains
          else mcb_defaultChain basket in
        let basket' :=
          with_chains basket
            (filter (fun c => negb (String.eqb c chainId))
               (mcb_supportedChains basket))
            defaultChain now in
        Ok (basket', <[basketId := basket']> st)
  end.

Inductive call :=
| CreateBasket (basket : MultiChainBasket) (now : string)
| AddChain (basketId chainId : string) (now : string)
| RemoveChain (basketId chainId : string) (now : string).

Definition step (st : state) (c : call) : state :=
  let r :=
    match c with
    | CreateBasket basket now => createBasket basket now st
    | AddChain b ch now => addChainToBasket b ch now st
    | RemoveChain b ch now => removeChainFromBasket b ch now st
    end in
  match r with
  | inr (_, st') => st'
  | inl _ => st
  end.

Definition run (calls : list call) (st : state) : state :=
  fold_left step calls st.

End MultiChainBasketRegistry.

(** ** The CRE workflow's mint handler (workflow/main.ts) *)

Module Workflow.

Record ChainConfig := {
  cc_rpcUrl : string;
  cc_stablecoinAddress : string;
  cc_mintingConsumerAddress : option string;
  cc_chainId : option JsNumber.number;
}.

(** [decimals] is [None] when the property is [undefined] or [null]. *)
Record Config := {
  cfg_chains : JsObject.t ChainConfig;
  cfg_porApiUrl : string;
  cfg_decimals : option JsNumber.number;
}.

Record AssetPayload := {
  wa_assetId : string;
  wa_symbol : string;
  wa_type : AssetType;
  wa_amount : string;
  wa_contractAddress : string;
  wa_chainId : string;
  wa_metadata : Metadata;
}.

Record ChainPayload := {
  cp_id : string;
  cp_name : string;
  cp_chainId : JsNumber.number;
  cp_rpcUrl : string;
}.

Record Payload := {
  p_messageType : string;
  p_transactionId : string;
  p_beneficiaryAccount : string;
  p_amount : string;
  p_assets : list AssetPayload;
  p_chain : ChainPayload;
  p_bankReference : string;
}.

(** [const decimals = (config.decimals ?? 6)] *)
Definition decimals (config : Config) : JsNumber.number :=
  default (JsNumber.of_Z 6) (cfg_decimals config).

(** [BigInt(asset.amount) * 10n ** BigInt(decimals)]; the left operand is
    converted first. *)
Definition scaledAmount (config : Config) (asset : AssetPayload) : Result Z :=
  match JsNumber.bigint_of_string (wa_amount asset) with
  | None => Throw (BigIntSyntaxError (wa_amount asset))
  | Some a =>
      match JsNumber.bigint_of_number (decimals config) with
      | None => Throw BigIntRangeError
      | Some d => if d <? 0 then Throw BigIntRangeError else Ok (a * 10 ^ d)
      end
  end.

(** A transaction handed to the runtime's builder: the contract called,
    and the account and the amount that the [mint] call data was encoded
    from. *)
Record Submission := {
  sub_to : string;
  sub_beneficiary : string;
  sub_amount : Z;
}.

Record TxHash := {
  tx_asset : string;
  tx_hash : string;
}.

(** What the handler throws: an error of its own, of [BigInt] or of the
    submission, or the error that viem's [getAddress] or
    [encodeFunctionData] raises when the call data cannot be built. *)
Inductive Thrown :=
| Raised (e : Error)
| EncodingError (account : string) (amount : Z).

Section Handler.

(** viem's [getAddress(payload.beneficiary.account)] and
    [encodeFunctionData] with the scaled amount return: the account is an
    address and the amount a [uint256]. Both run before the transaction is
    built. *)
Variable encodable : string -> Z -> bool.

(** The runtime's transaction builder, from
    [runtime.transaction.to(asset.contractAddress)] to [.submit()]: the hash
    of the transaction, or [None] when the builder throws. *)
Variable submit : Submission -> option string.

(** The [for (const asset of payload.assets)] loop: [sent] collects the
    transactions handed to the builder so far, in order; the first failure
    is rethrown. *)
Fixpoint mint_loop (config : Config) (beneficiary : string)
    (assets : list AssetPayload) (sent : list Submission)
    (txHashes : list TxHash) : list Submission * (Thrown + list TxHash) :=
  match assets with
  | [] => (sent, inr txHashes)
  | asset :: rest =>
      match scaledAmount config asset with
      | inl e => (sent, inl (Raised e))
      | inr scaled =>
          if negb (encodable beneficiary scaled)
          then (sent, inl (EncodingError beneficiary scaled))
          else
            let s := {| sub_to := wa_contractAddress asset;
                        sub_beneficiary := beneficiary;
                        sub_amount := scaled |} in
            match submit s with
            | None =>
                ((sent ++ [s])%list,
                 inl (Raised (SubmissionError (wa_symbol asset))))
            | Some h =>
                mint_loop config beneficiary rest (sent ++ [s])
                  (txHashes
                   ++ [{| tx_asset := wa_symbol asset; tx_hash := h |}])
            end
      end
  end.

(** [onMintRequest], from the normalised [config] on. *)
Definition onMintRequest (config : Config) (payload : Payload)
  : list Submission * (Thrown + list TxHash) :=
  if negb (JsObject.truthy (cfg_chains config) (cp_id (p_chain payload)))
  then ([], inl (Raised (ChainNotConfigured (cp_id (p_chain payload)))))
  else mint_loop config (p_beneficiaryAccount payload) (p_assets payload)
         [] [].

End Handler.

(** Modelled from the spec's words, for comparison with the code: "using
    either a per-asset decimal value or a single global default -- the
    per-asset value always takes precedence when present". The only place
    an asset of the payload can carry such a value is its [metadata]. *)
Definition perAssetDecimals (asset : AssetPayload) : option JsNumber.number :=
  match wa_metadata asset with
  | Some props =>
      match JsObject.own props "decimals" with
      | Some (JNum n) => Some n
      | _ => None
      end
  | None => None
  end.

Definition claimed_decimals (config : Config) (asset : AssetPayload)
  : JsNumber.number :=
  default (decimals config) (perAssetDecimals asset).

End Workflow.

(** ** The dashboard's eligibility check (components/MintRequest.tsx) *)

Module MintRequestComponent.

Inductive Verdict :=
| PORVerificationFailed
| InsufficientReserves
| ACEPolicyRejected
| EligibleForMinting.

Record MintCheckResult := {
  success : bool;
  verdict : Verdict;
  porValid : bool;
  reserveSufficient : bool;
  reserveBalance : string;
  requestedAmount : string;
  policyCheck : bool;
  policyReason : option string;
}.

Definition policyRejectReasons : list string :=
  [ "Beneficiary address is on compliance blacklist";
    "Mint amount exceeds policy limit per transaction";
    "Jurisdiction restriction applies to beneficiary" ].

(** [isPORValid] is the flag read from the flow store; [rnd_reserve],
    [rnd_policy] and [rnd_reason] are the three draws of [Math.random()]. *)
Definition checkMintEligibility (amount : string) (isPORValid : bool)
    (rnd_reserve rnd_policy rnd_reason : JsNumber.number) : MintCheckResult :=
  let reserveBalance :=
    JsNumber.toString
      (JsNumber.floor
         (JsNumber.add (JsNumber.mul rnd_reserve (JsNumber.of_Z 5000000))
            (JsNumber.of_Z 5000000))) in
  let requestedAmount := JsNumber.parseInt amount in
  let porValid := isPORValid in
  let reserveSufficient :=
    JsNumber.le requestedAmount (JsNumber.parseInt reserveBalance) in
  let policyCheck := JsNumber.gt rnd_policy (JsNumber.of_decimal false 2 (-1)) in
  let policyReason :=
    if negb policyCheck then
      match JsNumber.to_integer
              (JsNumber.floor
                 (JsNumber.mul rnd_reason
                    (JsNumber.of_Z (Z.of_nat (length policyRejectReasons)))))
      with
      | Some i => if i <? 0 then None else policyRejectReasons !! Z.to_nat i
      | None => None
      end
    else None in
  let success := porValid && reserveSufficient && policyCheck in
  let verdict :=
    if negb porValid then PORVerificationFailed
    else if negb reserveSufficient then InsufficientReserves
    else if negb policyCheck then ACEPolicyRejected
    else EligibleForMinting in
  {| success := success; verdict := verdict; porValid := porValid;
     reserveSufficient := reserveSufficient; reserveBalance := reserveBalance;
     requestedAmount := amount; policyCheck := policyCheck;
     policyReason := policyReason |}.

End MintRequestComponent.

(** ** Exact decimal amounts *)

(** Modelled from the spec's words, for comparison with the code: "compute
    amount = totalAmount * weight / 100 using decimal (not floating-binary)
    arithmetic". A decimal is [mantissa / 10^scale]. *)
Module ExactDecimal.

Record decimal := {
  mantissa : Z;
  scale : nat;
}.

(** A total amount of the form accepted by the mint route,
    [/^\d+(\.\d+)?$/]. *)
Definition parse (s : string) : option decimal :=
  let '(ip, ilen, rest) := JsNumber.take_digits 0 0%nat s in
  match ilen, rest with
  | O, _ => None
  | _, EmptyString => Some {| mantissa := ip; scale := 0 |}
  | _, String "." r =>
      let '(m, flen, rest') := JsNumber.take_digits ip 0%nat r in
      match flen, rest' with
      | S _, EmptyString => Some {| mantissa := m; scale := flen |}
      | _, _ => None
      end
  | _, _ => None
  end.

(** [d * w / 100] for an integer weight [w], exactly. *)
Definition share (d : decimal) (w : Z) : decimal :=
  {| mantissa := mantissa d * w; scale := scale d + 2 |}.

Fixpoint strip_zeros (fuel : nat) (m : Z) (sc : nat) : Z * nat :=
  match fuel, sc with
  | S f, S sc' => if m mod 10 =? 0 then strip_zeros f (m / 10) sc' else (m, sc)
  | _, _ => (m, sc)
  end.

(** The decimal numeral of a non-negative decimal, without trailing
    zeros. *)
Definition render (d : decimal) : string :=
  let '(m, sc) := strip_zeros (scale d) (mantissa d) (scale d) in
  let ip := m / 10 ^ Z.of_nat sc in
  let fp := m mod 10 ^ Z.of_nat sc in
  match sc with
  | O => JsNumber.digits_of_Z ip
  | _ =>
      let fs := JsNumber.digits_of_Z fp in
      (JsNumber.digits_of_Z ip ++ "." ++
       JsNumber.zeros (sc - String.length fs) ++ fs)%string
  end.

(** The amount the spec asks for: the exact share of the total. *)
Definition exact_amount (totalAmount : string) (w : Z) : option string :=
  match parse totalAmount with
  | Some d => Some (render (share d w))
  | None => None
  end.

End ExactDecimal.

(** ** Concrete registries used in the examples *)

Module Fixtures.

Definition asset (id symbol : string) (decimals : Z) : Asset :=
  {| a_id := id; a_type := monetary; a_name := symbol; a_symbol := symbol;
     a_decimals := JsNumber.of_Z decimals;
     a_contractAddress := "0x0000000000000000000000000000000000000001";
     a_metadata := None; a_createdAt := ""; a_updatedAt := "" |}.

Definition entry (id : string) (w : Z) : BasketAsset :=
  {| assetId := id; weight := JsNumber.of_Z w; proportion := "" |}.

Definition basket (id : string) (entries : list BasketAsset) : Basket :=
  {| b_id := id; b_name := id; b_symbol := id; b_description := None;
     b_assets := entries; b_totalValueLocked := None; b_status := active;
     b_createdAt := ""; b_updatedAt := "" |}.

Definition busd : Basket := basket "busd" [entry "usd" 60; entry "eur" 40].

(** A registry built through the public calls: two assets, one basket. *)
Definition registry : AssetRegistry.state :=
  AssetRegistry.run
    [ AssetRegistry.RegisterAsset (asset "usd" "USD" 6) "2024-01-01T00:00:00.000Z";
      AssetRegistry.RegisterAsset (asset "eur" "EUR" 6) "2024-01-01T00:00:01.000Z";
      AssetRegistry.CreateBasket busd "2024-01-01T00:00:02.000Z" ]
    AssetRegistry.empty.

(** [busd] as [createBasket] stored it. *)
Definition busd_stored : Basket :=
  AssetRegistry.stamp_basket busd "2024-01-01T00:00:02.000Z".

(** The maps as [loadAssets] and [loadBaskets] leave them when the assets
    file holds [usd] only and the baskets file holds [busd]. *)
Definition loaded : AssetRegistry.state :=
  {| AssetRegistry.assets := {[ "usd" := asset "usd" "USD" 6 ]};
     AssetRegistry.baskets := {[ "busd" := busd ]} |}.

(** Two ledgers used in the examples: a record created and completed. *)
Definition completed_ledger : MintStateService.state :=
  MintStateService.run
    [ MintStateService.Create "busd" "BSKT20240101DEADBEEF" "0xabc" "1000" []
        "2024-01-01T00:00:00.000Z";
      MintStateService.Update "mint-BSKT20240101DEADBEEF"
        {| u_status := Some Completed; u_assets := None; u_error := None |}
        "2024-01-01T00:00:02.000Z" ] ∅.

Definition completed_ledger_mc : MultiChainMintStateService.state :=
  MultiChainMintStateService.run
    [ MultiChainMintStateService.Create "busd" "sepolia" "Sepolia"
        "BSKT20240101DEADBEEF" "0xabc" "1000" [] "2024-01-01T00:00:00.000Z";
      MultiChainMintStateService.Update "mint-sepolia-BSKT20240101DEADBEEF"
        {| u_status := Some Completed; u_assets := None; u_error := None |}
        "2024-01-01T00:00:02.000Z" ] ∅.

Definition large_request : MintRequest :=
  {| rq_basketId := "busd";
     rq_beneficiary := "0x00000000000000000000000000000000000000aa";
     rq_amount := "2000000000"; rq_assetTypeFilter := None;
     rq_chainId := None |}.

(** A basket whose supported chains name the same chain twice. *)
Definition twice_sepolia : MultiChainBasket :=
  {| mcb_id := "busd"; mcb_name := "Basket USD"; mcb_symbol := "bUSD";
     mcb_description := None;
     mcb_assets :=
       [ {| cba_assetId := "usd"; cba_weight := JsNumber.of_Z 100;
            cba_proportion := "1"; cba_chainId := None |} ];
     mcb_supportedChains := ["sepolia"; "sepolia"];
     mcb_defaultChain := Some "sepolia"; mcb_status := active;
     mcb_createdAt := ""; mcb_updatedAt := "" |}.

(** The [chains] object of a caller: one chain, "sepolia". *)
Definition sepolia_chains : JsObject.t ChainAsset :=
  [("sepolia",
    {| ca_chainId := "sepolia";
       ca_contractAddress := "0x0000000000000000000000000000000000000003";
       ca_decimals := JsNumber.of_Z 6; ca_metadata := None |})].

(** The objects of the callers: one [chains] object, under reference 0. *)
Definition caller_objects : gmap object_ref (JsObject.t ChainAsset) :=
  {[ 0%nat := sepolia_chains ]}.

Definition sepolia_asset (defaultChain : string) : MultiChainAsset :=
  {| mca_id := "usdc"; mca_type := monetary; mca_name := "USD Coin";
     mca_symbol := "USDC"; mca_chains := 0%nat;
     mca_defaultChain := Some defaultChain; mca_metadata := None;
     mca_createdAt := ""; mca_updatedAt := "" |}.

(** An asset registered on one chain, deployed on a second one, then
    removed from the first. *)
Definition polygon_chain : ChainAsset :=
  {| ca_chainId := "polygon";
     ca_contractAddress := "0x0000000000000000000000000000000000000004";
     ca_decimals := JsNumber.of_Z 6; ca_metadata := None |}.

Definition asset_calls : list MultiChainAssetRegistry.call :=
  [ MultiChainAssetRegistry.Register (sepolia_asset "sepolia")
      "2024-01-01T00:00:00.000Z";
    MultiChainAssetRegistry.AddChain "usdc" "polygon" polygon_chain
      "2024-01-01T00:00:01.000Z";
    MultiChainAssetRegistry.RemoveChain "usdc" "sepolia"
      "2024-01-01T00:00:02.000Z" ].

(** Two assets registered with one [chains] object that holds "sepolia"
    and "polygon"; then the first is removed from "polygon", the default
    chain of the second. *)
Definition shared_objects : gmap object_ref (JsObject.t ChainAsset) :=
  {[ 0%nat := JsObject.set sepolia_chains "polygon" polygon_chain ]}.

Definition usdt_asset : MultiChainAsset :=
  {| mca_id := "usdt"; mca_type := monetary; mca_name := "Tether";
     mca_symbol := "USDT"; mca_chains := 0%nat;
     mca_defaultChain := Some "polygon"; mca_metadata := None;
     mca_createdAt := ""; mca_updatedAt := "" |}.

(** [usdt_asset] as [registerMultiChainAsset] stores it. *)
Definition usdt_stored : MultiChainAsset :=
  {| mca_id := "usdt"; mca_type := monetary; mca_name := "Tether";
     mca_symbol := "USDT"; mca_chains := 0%nat;
     mca_defaultChain := Some "polygon"; mca_metadata := None;
     mca_createdAt := "2024-01-01T00:00:01.000Z";
     mca_updatedAt := "2024-01-01T00:00:01.000Z" |}.

Definition shared_calls : list MultiChainAssetRegistry.call :=
  [ MultiChainAssetRegistry.Register (sepolia_asset "sepolia")
      "2024-01-01T00:00:00.000Z";
    MultiChainAssetRegistry.Register usdt_asset "2024-01-01T00:00:01.000Z";
    MultiChainAssetRegistry.RemoveChain "usdc" "polygon"
      "2024-01-01T00:00:02.000Z" ].

(** A basket created on one chain, extended to a second one, then removed
    from the first. *)
Definition on_sepolia : MultiChainBasket :=
  {| mcb_id := "busd"; mcb_name := "Basket USD"; mcb_symbol := "bUSD";
     mcb_description := None;
     mcb_assets :=
       [ {| cba_assetId := "usd"; cba_weight := JsNumber.of_Z 100;
            cba_proportion := "1"; cba_chainId := None |} ];
     mcb_supportedChains := ["sepolia"];
     mcb_defaultChain := Some "sepolia"; mcb_status := active;
     mcb_createdAt := ""; mcb_updatedAt := "" |}.

Definition basket_calls : list MultiChainBasketRegistry.call :=
  [ MultiChainBasketRegistry.CreateBasket on_sepolia
      "2024-01-01T00:00:00.000Z";
    MultiChainBasketRegistry.AddChain "busd" "polygon"
      "2024-01-01T00:00:01.000Z";
    MultiChainBasketRegistry.RemoveChain "busd" "sepolia"
      "2024-01-01T00:00:02.000Z" ].

(** Two requests whose weights sum to 90: one over registered assets, one
    naming an asset that is not registered. *)
Definition underweight : Basket :=
  basket "beur" [entry "usd" 60; entry "eur" 30].

Definition underweight_unknown : Basket :=
  basket "bgbp" [entry "usd" 60; entry "gbp" 30].

End Fixtures.

Module WorkflowFixtures.
Import Workflow.

Definition config6 : Config :=
  {| cfg_chains := []; cfg_porApiUrl := "";
     cfg_decimals := Some (JsNumber.of_Z 6) |}.

(** An asset of the payload that carries a decimal value of its own. *)
Definition asset18 : AssetPayload :=
  {| wa_assetId := "weth"; wa_symbol := "WETH"; wa_type := digital_asset;
     wa_amount := "600";
     wa_contractAddress := "0x0000000000000000000000000000000000000002";
     wa_chainId := "sepolia";
     wa_metadata := Some [("decimals", JNum (JsNumber.of_Z 18))] |}.

End WorkflowFixtures.

(** ** Predicates used in the statements *)

Module Invariants.
Import AssetRegistry.

(** An entry of a basket names a registered asset. *)
Definition registered (st : state) (ba : BasketAsset) : Prop :=
  is_Some (assets st !! assetId ba).

(** Every basket of the registry names registered assets only. *)
Definition baskets_closed (st : state) : Prop :=
  map_Forall (fun _ b => Forall (registered st) (b_assets b)) (baskets st).

(** [f] holds on [lo], [lo + 1], ..., [lo + n - 1]. *)
Fixpoint range_forallb (lo : Z) (n : nat) (f : Z -> bool) : bool :=
  match n with
  | O => true
  | S k => f lo && range_forallb (lo + 1) k f
  end.

(** The amount of one entry for the whole total [T] and the whole weight
    [w] is the exact share. *)
Definition share_is_exact (T w : Z) : bool :=
  let total := JsNumber.digits_of_Z T in
  match ExactDecimal.exact_amount total w with
  | Some exact =>
      String.eqb
        (JsNumber.toString
           (JsNumber.div
              (JsNumber.mul (JsNumber.parseFloat total) (JsNumber.of_Z w))
              (JsNumber.of_Z 100)))
        exact
  | None => false
  end.

(** The weights of a basket sum to 100, as [createBasket] computes the
    sum. *)
Definition weights_sum_to_100 (b : Basket) : Prop :=
  JsNumber.strict_eq (totalWeight (b_assets b)) (JsNumber.of_Z 100) = true.

Definition baskets_weighted (st : state) : Prop :=
  map_Forall (fun _ b => weights_sum_to_100 b) (baskets st).

(** A record's completion timestamp is set exactly when its status is
    terminal. *)
Definition stamped (r : MintRecord) : Prop :=
  is_Some (mr_completedAt r) <-> is_terminal (mr_status r) = true.

Definition stamped_mc (r : MultiChainMintRecord) : Prop :=
  is_Some (mcr_completedAt r) <-> is_terminal (mcr_status r) = true.

(** The asset is on at least one chain. *)
Definition chains_nonempty (st : MultiChainAssetRegistry.state)
    (a : MultiChainAsset) : Prop :=
  JsObject.keys (MultiChainAssetRegistry.chains_of st a) <> [].

(** The default chain is one of the asset's chains. *)
Definition default_in_chains (st : MultiChainAssetRegistry.state)
    (a : MultiChainAsset) : Prop :=
  exists c, mca_defaultChain a = Some c
            /\ c ∈ JsObject.keys (MultiChainAssetRegistry.chains_of st a).

(** The objects have each chain id once, as every object has. *)
Definition objects_wf (h : gmap object_ref (JsObject.t ChainAsset)) : Prop :=
  map_Forall (fun _ o => JsObject.wf o) h.

(** The default chain of a registered asset is a string that is not the
    name of a property inherited from [Object.prototype]. *)
Definition asset_call_default_plain (c : MultiChainAssetRegistry.call) : Prop :=
  match c with
  | MultiChainAssetRegistry.Register a _ =>
      exists d, mca_defaultChain a = Some d /\ JsObject.inherited d = false
  | _ => True
  end.

(** Every object has each chain id once, and every asset of the registry
    is on at least one chain. *)
Definition registry_sound (st : MultiChainAssetRegistry.state) : Prop :=
  objects_wf (MultiChainAssetRegistry.objects st)
  /\ map_Forall (fun _ a => chains_nonempty st a)
       (MultiChainAssetRegistry.assets st).

Definition defaults_ok (st : MultiChainAssetRegistry.state) : Prop :=
  map_Forall (fun _ a => default_in_chains st a)
    (MultiChainAssetRegistry.assets st).

(** No two assets of the registry hold the same [chains] object. *)
Definition unshared (st : MultiChainAssetRegistry.state) : Prop :=
  forall id1 a1 id2 a2,
    MultiChainAssetRegistry.assets st !! id1 = Some a1 ->
    MultiChainAssetRegistry.assets st !! id2 = Some a2 ->
    mca_chains a1 = mca_chains a2 -> id1 = id2.

(** The [chains] objects handed to [registerMultiChainAsset], call by
    call. *)
Definition register_refs (calls : list MultiChainAssetRegistry.call)
  : list object_ref :=
  omap (fun c =>
          match c with
          | MultiChainAssetRegistry.Register a _ => Some (mca_chains a)
          | _ => None
          end) calls.

(** No asset of the registry holds an object that one of the calls will
    hand to [registerMultiChainAsset]. *)
Definition fresh_for (calls : list MultiChainAssetRegistry.call)
    (st : MultiChainAssetRegistry.state) : Prop :=
  forall id a,
    MultiChainAssetRegistry.assets st !! id = Some a ->
    mca_chains a ∉ register_refs calls.

Definition basket_chains_ok (b : MultiChainBasket) : Prop :=
  mcb_supportedChains b <> []
  /\ exists c, mcb_defaultChain b = Some c /\ c ∈ mcb_supportedChains b.

(** The baskets handed to [createBasket] list each supported chain
    once. *)
Definition basket_call_nodup (c : MultiChainBasketRegistry.call) : Prop :=
  match c with
  | MultiChainBasketRegistry.CreateBasket b _ => NoDup (mcb_supportedChains b)
  | _ => True
  end.

Definition weights_sum_to_100_mc (b : MultiChainBasket) : Prop :=
  JsNumber.strict_eq (MultiChainBasketRegistry.totalWeight (mcb_assets b))
    (JsNumber.of_Z 100) = true.

(** What a submission of the loop holds, for the asset it is made for. *)
Definition submitted_for (config : Workflow.Config) (beneficiary : string)
    (s : Workflow.Submission) (asset : Workflow.AssetPayload) : Prop :=
  Workflow.sub_to s = Workflow.wa_contractAddress asset
  /\ Workflow.sub_beneficiary s = beneficiary
  /\ Workflow.scaledAmount config asset = Ok (Workflow.sub_amount s).

(** The binary64 value of a whole number [c] with [0 < c < 2^53]: the
    mantissa is [c] shifted to 53 bits. *)
Definition whole (c : Z) : JsNumber.number :=
  let d := Z.log2 c + 1 in
  S754_finite false (Z.to_pos (c * 2 ^ (53 - d))) (d - 53).

(** The sum of a list of whole weights. *)
Definition sum_Z (ws : list Z) : Z := fold_right Z.add 0 ws.

End Invariants.

(** ** Characters of a string *)

(** The string holds the character [c]. *)
Fixpoint has_char (c : ascii) (s : string) : bool :=
  match s with
  | EmptyString => false
  | String x r => Ascii.eqb x c || has_char c r
  end.

(** ** The status route (routes/mints.ts) *)

Module MintsRoute.

Inductive Response (A : Type) :=
| Status404
| Json200 (mintRecord : A).
Arguments Status404 {A}.
Arguments Json200 {A} _.

(** [GET /status/:transactionId] *)
Definition status (transactionId : string) (mints : MintStateService.state)
  : Response MintRecord :=
  let mintId := ("mint-" ++ transactionId)%string in
  match MintStateService.getMintRecord mintId mints with
  | None => Status404
  | Some record => Json200 record
  end.

End MintsRoute.

(** ** Predicates on ledgers and calls *)

Module LedgerInvariants.

(** The call creates the record stored under [id]. *)
Definition recreates (id : string) (c : MintStateService.call) : Prop :=
  match c with
  | MintStateService.Create _ t _ _ _ _ => MintStateService.mint_id t = id
  | MintStateService.Update _ _ _ => False
  end.

Definition recreates_mc (id : string) (c : MultiChainMintStateService.call)
  : Prop :=
  match c with
  | MultiChainMintStateService.Create _ ch _ t _ _ _ _ =>
      MultiChainMintStateService.mint_id ch t = id
  | MultiChainMintStateService.Update _ _ _ => False
  end.

(** What a record says about the request it was created for. *)
Definition same_request (r r' : MintRecord) : Prop :=
  mr_id r' = mr_id r
  /\ mr_basketId r' = mr_basketId r
  /\ mr_transactionId r' = mr_transactionId r
  /\ mr_beneficiary r' = mr_beneficiary r
  /\ mr_amount r' = mr_amount r
  /\ mr_createdAt r' = mr_createdAt r.

Definition same_request_mc (r r' : MultiChainMintRecord) : Prop :=
  mcr_id r' = mcr_id r
  /\ mcr_basketId r' = mcr_basketId r
  /\ mcr_chainId r' = mcr_chainId r
  /\ mcr_chainName r' = mcr_chainName r
  /\ mcr_transactionId r' = mcr_transactionId r
  /\ mcr_beneficiary r' = mcr_beneficiary r
  /\ mcr_amount r' = mcr_amount r
  /\ mcr_createdAt r' = mcr_createdAt r.

End LedgerInvariants.
(** ** Predicates on the orchestrator's payload *)

Module PayloadInvariants.

(** The ledger's entry and the payload's entry describe the same asset and
    the same amount. *)
Definition same_asset (m : MintedAsset) (p : AssetPayload) : Prop :=
  ma_assetId m = ap_assetId p
  /\ ma_symbol m = ap_symbol p
  /\ ma_type m = ap_type p
  /\ ma_amount m = ap_amount p
  /\ ma_contractAddress m = ap_contractAddress p.

End PayloadInvariants.
(** ** Transaction ids (services/cre-workflow.ts) *)

Module TransactionIds.

(** [s.replace(/-/g, '')] *)
Fixpoint remove_dashes (s : string) : string :=
  match s with
  | EmptyString => ""
  | String c r =>
      if Ascii.eqb c "-" then remove_dashes r else String c (remove_dashes r)
  end.

(** [toUpperCase] on a string of hexadecimal digits: the letters [a] to
    [z] are the only characters it could change. *)
Definition upper (c : ascii) : ascii :=
  let n := nat_of_ascii c in
  if (97 <=? n)%nat && (n <=? 122)%nat then ascii_of_nat (n - 32) else c.

Fixpoint toUpperCase (s : string) : string :=
  match s with
  | EmptyString => ""
  | String c r => String (upper c) (toUpperCase r)
  end.

(** [generateTransactionId]: [iso] is what [new Date().toISOString()]
    returns and [b0] to [b3] are the bytes of [crypto.randomBytes(4)]. *)
Definition generateTransactionId (iso : string) (b0 b1 b2 b3 : ascii)
  : string :=
  let timestamp := remove_dashes (String.substring 0 10 iso) in
  let random :=
    toUpperCase
      (CREWorkflowService.hex_of
         (String b0 (String b1 (String b2 (String b3 ""))))) in
  ("BSKT" ++ timestamp ++ random)%string.

End TransactionIds.
(** ** Queries on the mint ledger (services/mint-state.ts, routes/mints.ts) *)

Module MintQueries.

(** The queries walk [this.mints] in the order the map iterates it; here
    they take that sequence, [values], as their argument. A listing of a
    ledger holds the records of the ledger, each once. *)
Definition listing (mints : MintStateService.state)
    (values : list MintRecord) : Prop :=
  values ≡ₚ (map_to_list mints).*2.

Definition status_eqb (a b : MintStatus) : bool :=
  match a, b with
  | pending, pending | completed, completed | failed, failed => true
  | _, _ => false
  end.

Definition has_status (s : MintStatus) (mint : MintRecord) : bool :=
  status_eqb (mr_status mint) s.

Definition getMintsByBasket (basketId : string) (values : list MintRecord)
  : list MintRecord :=
  filter (fun mint => String.eqb (mr_basketId mint) basketId) values.

Definition getMintsByBeneficiary (beneficiary : string)
    (values : list MintRecord) : list MintRecord :=
  filter (fun mint => String.eqb (mr_beneficiary mint) beneficiary) values.

Definition getAllMints (values : list MintRecord) : list MintRecord := values.

Record TotalMinted := {
  tm_symbol : string;
  tm_totalAmount : string;
  tm_count : nat;
}.

(** The body of the inner [forEach] of [getTotalMintedByAsset], on
    [totalAmount], [count] and [symbol]. *)
Definition count_asset (assetId : string)
    (acc : JsNumber.number * nat * string) (asset : MintedAsset)
  : JsNumber.number * nat * string :=
  let '(totalAmount, count, symbol) := acc in
  if String.eqb (ma_assetId asset) assetId
  then (JsNumber.add totalAmount (JsNumber.parseFloat (ma_amount asset)),
        S count, ma_symbol asset)
  else acc.

Definition count_mint (assetId : string)
    (acc : JsNumber.number * nat * string) (mint : MintRecord)
  : JsNumber.number * nat * string :=
  if has_status completed mint
  then fold_left (count_asset assetId) (mr_assets mint) acc
  else acc.

Definition getTotalMintedByAsset (assetId : string)
    (values : list MintRecord) : TotalMinted :=
  let '(totalAmount, count, symbol) :=
    fold_left (count_mint assetId) values (JsNumber.of_Z 0, 0%nat, assetId) in
  {| tm_symbol := symbol;
     tm_totalAmount := JsNumber.toString totalAmount;
     tm_count := count |}.

Record AssetTotal := {
  at_symbol : string;
  at_amount : JsNumber.number;
}.

(** [if (!assetTotals[id]) assetTotals[id] = { symbol, amount: 0 };
    assetTotals[id].amount += parseFloat(asset.amount)]. When [id] names
    a property that [assetTotals] inherits, nothing is created and the
    addition lands on the inherited object: the own properties stay as they
    are. *)
Definition add_asset_total (totals : JsObject.t AssetTotal)
    (asset : MintedAsset) : JsObject.t AssetTotal :=
  let id := ma_assetId asset in
  let totals1 :=
    if negb (JsObject.truthy totals id)
    then JsObject.set totals id
           {| at_symbol := ma_symbol asset; at_amount := JsNumber.of_Z 0 |}
    else totals in
  match JsObject.own totals1 id with
  | Some t =>
      JsObject.set totals1 id
        {| at_symbol := at_symbol t;
           at_amount := JsNumber.add (at_amount t)
                          (JsNumber.parseFloat (ma_amount asset)) |}
  | None => totals1
  end.

Record BasketStats := {
  bs_totalMints : nat;
  bs_completed : nat;
  bs_failed : nat;
  bs_pending : nat;
  bs_totalMinted : string;
  bs_assetTotals : JsObject.t AssetTotal;
}.

Definition getBasketStats (basketId : string) (values : list MintRecord)
  : BasketStats :=
  let mints := getMintsByBasket basketId values in
  let completed := filter (has_status completed) mints in
  let failed := filter (has_status failed) mints in
  let pending := filter (has_status pending) mints in
  let totalMinted :=
    fold_left (fun sum mint =>
                 JsNumber.add sum (JsNumber.parseFloat (mr_amount mint)))
      completed (JsNumber.of_Z 0) in
  let assetTotals :=
    fold_left (fun totals mint =>
                 fold_left add_asset_total (mr_assets mint) totals)
      completed [] in
  {| bs_totalMints := length mints;
     bs_completed := length completed;
     bs_failed := length failed;
     bs_pending := length pending;
     bs_totalMinted := JsNumber.toString totalMinted;
     bs_assetTotals := assetTotals |}.

(** The [stats] of [GET /] in routes/mints.ts. *)
Record MintCounts := {
  mc_total : nat;
  mc_completed : nat;
  mc_failed : nat;
  mc_pending : nat;
}.

Definition allMintsStats (values : list MintRecord) : MintCounts :=
  let mints := getAllMints values in
  {| mc_total := length mints;
     mc_completed := length (filter (has_status completed) mints);
     mc_failed := length (filter (has_status failed) mints);
     mc_pending := length (filter (has_status pending) mints) |}.

End MintQueries.
(** ** The API key check (middleware/auth.ts) *)

Module Auth.

(** A JavaScript string is its sequence of UTF-16 code units; [units]
    gives the code units of a text of ASCII characters. *)
Abbreviation jsstring := (list N).

Definition units (s : string) : jsstring :=
  map N_of_ascii (list_ascii_of_string s).

Inductive Outcome :=
| Status401
| Status403
| Next (apiKey : jsstring).

(** The white space and line terminators of ECMAScript, which [trim]
    strips: TAB, LF, VT, FF, CR, SPACE, U+00A0, U+1680, U+2000 to U+200A,
    U+2028, U+2029, U+202F, U+205F, U+3000 and U+FEFF. Each is one code
    unit. *)
Definition is_white (u : N) : bool :=
  ((9 <=? u) && (u <=? 13) || (u =? 32) || (u =? 160) || (u =? 5760)
   || (8192 <=? u) && (u <=? 8202) || (u =? 8232) || (u =? 8233)
   || (u =? 8239) || (u =? 8287) || (u =? 12288) || (u =? 65279))%N.

Fixpoint trim_start (s : jsstring) : jsstring :=
  match s with
  | u :: r => if is_white u then trim_start r else s
  | [] => []
  end.

Fixpoint trim_end (s : jsstring) : jsstring :=
  match s with
  | [] => []
  | u :: r =>
      match trim_end r with
      | [] => if is_white u then [] else [u]
      | r' => u :: r'
      end
  end.

(** [k.trim()] *)
Definition trim (s : jsstring) : jsstring := trim_end (trim_start s).

(** [s.split(',')]: the pieces between the commas; there is always at least
    one. *)
Fixpoint split_commas (s : jsstring) : list jsstring :=
  match s with
  | [] => [[]]
  | u :: r =>
      if (u =? 44)%N then [] :: split_commas r
      else
        match split_commas r with
        | piece :: pieces => (u :: piece) :: pieces
        | [] => [[u]]
        end
  end.

(** [validKeys.includes(apiKey)] *)
Definition includes (l : list jsstring) (k : jsstring) : bool :=
  bool_decide (k ∈ l).

(** [header] is [req.headers['x-api-key']] and [env] is
    [process.env.VALID_API_KEYS]; [None] is [undefined]. *)
Definition apiKeyAuth (header : option jsstring) (env : option jsstring)
  : Outcome :=
  match header with
  | None => Status401
  | Some apiKey =>
      if bool_decide (apiKey = []) then Status401
      else
        let configured :=
          match env with
          | Some e => if bool_decide (e = []) then [] else e
          | None => []
          end in
        let validKeys := map trim (split_commas configured) in
        if includes validKeys apiKey then Next apiKey else Status403
  end.

End Auth.
(** ** StablecoinERC20 (contracts/src/StablecoinERC20.sol) *)

Module StablecoinERC20.

(** Addresses, [uint256] values and [bytes32] hashes are integers;
    [msg.sender] and [block.timestamp] are the arguments [sender] and
    [now] of every call. Events are not recorded. *)
Abbreviation address := Z.

Definition MAX_UINT256 : Z := 2 ^ 256 - 1.

(** [1 hours] *)
Definition POR_VALIDITY_WINDOW : Z := 3600.

Inductive Revert :=
| NotMinter
| NotBurner
| NotReserveManager
| NotPORVerifier
| PORVerificationRequired
| PORExpired
| Require (reason : string)
| Panic (code : Z)
| OwnableUnauthorizedAccount (account : address).

Definition Outcome (A : Type) : Type := Revert + A.

(** Checked arithmetic of Solidity 0.8: [Panic(0x11)] on underflow and
    overflow. *)
Definition checked_sub (a b : Z) : Outcome Z :=
  if a <? b then inl (Panic 17) else inr (a - b).

Definition checked_mul (a b : Z) : Outcome Z :=
  if MAX_UINT256 <? a * b then inl (Panic 17) else inr (a * b).

Record AssetComposition := {
  ac_assetType : string;
  ac_weight : Z;
  ac_backing : address;
}.

Section Token.

(** The storage and the internal functions the contract inherits from
    OpenZeppelin's [ERC20]: they are parameters here. The variables this
    contract declares are out of their reach. *)
Variable erc20 : Type.
Variable _mint : address -> Z -> erc20 -> Outcome erc20.
Variable _burn : address -> Z -> erc20 -> Outcome erc20.
Variable totalSupply : erc20 -> Z.

Record state := {
  token : erc20;
  owner : address;
  reserveBalance : Z;
  minReserveRatio : Z;
  isMinter : gmap address bool;
  isBurner : gmap address bool;
  isReserveManager : gmap address bool;
  composition : list AssetComposition;
  assetTypeToComposition : gmap string Z;
  lastPORHash : Z;
  lastPORTimestamp : Z;
  porVerifier : address;
}.

(** A [mapping(address => bool)] read: absent entries are [false]. *)
Definition role (m : gmap address bool) (a : address) : bool :=
  default false (m !! a).

Definition with_token (st : state) (t : erc20) : state :=
  {| token := t; owner := owner st; reserveBalance := reserveBalance st;
     minReserveRatio := minReserveRatio st; isMinter := isMinter st;
     isBurner := isBurner st; isReserveManager := isReserveManager st;
     composition := composition st;
     assetTypeToComposition := assetTypeToComposition st;
     lastPORHash := lastPORHash st; lastPORTimestamp := lastPORTimestamp st;
     porVerifier := porVerifier st |}.

Definition with_por (st : state) (hash timestamp reserve : Z) : state :=
  {| token := token st; owner := owner st; reserveBalance := reserve;
     minReserveRatio := minReserveRatio st; isMinter := isMinter st;
     isBurner := isBurner st; isReserveManager := isReserveManager st;
     composition := composition st;
     assetTypeToComposition := assetTypeToComposition st;
     lastPORHash := hash; lastPORTimestamp := timestamp;
     porVerifier := porVerifier st |}.

Definition with_minters (st : state) (m : gmap address bool) : state :=
  {| token := token st; owner := owner st; reserveBalance := reserveBalance st;
     minReserveRatio := minReserveRatio st; isMinter := m;
     isBurner := isBurner st; isReserveManager := isReserveManager st;
     composition := composition st;
     assetTypeToComposition := assetTypeToComposition st;
     lastPORHash := lastPORHash st; lastPORTimestamp := lastPORTimestamp st;
     porVerifier := porVerifier st |}.

(** The [onlyOwner] modifier. *)
Definition onlyOwner {A} (sender : address) (st : state) (body : Outcome A)
  : Outcome A :=
  if bool_decide (owner st = sender) then body
  else inl (OwnableUnauthorizedAccount sender).

Definition verifyAndUpdatePOR (sender : address) (now : Z)
    (porHash newReserveBalance : Z) (st : state) : Outcome state :=
  if negb (bool_decide (sender = porVerifier st)) then inl NotPORVerifier
  else if bool_decide (porHash = 0) then inl (Require "Invalid hash")
  else inr (with_por st porHash now newReserveBalance).

(** [lastPORTimestamp > 0 && (block.timestamp - lastPORTimestamp <=
    POR_VALIDITY_WINDOW)] *)
Definition isPORValid (now : Z) (st : state) : Outcome bool :=
  if 0 <? lastPORTimestamp st then
    match checked_sub now (lastPORTimestamp st) with
    | inl e => inl e
    | inr age => inr (age <=? POR_VALIDITY_WINDOW)
    end
  else inr false.

(** The two checks [mint], [burn] and [burnFrom] make after the role
    check. *)
Definition requirePOR (now : Z) (st : state) : Outcome unit :=
  if lastPORTimestamp st =? 0 then inl PORVerificationRequired
  else
    match checked_sub now (lastPORTimestamp st) with
    | inl e => inl e
    | inr age =>
        if POR_VALIDITY_WINDOW <? age then inl PORExpired else inr tt
    end.

Definition mint (sender : address) (now : Z) (to : address) (amount : Z)
    (st : state) : Outcome state :=
  if negb (role (isMinter st) sender) then inl NotMinter
  else
    match requirePOR now st with
    | inl e => inl e
    | inr _ =>
        match _mint to amount (token st) with
        | inl e => inl e
        | inr t => inr (with_token st t)
        end
    end.

Definition burn (sender : address) (now : Z) (from : address) (amount : Z)
    (st : state) : Outcome state :=
  if negb (role (isBurner st) sender) then inl NotBurner
  else
    match requirePOR now st with
    | inl e => inl e
    | inr _ =>
        match _burn from amount (token st) with
        | inl e => inl e
        | inr t => inr (with_token st t)
        end
    end.

Definition grantMintRole (sender account : address) (st : state)
  : Outcome state :=
  onlyOwner sender st (inr (with_minters st (<[account := true]> (isMinter st)))).

Definition revokeMintRole (sender account : address) (st : state)
  : Outcome state :=
  onlyOwner sender st (inr (with_minters st (<[account := false]> (isMinter st)))).

(** [checkReserveRatio]: [(true, 1e18)] when nothing was minted. *)
Definition checkReserveRatio (st : state) : Outcome (bool * Z) :=
  let supply := totalSupply (token st) in
  if supply =? 0 then inr (true, 10 ^ 18)
  else
    match checked_mul (reserveBalance st) (10 ^ 18) with
    | inl e => inl e
    | inr scaled =>
        let ratio := scaled / supply in
        inr (minReserveRatio st <=? ratio, ratio)
    end.

End Token.

End StablecoinERC20.

(** ** MintingConsumerWithACE (contracts/src/MintingConsumerWithACE.sol) *)

Module MintingConsumer.

Abbreviation address := Z.

Inductive Revert :=
| PORNotVerified
| Require (reason : string)
| Panic (code : Z)
| OwnableUnauthorizedAccount (account : address)
| FromStablecoin (e : StablecoinERC20.Revert).

Definition Outcome (A : Type) : Type := Revert + A.

Record MintRequest := {
  mq_beneficiary : address;
  mq_amount : Z;
  mq_transactionId : string;
  mq_timestamp : Z;
  mq_executed : bool;
}.

(** What [pendingMints] holds for a request id that was never written. *)
Definition no_request : MintRequest :=
  {| mq_beneficiary := 0; mq_amount := 0; mq_transactionId := "";
     mq_timestamp := 0; mq_executed := false |}.

(** [self] is [address(this)], the sender of the calls the contract
    makes. *)
Record state := {
  self : address;
  owner : address;
  creForwarder : address;
  pendingMints : gmap Z MintRequest;
}.

Definition with_pending (st : state) (p : gmap Z MintRequest) : state :=
  {| self := self st; owner := owner st; creForwarder := creForwarder st;
     pendingMints := p |}.

Definition onlyOwner {A} (sender : address) (st : state) (body : Outcome A)
  : Outcome A :=
  if bool_decide (owner st = sender) then body
  else inl (OwnableUnauthorizedAccount sender).

Section Consumer.

Variable erc20 : Type.
Variable _mint : address -> Z -> erc20 -> StablecoinERC20.Outcome erc20.

(** [keccak256(abi.encodePacked(beneficiary, amount, transactionId,
    block.timestamp))] *)
Variable requestIdOf : address -> Z -> string -> Z -> Z.

Definition requestMint (sender : address) (now : Z) (beneficiary : address)
    (amount : Z) (transactionId : string) (st : state)
  : Outcome (Z * state) :=
  onlyOwner sender st
    (if bool_decide (beneficiary = 0) then inl (Require "Invalid beneficiary")
     else if negb (0 <? amount) then inl (Require "Invalid amount")
     else
       let requestId := requestIdOf beneficiary amount transactionId now in
       inr (requestId,
            with_pending st
              (<[requestId :=
                   {| mq_beneficiary := beneficiary; mq_amount := amount;
                      mq_transactionId := transactionId; mq_timestamp := now;
                      mq_executed := false |}]> (pendingMints st)))).

(** [executePendingMint]: [coin] is the storage of the [stablecoin] the
    consumer was initialised with; a revert of the token's [mint] reverts
    the whole call. *)
Definition executePendingMint (sender : address) (now : Z) (requestId : Z)
    (st : state) (coin : StablecoinERC20.state erc20)
  : Outcome (state * StablecoinERC20.state erc20) :=
  onlyOwner sender st
    (let req := default no_request (pendingMints st !! requestId) in
     if bool_decide (mq_beneficiary req = 0)
     then inl (Require "Request not found")
     else if mq_executed req then inl (Require "Already executed")
     else if StablecoinERC20.lastPORTimestamp erc20 coin =? 0
     then inl PORNotVerified
     else
       match StablecoinERC20.checked_sub now
               (StablecoinERC20.lastPORTimestamp erc20 coin) with
       | inl _ => inl (Panic 17)
       | inr porAge =>
           if StablecoinERC20.POR_VALIDITY_WINDOW <? porAge
           then inl (Require "POR expired")
           else
             let req' :=
               {| mq_beneficiary := mq_beneficiary req;
                  mq_amount := mq_amount req;
                  mq_transactionId := mq_transactionId req;
                  mq_timestamp := mq_timestamp req; mq_executed := true |} in
             match StablecoinERC20.mint erc20 _mint (self st) now
                     (mq_beneficiary req) (mq_amount req) coin with
             | inl e => inl (FromStablecoin e)
             | inr coin' =>
                 inr (with_pending st (<[requestId := req']> (pendingMints st)),
                      coin')
             end
       end).

End Consumer.

End MintingConsumer.
(** ** Environment placeholders in the workflow's config (config-loader.ts) *)

Module ConfigLoader.

Inductive ConfigError :=
| MissingEnvVar (varName : string).

(** The character classes [A-Z_] and [A-Z0-9_]. *)
Definition is_name_start (c : ascii) : bool :=
  let n := nat_of_ascii c in
  ((65 <=? n)%nat && (n <=? 90)%nat) || Ascii.eqb c "_".

Definition is_name_char (c : ascii) : bool :=
  is_name_start c || JsNumber.is_digit c.

(** The longest run of name characters at the head of [s], and what
    follows. *)
Fixpoint take_name (s : string) : string * string :=
  match s with
  | EmptyString => ("", "")
  | String c r =>
      if is_name_char c then
        let '(n, rest) := take_name r in (String c n, rest)
      else ("", s)
  end.

(** A match of the pattern at the head of [s] -- a dollar sign, an opening
    brace, a name (one of [A-Z_], then any number of [A-Z0-9_]) and a
    closing brace: the captured name and the text after the match. The run
    of name characters is taken whole: after a shorter run comes a name
    character, never the closing brace. *)
Definition match_here (s : string) : option (string * string) :=
  match s with
  | String d (String b (String c r)) =>
      if Ascii.eqb d "$" && Ascii.eqb b "{" && is_name_start c then
        let '(n, rest) := take_name r in
        match rest with
        | String e rest' =>
            if Ascii.eqb e "}" then Some (String c n, rest') else None
        | EmptyString => None
        end
      else None
  | _ => None
  end.

(** [text.replace(pattern, callback)] with the [g] flag: the text is
    searched from left to right and the search resumes after each match; a
    replacement is not searched again. [skip] counts the characters of the
    current match that are still to be passed over; [callback] gives the
    replacement of a match from the captured name, or throws. *)
Fixpoint replace_matches (callback : string -> ConfigError + string)
    (skip : nat) (s : string) : ConfigError + string :=
  match s with
  | EmptyString => inr ""
  | String c r =>
      match skip with
      | S k => replace_matches callback k r
      | O =>
          match match_here s with
          | Some (name, _) =>
              match callback name with
              | inl e => inl e
              | inr value =>
                  match replace_matches callback
                          (String.length name + 2) r with
                  | inl e => inl e
                  | inr out => inr (value ++ out)%string
                  end
              end
          | None =>
              match replace_matches callback 0 r with
              | inl e => inl e
              | inr out => inr (String c out)
              end
          end
      end
  end.

(** [env] is [process.env]. *)
Definition substituteEnvVars (env : gmap string string) (text : string)
  : ConfigError + string :=
  replace_matches
    (fun varName =>
       match env !! varName with
       | None => inl (MissingEnvVar varName)
       | Some value => inr value
       end) 0 text.

(** The first pass of [loadConfigWithDefaults]: a variable that is not set
    takes its default when there is one that is not empty, and the
    placeholder stays otherwise. *)
Definition substituteWithDefaults (env : gmap string string)
    (defaults : option (gmap string string)) (text : string) : string :=
  match
    replace_matches
      (fun varName =>
         match env !! varName with
         | Some value => inr value
         | None =>
             match defaults with
             | Some d =>
                 match d !! varName with
                 | Some v =>
                     if String.eqb v "" then inr ("${" ++ varName ++ "}")%string
                     else inr v
                 | None => inr ("${" ++ varName ++ "}")%string
                 end
             | None => inr ("${" ++ varName ++ "}")%string
             end
         end) 0 text
  with
  | inr out => out
  | inl _ => text
  end.

(** A variable name: one of [A-Z_], then any number of [A-Z0-9_]. *)
Definition is_name (n : string) : bool :=
  match n with
  | EmptyString => false
  | String c r =>
      is_name_start c
      && forallb is_name_char (list_ascii_of_string r)
  end.

End ConfigLoader.
(** ** Further examples *)

Module Examples.

Definition gbp_call : AssetRegistry.call :=
  AssetRegistry.RegisterAsset (Fixtures.asset "gbp" "GBP" 6)
    "2024-01-02T00:00:00.000Z".

(** The calls that build [Fixtures.registry]. *)
Definition registry_calls : list AssetRegistry.call :=
  [ AssetRegistry.RegisterAsset (Fixtures.asset "usd" "USD" 6)
      "2024-01-01T00:00:00.000Z";
    AssetRegistry.RegisterAsset (Fixtures.asset "eur" "EUR" 6)
      "2024-01-01T00:00:01.000Z";
    AssetRegistry.CreateBasket Fixtures.busd "2024-01-01T00:00:02.000Z" ].

(** A ledger with one pending mint of the basket [busd]. *)
Definition pending_record : MintRecord :=
  {| mr_id := "mint-T1"; mr_basketId := "busd"; mr_transactionId := "T1";
     mr_beneficiary := "0xabc"; mr_amount := "1000"; mr_assets := [];
     mr_status := pending; mr_createdAt := "2024-01-01T00:00:00.000Z";
     mr_completedAt := None; mr_error := None |}.

Definition pending_ledger : MintStateService.state :=
  {[ "mint-T1" := pending_record ]}.

Definition complete : MintUpdates MintedAsset :=
  {| u_status := Some Completed; u_assets := None; u_error := None |}.

Definition completed_record : MintRecord :=
  MintStateService.apply_updates pending_record complete
    "2024-01-01T00:00:02.000Z".

Definition fail : MintUpdates MintedAsset :=
  {| u_status := Some Failed; u_assets := None;
     u_error := Some "Workflow failed" |}.

(** The calls that build [Fixtures.completed_ledger], and a later update. *)
Definition ledger_calls : list MintStateService.call :=
  [ MintStateService.Create "busd" "BSKT20240101DEADBEEF" "0xabc" "1000" []
      "2024-01-01T00:00:00.000Z";
    MintStateService.Update "mint-BSKT20240101DEADBEEF" complete
      "2024-01-01T00:00:02.000Z" ].

Definition later_calls : list MintStateService.call :=
  [ MintStateService.Update "mint-BSKT20240101DEADBEEF" fail
      "2024-01-01T00:00:03.000Z" ].

(** A registry that holds one asset, deployed on sepolia, and the same
    after the asset was added to polygon. *)
Definition one_asset : MultiChainAssetRegistry.state :=
  {| MultiChainAssetRegistry.assets :=
       {[ "usdc" := Fixtures.sepolia_asset "sepolia" ]};
     MultiChainAssetRegistry.objects := Fixtures.caller_objects |}.

Definition on_polygon : MultiChainAsset :=
  MultiChainAssetRegistry.with_default (Fixtures.sepolia_asset "sepolia")
    (Some "sepolia") "2024-01-01T00:00:01.000Z".

Definition two_chains : MultiChainAssetRegistry.state :=
  {| MultiChainAssetRegistry.assets :=
       <["usdc" := on_polygon]> (MultiChainAssetRegistry.assets one_asset);
     MultiChainAssetRegistry.objects :=
       <[0%nat := JsObject.set Fixtures.sepolia_chains "polygon"
                    Fixtures.polygon_chain]> Fixtures.caller_objects |}.

(** An asset of the payload whose amount is not whole. *)
Definition fraction : Workflow.AssetPayload :=
  {| Workflow.wa_assetId := "usd"; Workflow.wa_symbol := "USD";
     Workflow.wa_type := monetary; Workflow.wa_amount := "0.6";
     Workflow.wa_contractAddress :=
       "0x0000000000000000000000000000000000000001";
     Workflow.wa_chainId := "sepolia"; Workflow.wa_metadata := None |}.

(** A token that only keeps its total supply. *)
Definition supply_mint (to amount supply : Z) : StablecoinERC20.Outcome Z :=
  inr (supply + amount).

Definition supply_burn (from amount supply : Z) : StablecoinERC20.Outcome Z :=
  StablecoinERC20.checked_sub supply amount.

(** A stand-in for the hash of a request. *)
Definition request_id (beneficiary amount : Z) (transactionId : string)
    (timestamp : Z) : Z :=
  beneficiary + amount + timestamp.

(** A stablecoin owned by account 1, verified by account 7, with the
    minter 5 and no attestation yet. *)
Definition coin : StablecoinERC20.state Z :=
  {| StablecoinERC20.token := 100;
     StablecoinERC20.owner := 1;
     StablecoinERC20.reserveBalance := 150;
     StablecoinERC20.minReserveRatio := 10 ^ 18;
     StablecoinERC20.isMinter := {[ 5 := true ]};
     StablecoinERC20.isBurner := ∅;
     StablecoinERC20.isReserveManager := ∅;
     StablecoinERC20.composition := [];
     StablecoinERC20.assetTypeToComposition := ∅;
     StablecoinERC20.lastPORHash := 0;
     StablecoinERC20.lastPORTimestamp := 0;
     StablecoinERC20.porVerifier := 7 |}.

(** The same after an attestation at time 1000 of a reserve balance of 0. *)
Definition attested : StablecoinERC20.state Z :=
  StablecoinERC20.with_por Z coin 99 1000 0.

(** A consumer at address 5, owned by account 1, with one pending
    request. *)
Definition consumer : MintingConsumer.state :=
  {| MintingConsumer.self := 5;
     MintingConsumer.owner := 1;
     MintingConsumer.creForwarder := 3;
     MintingConsumer.pendingMints :=
       {[ 42 := {| MintingConsumer.mq_beneficiary := 9;
                   MintingConsumer.mq_amount := 25;
                   MintingConsumer.mq_transactionId := "T1";
                   MintingConsumer.mq_timestamp := 1000;
                   MintingConsumer.mq_executed := false |} ]} |}.

(** An environment whose variable holds a placeholder itself. *)
Definition env : gmap string string :=
  {[ "RPC_URL" := "http://node/${OTHER}"; "OTHER" := "x" ]}.

End Examples.

(** * Properties *)

Module AssetRegistryFacts.
Import AssetRegistry Invariants.

Lemma expand_entries_length st t l :
  length (expand_entries st t l) = length (filter (registered st) l).
Proof.
  induction l as [|ba l IH]; [done|].
  cbn [expand_entries]. rewrite filter_cons.
  destruct (decide (registered st ba)) as [[a Ha]|Hn].
  - rewrite Ha. cbn. by rewrite IH.
  - destruct (assets st !! assetId ba) eqn:Ha; [|done].
    exfalso. apply Hn. unfold registered. by rewrite Ha.
Qed.

Lemma expand_entries_registered st t l :
  Forall (registered st) l ->
  Forall2 (fun ba r => assets st !! assetId ba = Some (fst r)
                       /\ snd r = JsNumber.toString (proportionalAmount t ba))
    l (expand_entries st t l).
Proof.
  induction 1 as [|ba l [a Ha] _ IH]; cbn [expand_entries]; [constructor|].
  rewrite Ha. constructor; [done|exact IH].
Qed.

Lemma expand_entries_filter st t l :
  Forall2 (fun ba r => assets st !! assetId ba = Some (fst r)
                       /\ snd r = JsNumber.toString (proportionalAmount t ba))
    (filter (registered st) l) (expand_entries st t l).
Proof.
  induction l as [|ba l IH]; [constructor|].
  cbn [expand_entries]. rewrite filter_cons.
  destruct (decide (registered st ba)) as [[a Ha]|Hn].
  - rewrite Ha. constructor; [done|exact IH].
  - destruct (assets st !! assetId ba) eqn:Ha; [|exact IH].
    exfalso. apply Hn. unfold registered. by rewrite Ha.
Qed.

Lemma expand_entries_amounts st t l :
  map snd (expand_entries st t l)
  = map (fun ba => JsNumber.toString (proportionalAmount t ba))
      (filter (registered st) l).
Proof.
  induction l as [|ba l IH]; [done|].
  cbn [expand_entries]. rewrite filter_cons.
  destruct (decide (registered st ba)) as [[a Ha]|Hn].
  - rewrite Ha. cbn [map snd]. by rewrite IH.
  - destruct (assets st !! assetId ba) eqn:Ha; [|done].
    exfalso. apply Hn. unfold registered. by rewrite Ha.
Qed.

Lemma expand_entries_skip st t l id :
  assets st !! id = None ->
  expand_entries st t l
  = expand_entries st t (filter (fun ba => assetId ba <> id) l).
Proof.
  intros Hid. induction l as [|ba l IH]; [done|].
  rewrite filter_cons. destruct (decide (assetId ba <> id)) as [Hne|Heq].
  - cbn [expand_entries]. destruct (assets st !! assetId ba); by rewrite IH.
  - apply dec_stable in Heq. cbn [expand_entries]. rewrite Heq, Hid. exact IH.
Qed.

Lemma expand_entries_origin st t l r :
  r ∈ expand_entries st t l ->
  exists ba, ba ∈ l /\ assets st !! assetId ba = Some (fst r)
             /\ snd r = JsNumber.toString (proportionalAmount t ba).
Proof.
  induction l as [|ba l IH]; cbn [expand_entries]; [by intros ?%elem_of_nil|].
  destruct (assets st !! assetId ba) as [a|] eqn:Ha.
  - intros [->|Hin]%elem_of_cons.
    + exists ba. split; [left|done].
    + destruct (IH Hin) as (ba' & ? & ?). exists ba'. split; [by right|done].
  - intros Hin. destruct (IH Hin) as (ba' & ? & ?).
    exists ba'. split; [by right|done].
Qed.

Lemma validate_assets_ok st l :
  validate_assets st l = Ok tt -> Forall (registered st) l.
Proof.
  induction l as [|ba l IH]; cbn; [constructor|].
  destruct (assets st !! assetId ba) eqn:Ha; [|done].
  intros H. constructor; [by eexists|auto].
Qed.

Lemma validate_assets_registered st l :
  Forall (registered st) l -> validate_assets st l = Ok tt.
Proof.
  induction 1 as [|ba l [a Ha] _ IH]; cbn; [done|]. by rewrite Ha.
Qed.

Lemma step_closed st c : baskets_closed st -> baskets_closed (step st c).
Proof.
  intros Hst. destruct c as [asset now|basket now]; cbn.
  - unfold registerAsset. destruct (assets st !! a_id asset) eqn:Hfree; [done|].
    intros id b Hb. cbn in *. specialize (Hst id b Hb).
    eapply Forall_impl; [exact Hst|]. intros ba [a Ha]. unfold registered. cbn.
    destruct (decide (a_id asset = assetId ba)) as [->|Hne].
    + rewrite lookup_insert_eq. by eexists.
    + rewrite lookup_insert_ne by done. by eexists.
  - unfold createBasket. destruct (baskets st !! b_id basket) eqn:Hfree; [done|].
    destruct (validate_assets st (b_assets basket)) as [e|[]] eqn:Hv; [done|].
    cbn. destruct (negb _); [done|]. cbn.
    intros id b. cbn. destruct (decide (b_id basket = id)) as [<-|Hne].
    + rewrite lookup_insert_eq. intros [= <-]. cbn.
      by apply validate_assets_ok in Hv.
    + rewrite lookup_insert_ne by done. apply Hst.
Qed.

Lemma run_closed calls st : baskets_closed st -> baskets_closed (run calls st).
Proof.
  revert st. induction calls as [|c calls IH]; intros st Hst; [done|].
  cbn. apply IH, step_closed, Hst.
Qed.

Lemma empty_closed : baskets_closed empty.
Proof. intros id b; cbn. by rewrite lookup_empty. Qed.


(** C1, as stated, fails: a basket entry whose asset is not in the asset
    map yields no entry, so the result can be shorter than the basket. *)
Lemma expandBasket_not_one_entry_per_basket_asset :
  ~ (forall st basketId basket totalAmount,
        baskets st !! basketId = Some basket ->
        exists expanded,
          expandBasket basketId totalAmount st = Ok expanded
          /\ length expanded = length (b_assets basket)).
Proof.
  intros H.
  destruct (H Fixtures.loaded "busd" Fixtures.busd "1000") as (e & He & Hl).
  - vm_compute. reflexivity.
  - vm_compute in He. injection He as <-. discriminate Hl.
Qed.

(** C1 (amended): for a basket of the registry, [expandBasket] returns one
    entry per basket-asset entry whose asset is registered, in basket
    order, each holding the registered asset and the amount computed from
    the total and the entry's weight; entries naming an unregistered asset
    are passed over. When every entry names a registered asset -- as in
    every registry built by [registerAsset] and [createBasket] alone --
    that is one entry per basket-asset entry; for two registered entries of
    weights 60 and 40 and the total "1000" the amounts are "600" and
    "400". *)
Theorem expandBasket_entries st basketId basket totalAmount :
  baskets st !! basketId = Some basket ->
  exists expanded,
    expandBasket basketId totalAmount st = Ok expanded
    /\ length expanded = length (filter (registered st) (b_assets basket))
    /\ Forall2
         (fun ba r =>
            assets st !! assetId ba = Some (fst r)
            /\ snd r = JsNumber.toString
                         (proportionalAmount
                            (JsNumber.parseFloat totalAmount) ba))
         (filter (registered st) (b_assets basket)) expanded
    /\ (Forall (registered st) (b_assets basket) ->
        Forall2
          (fun ba r =>
             assets st !! assetId ba = Some (fst r)
             /\ snd r = JsNumber.toString
                          (proportionalAmount
                             (JsNumber.parseFloat totalAmount) ba))
          (b_assets basket) expanded)
    /\ ((exists calls, st = run calls empty) ->
        Forall (registered st) (b_assets basket))
    /\ (totalAmount = "1000" ->
        map weight (b_assets basket) = [JsNumber.of_Z 60; JsNumber.of_Z 40] ->
        Forall (registered st) (b_assets basket) ->
        map snd expanded = ["600"; "400"]).
Proof.
  intros Hb. unfold expandBasket. rewrite Hb. eexists. split; [reflexivity|].
  split; [apply expand_entries_length|].
  split; [apply expand_entries_filter|].
  split; [apply expand_entries_registered|].
  split.
  - intros [calls ->]. exact (run_closed calls empty empty_closed _ _ Hb).
  - intros -> Hw Hreg.
    destruct (b_assets basket) as [|ba1 [|ba2 [|ba3 l]]]; try discriminate Hw.
    injection Hw as Hw1 Hw2.
    inversion Hreg as [|? ? [a1 Ha1] Hreg']; subst.
    inversion Hreg' as [|? ? [a2 Ha2] _]; subst.
    cbn [expand_entries]. rewrite Ha1, Ha2. cbn [map snd].
    unfold proportionalAmount. rewrite Hw1, Hw2.
    vm_compute. reflexivity.
Qed.

Lemma expandBasket_entries_witness :
  (exists expanded,
      expandBasket "busd" "1000" Fixtures.loaded = Ok expanded
      /\ filter (registered Fixtures.loaded) (b_assets Fixtures.busd)
         = [Fixtures.entry "usd" 60]
      /\ expanded = [(Fixtures.asset "usd" "USD" 6, "600")])
  /\ (exists expanded,
        expandBasket "busd" "1000" Fixtures.registry = Ok expanded
        /\ length expanded = 2%nat
        /\ map snd expanded = ["600"; "400"]).
Proof.
  split.
  - destruct (expandBasket_entries Fixtures.loaded "busd" Fixtures.busd "1000")
      as (expanded & He & _ & HF & _); [vm_compute; reflexivity|].
    exists expanded. split; [exact He|].
    assert (Hf : filter (registered Fixtures.loaded) (b_assets Fixtures.busd)
                 = [Fixtures.entry "usd" 60]).
    { cbn [Fixtures.busd Fixtures.basket b_assets].
      rewrite filter_cons, decide_True
        by (unfold registered; vm_compute; by eexists).
      rewrite filter_cons, decide_False
        by (unfold registered; vm_compute; by intros [? ?]).
      reflexivity. }
    split; [exact Hf|]. rewrite Hf in HF.
    inversion HF as [|ba r ? l' [Ha Hamt] Hrest]; subst.
    inversion Hrest; subst. destruct r as [a amt]. cbn [fst snd] in Ha, Hamt.
    f_equal. f_equal.
    + vm_compute in Ha. by injection Ha.
    + rewrite Hamt. vm_compute. reflexivity.
  - destruct (expandBasket_entries Fixtures.registry "busd"
                Fixtures.busd_stored "1000")
      as (expanded & He & Hlen & _ & _ & Hreg & Hamt);
      [vm_compute; reflexivity|].
    exists expanded. split; [exact He|].
    assert (Hall : Forall (registered Fixtures.registry)
                     (b_assets Fixtures.busd_stored)).
    { apply Hreg. by eexists. }
    split.
    + rewrite Hlen.
      assert (Hfl : forall l, Forall (registered Fixtures.registry) l ->
                filter (registered Fixtures.registry) l = l).
      { induction 1 as [|x l Hx _ IH]; [done|].
        by rewrite filter_cons, decide_True, IH. }
      rewrite Hfl by exact Hall. reflexivity.
    + apply Hamt; [reflexivity|reflexivity|exact Hall].
Defined.

(** C10: for a basket of the registry with an entry whose asset-id is not
    in the asset map, [expandBasket] raises no error; the result is the one
    for the basket without the entries of that asset-id, every returned
    entry stems from an entry with another asset-id, and the result has
    fewer entries than the basket. *)
Theorem expandBasket_skips_unregistered st basketId basket totalAmount ba :
  baskets st !! basketId = Some basket ->
  ba ∈ b_assets basket ->
  assets st !! assetId ba = None ->
  exists expanded,
    expandBasket basketId totalAmount st = Ok expanded
    /\ expanded
       = expand_entries st (JsNumber.parseFloat totalAmount)
           (filter (fun b => assetId b <> assetId ba) (b_assets basket))
    /\ (forall r, r ∈ expanded ->
        exists ba', ba' ∈ b_assets basket
                    /\ assetId ba' <> assetId ba
                    /\ assets st !! assetId ba' = Some (fst r))
    /\ (length expanded < length (b_assets basket))%nat.
Proof.
  intros Hb Hin Hnone. unfold expandBasket. rewrite Hb.
  eexists. split; [reflexivity|].
  split; [by apply expand_entries_skip|].
  split.
  - intros r Hr. destruct (expand_entries_origin _ _ _ _ Hr) as (ba' & ? & Ha & _).
    exists ba'. repeat split; [done| |done]. congruence.
  - rewrite expand_entries_length. apply length_filter_lt with ba; [done|].
    unfold registered. rewrite Hnone. by intros [? ?].
Qed.

Lemma expandBasket_skips_unregistered_witness :
  exists expanded,
    expandBasket "busd" "1000" Fixtures.loaded = Ok expanded
    /\ expanded
       = expand_entries Fixtures.loaded (JsNumber.parseFloat "1000")
           (filter (fun b => assetId b <> assetId (Fixtures.entry "eur" 40))
              (b_assets Fixtures.busd))
    /\ (forall r, r ∈ expanded ->
        exists ba', ba' ∈ b_assets Fixtures.busd
                    /\ assetId ba' <> assetId (Fixtures.entry "eur" 40)
                    /\ assets Fixtures.loaded !! assetId ba' = Some (fst r))
    /\ (length expanded < length (b_assets Fixtures.busd))%nat.
Proof.
  apply (expandBasket_skips_unregistered Fixtures.loaded "busd" Fixtures.busd
           "1000" (Fixtures.entry "eur" 40)).
  - vm_compute. reflexivity.
  - right. left.
  - vm_compute. reflexivity.
Defined.


(** *** Amounts *)

(** The expand route answers 400 in three cases and in no other: the
    request body is [undefined] or [null] (the error is the TypeError's
    message); the body's [amount] is missing, empty or not a string
    (VALIDATION_ERROR); the amount is a non-empty string and the basket is
    not in the registry (the error is that of [expandBasket]). Otherwise
    its answer repeats the basket id and the amount and lists, for the
    basket's entries with a registered asset and in their order, the
    asset's id, symbol and type and the amount that [expandBasket]
    computes. *)
Lemma expand_route_response st basketId (body : option JsValue) :
  match BasketsRoute.expand basketId body st with
  | BasketsRoute.Json200 id total items =>
      exists s basket,
        BasketsRoute.body_amount body = Some (Some (JStr s)) /\ s <> ""
        /\ id = basketId /\ total = s
        /\ baskets st !! basketId = Some basket
        /\ Forall2
             (fun ba item =>
                exists a,
                  assets st !! assetId ba = Some a
                  /\ BasketsRoute.ei_assetId item = a_id a
                  /\ BasketsRoute.ei_symbol item = a_symbol a
                  /\ BasketsRoute.ei_type item = a_type a
                  /\ BasketsRoute.ei_amount item
                     = JsNumber.toString
                         (proportionalAmount (JsNumber.parseFloat s) ba))
             (filter (registered st) (b_assets basket)) items
  | BasketsRoute.Status400 err msg =>
      (BasketsRoute.body_amount body = None
       /\ err = BasketsRoute.DestructureTypeError /\ msg = None)
      \/ (exists amount,
            BasketsRoute.body_amount body = Some amount
            /\ BasketsRoute.amount_string amount = None
            /\ err = BasketsRoute.Text "VALIDATION_ERROR"
            /\ msg = Some "amount is required and must be a string")
      \/ (exists s,
            BasketsRoute.body_amount body = Some (Some (JStr s)) /\ s <> ""
            /\ baskets st !! basketId = None
            /\ err = BasketsRoute.Text (message (BasketNotFound basketId))
            /\ msg = None)
  end.
Proof.
  unfold BasketsRoute.expand.
  destruct (BasketsRoute.body_amount body) as [amount|] eqn:Hbody;
    [|by left].
  destruct (BasketsRoute.amount_string amount) as [s|] eqn:Hs;
    [|right; left; by exists amount].
  assert (Hamount : amount = Some (JStr s) /\ s <> "").
  { unfold BasketsRoute.amount_string in Hs.
    destruct amount as [[]|]; try discriminate Hs.
    destruct (String.eqb_spec s0 "") as [->|Hne]; [discriminate Hs|].
    injection Hs as ->. done. }
  destruct Hamount as [-> Hne].
  unfold expandBasket.
  destruct (baskets st !! basketId) as [basket|] eqn:Hb.
  - exists s, basket. repeat split; try done.
    apply Forall2_fmap_r.
    eapply Forall2_impl; [apply expand_entries_filter|].
    intros ba [a amt] [Ha Hamt]. cbn [fst snd] in *. by exists a.
  - right. right. by exists s.
Qed.

Lemma expand_entries_omap st t l :
  expand_entries st t l
  = omap (fun ba =>
            option_map
              (fun a => (a, JsNumber.toString
                              (JsNumber.div (JsNumber.mul t (weight ba))
                                 (JsNumber.of_Z 100))))
              (assets st !! assetId ba)) l.
Proof.
  induction l as [|ba l IH]; [done|].
  cbn [expand_entries omap list_omap].
  destruct (assets st !! assetId ba); cbn; by rewrite IH.
Qed.

Lemma range_forallb_spec f n : forall lo z,
  range_forallb lo n f = true -> lo <= z < lo + Z.of_nat n -> f z = true.
Proof.
  induction n as [|n IH]; intros lo z H Hz; [lia|].
  cbn in H. apply andb_prop in H as [H0 H1].
  destruct (Z.eq_dec z lo) as [->|Hne]; [done|].
  apply (IH (lo + 1)); [done|lia].
Qed.

Lemma whole_shares_exact :
  range_forallb 0 101 (fun T => range_forallb 0 101 (share_is_exact T)) = true.
Proof. vm_compute. reflexivity. Qed.

(** C2, as stated, fails: the amounts are computed in binary floating
    point. For the total "0.13" and the weight 60 the exact share is 0.078,
    and the entry holds another numeral. *)
Lemma expandBasket_not_exact_decimal :
  ~ (forall st basketId basket totalAmount expanded ba asset w exact,
        baskets st !! basketId = Some basket ->
        expandBasket basketId totalAmount st = Ok expanded ->
        ba ∈ b_assets basket ->
        assets st !! assetId ba = Some asset ->
        weight ba = JsNumber.of_Z w ->
        ExactDecimal.exact_amount totalAmount w = Some exact ->
        (asset, exact) ∈ expanded).
Proof.
  intros H.
  specialize (H Fixtures.registry "busd" Fixtures.busd_stored "0.13"
                [(AssetRegistry.stamp_asset (Fixtures.asset "usd" "USD" 6)
                    "2024-01-01T00:00:00.000Z", "0.07800000000000001");
                 (AssetRegistry.stamp_asset (Fixtures.asset "eur" "EUR" 6)
                    "2024-01-01T00:00:01.000Z", "0.052000000000000005")]
                (Fixtures.entry "usd" 60)
                (AssetRegistry.stamp_asset (Fixtures.asset "usd" "USD" 6)
                   "2024-01-01T00:00:00.000Z")
                60 "0.078").
  assert (Hin : forall (x y z : Asset * string),
             snd x <> snd y -> snd x <> snd z -> x ∈ [y; z] -> False).
  { intros x y z Hy Hz [->|[->|[]%elem_of_nil]%elem_of_cons]%elem_of_cons; done. }
  eapply Hin; [| |apply H]; try (vm_compute; reflexivity); try discriminate.
  left.
Qed.

(** C2 (amended): every amount is the binary64 value of
    [(parseFloat(totalAmount) * weight) / 100], two correctly rounded
    operations, printed by [toString]; it is computed from the total and the
    entry's own weight alone, nothing carries over from one entry to the
    next. It is the exact decimal share for whole totals up to 100 with
    whole weights from 0 to 100. *)
Theorem expandBasket_amounts st basketId basket totalAmount :
  baskets st !! basketId = Some basket ->
  exists expanded,
    expandBasket basketId totalAmount st = Ok expanded
    /\ expanded
       = omap (fun ba =>
                 option_map
                   (fun a =>
                      (a, JsNumber.toString
                            (JsNumber.div
                               (JsNumber.mul (JsNumber.parseFloat totalAmount)
                                  (weight ba))
                               (JsNumber.of_Z 100))))
                   (assets st !! assetId ba)) (b_assets basket)
    /\ (forall T w asset ba,
          0 <= T <= 100 -> 0 <= w <= 100 ->
          totalAmount = JsNumber.digits_of_Z T ->
          weight ba = JsNumber.of_Z w ->
          ba ∈ b_assets basket ->
          assets st !! assetId ba = Some asset ->
          exists exact,
            ExactDecimal.exact_amount totalAmount w = Some exact
            /\ (asset, exact) ∈ expanded).
Proof.
  intros Hb. unfold expandBasket. rewrite Hb. eexists.
  split; [reflexivity|]. split; [apply expand_entries_omap|].
  intros T w asset ba HT Hw -> Hwt Hin Ha.
  pose proof (range_forallb_spec _ _ 0 T whole_shares_exact ltac:(lia)) as HTw.
  cbv beta in HTw.
  pose proof (range_forallb_spec _ _ 0 w HTw ltac:(lia)) as Hex.
  unfold share_is_exact in Hex.
  destruct (ExactDecimal.exact_amount (JsNumber.digits_of_Z T) w)
    as [exact|]; [|discriminate].
  apply String.eqb_eq in Hex. exists exact. split; [done|].
  rewrite expand_entries_omap. apply list_elem_of_omap.
  exists ba. split; [done|]. rewrite Ha. cbn [option_map].
  by rewrite Hwt, Hex.
Qed.

Lemma expandBasket_amounts_witness :
  exists expanded,
    expandBasket "busd" "100" Fixtures.registry = Ok expanded
    /\ expanded
       = omap (fun ba =>
                 option_map
                   (fun a =>
                      (a, JsNumber.toString
                            (JsNumber.div
                               (JsNumber.mul (JsNumber.parseFloat "100")
                                  (weight ba))
                               (JsNumber.of_Z 100))))
                   (assets Fixtures.registry !! assetId ba))
           (b_assets Fixtures.busd_stored)
    /\ (forall T w asset ba,
          0 <= T <= 100 -> 0 <= w <= 100 ->
          "100" = JsNumber.digits_of_Z T ->
          weight ba = JsNumber.of_Z w ->
          ba ∈ b_assets Fixtures.busd_stored ->
          assets Fixtures.registry !! assetId ba = Some asset ->
          exists exact,
            ExactDecimal.exact_amount "100" w = Some exact
            /\ (asset, exact) ∈ expanded).
Proof.
  apply (expandBasket_amounts Fixtures.registry "busd" Fixtures.busd_stored
           "100").
  vm_compute. reflexivity.
Defined.


(** *** Basket creation *)

Lemma createBasket_ok basket now st fb st' :
  createBasket basket now st = Ok (fb, st') ->
  baskets st !! b_id basket = None
  /\ Forall (registered st) (b_assets basket)
  /\ weights_sum_to_100 basket
  /\ fb = stamp_basket basket now
  /\ st' = {| assets := assets st;
              baskets := <[b_id basket := fb]> (baskets st) |}.
Proof.
  unfold createBasket, weights_sum_to_100.
  destruct (baskets st !! b_id basket); [done|].
  destruct (validate_assets st (b_assets basket)) as [e|[]] eqn:Hv; [done|].
  cbn [bind]. destruct (JsNumber.strict_eq _ _); [|done]. cbn [negb].
  intros [= <- <-]. by apply validate_assets_ok in Hv.
Qed.

Lemma createBasket_throws basket now st :
  JsNumber.strict_eq (totalWeight (b_assets basket)) (JsNumber.of_Z 100)
  = false ->
  exists e, createBasket basket now st = Throw e
    /\ (baskets st !! b_id basket = None ->
        Forall (registered st) (b_assets basket) ->
        e = WeightsMustSumTo100 (totalWeight (b_assets basket))).
Proof.
  intros Hsum. unfold createBasket.
  destruct (baskets st !! b_id basket); [by eexists|].
  destruct (validate_assets st (b_assets basket)) as [e|[]] eqn:Hv;
    cbn [bind].
  - exists e. split; [done|]. intros _ Hreg.
    apply validate_assets_registered in Hreg. rewrite Hreg in Hv. discriminate.
  - rewrite Hsum. cbn [negb]. by eexists.
Qed.

Lemma step_weighted st c : baskets_weighted st -> baskets_weighted (step st c).
Proof.
  intros Hst. destruct c as [asset now|basket now]; cbn.
  - unfold registerAsset. by destruct (assets st !! a_id asset).
  - destruct (createBasket basket now st) as [e|[fb st']] eqn:Hc; [done|].
    apply createBasket_ok in Hc as (_ & _ & Hw & -> & ->).
    intros id b. cbn. destruct (decide (b_id basket = id)) as [<-|Hne].
    + rewrite lookup_insert_eq. by intros [= <-].
    + rewrite lookup_insert_ne by done. apply Hst.
Qed.

Lemma run_weighted calls st :
  baskets_weighted st -> baskets_weighted (run calls st).
Proof.
  revert st. induction calls as [|c calls IH]; intros st Hst; [done|].
  cbn. apply IH, step_weighted, Hst.
Qed.

Lemma createBasket_weights basket now st :
  (forall fb st',
      createBasket basket now st = Ok (fb, st') ->
      weights_sum_to_100 basket
      /\ baskets st' !! b_id basket = Some fb
      /\ weights_sum_to_100 fb)
  /\ (JsNumber.strict_eq (totalWeight (b_assets basket)) (JsNumber.of_Z 100)
      = false ->
      exists e, createBasket basket now st = Throw e
        /\ (baskets st !! b_id basket = None ->
            Forall (registered st) (b_assets basket) ->
            e = WeightsMustSumTo100 (totalWeight (b_assets basket))))
  /\ (forall calls id b,
        baskets (run calls empty) !! id = Some b -> weights_sum_to_100 b).
Proof.
  split; [|split].
  - intros fb st' Hc. apply createBasket_ok in Hc as (_ & _ & Hw & -> & ->).
    cbn. by rewrite lookup_insert_eq.
  - apply createBasket_throws.
  - intros calls id b Hb.
    refine (run_weighted calls empty _ id b Hb).
    intros ? ?; cbn. by rewrite lookup_empty.
Qed.

End AssetRegistryFacts.

(** ** The mint ledgers *)

Module MintLedgerFacts.
Import Invariants.

Lemma is_terminal_status_of t : is_terminal (status_of t) = true.
Proof. by destruct t. Qed.

Ltac stamped_update u :=
  destruct u as [[t|] ? ?]; cbn;
  [ split; [intros _; apply is_terminal_status_of | by eexists] | done ].

Lemma apply_updates_stamped r u now :
  stamped r -> stamped (MintStateService.apply_updates r u now).
Proof. unfold stamped. intros Hr. stamped_update u. Qed.

Lemma apply_updates_stamped_mc r u now :
  stamped_mc r -> stamped_mc (MultiChainMintStateService.apply_updates r u now).
Proof. unfold stamped_mc. intros Hr. stamped_update u. Qed.

Lemma step_stamped mints c :
  map_Forall (fun _ r => stamped r) mints ->
  map_Forall (fun _ r => stamped r) (MintStateService.step mints c).
Proof.
  intros H. destruct c as [b t ben amt assets now|id u now]; cbn.
  - apply map_Forall_insert_2; [|done]. unfold stamped; cbn.
    split; [by intros [? ?]|done].
  - unfold MintStateService.updateMintRecord.
    destruct (mints !! id) as [r|] eqn:Hr; [|done]. cbn.
    apply map_Forall_insert_2; [|done].
    apply apply_updates_stamped, (H _ _ Hr).
Qed.

Lemma step_stamped_mc mints c :
  map_Forall (fun _ r => stamped_mc r) mints ->
  map_Forall (fun _ r => stamped_mc r) (MultiChainMintStateService.step mints c).
Proof.
  intros H. destruct c as [b ch chn t ben amt assets now|id u now]; cbn.
  - apply map_Forall_insert_2; [|done]. unfold stamped_mc; cbn.
    split; [by intros [? ?]|done].
  - unfold MultiChainMintStateService.updateMintRecord.
    destruct (mints !! id) as [r|] eqn:Hr; [|done]. cbn.
    apply map_Forall_insert_2; [|done].
    apply apply_updates_stamped_mc, (H _ _ Hr).
Qed.

Lemma run_stamped calls : forall mints,
  map_Forall (fun _ r => stamped r) mints ->
  map_Forall (fun _ r => stamped r) (MintStateService.run calls mints).
Proof.
  induction calls as [|c calls IH]; intros mints H; [done|].
  cbn. apply IH, step_stamped, H.
Qed.

Lemma run_stamped_mc calls : forall mints,
  map_Forall (fun _ r => stamped_mc r) mints ->
  map_Forall (fun _ r => stamped_mc r)
    (MultiChainMintStateService.run calls mints).
Proof.
  induction calls as [|c calls IH]; intros mints H; [done|].
  cbn. apply IH, step_stamped_mc, H.
Qed.

(** C7, as stated, fails: a record that reached a terminal state is
    mutated by the next update; here a completed record becomes failed. *)
Lemma updateMintRecord_mutates_terminal_record :
  ~ (forall mints id r u now r' mints',
        mints !! id = Some r ->
        is_terminal (mr_status r) = true ->
        MintStateService.updateMintRecord id u now mints = Ok (r', mints') ->
        mints' !! id = Some r).
Proof.
  intros H.
  assert (exists r, Fixtures.completed_ledger !! "mint-BSKT20240101DEADBEEF" = Some r
                    /\ mr_status r = completed) as (r & Hr & Hs).
  { eexists. split; vm_compute; reflexivity. }
  specialize (H Fixtures.completed_ledger "mint-BSKT20240101DEADBEEF" r
                {| u_status := Some Failed; u_assets := None;
                   u_error := Some "late" |}
                "2024-01-02T00:00:00.000Z").
  unfold MintStateService.updateMintRecord in H. rewrite Hr in H.
  specialize (H _ _ eq_refl ltac:(by rewrite Hs) eq_refl).
  rewrite lookup_insert_eq in H. injection H as H.
  apply (f_equal mr_status) in H. rewrite Hs in H. discriminate H.
Qed.

(** C7 (amended): [updateMintRecord] with a status moves an existing
    record -- pending or already terminal -- to that terminal status and
    sets its completion timestamp, leaving id, basket, beneficiary, amount
    and creation time as they were; nothing protects a terminal record from
    a later update. In every ledger built from the empty one by
    [createMintRecord] and [updateMintRecord] calls, a record's completion
    timestamp is set if and only if its status is terminal. This holds for
    the single-chain and the multi-chain service. *)
Theorem updateMintRecord_terminal_status :
  (forall mints id r t assets error now,
      mints !! id = Some r ->
      exists r' mints',
        MintStateService.updateMintRecord id
          {| u_status := Some t; u_assets := assets; u_error := error |}
          now mints = Ok (r', mints')
        /\ mints' !! id = Some r'
        /\ mr_status r' = status_of t
        /\ mr_completedAt r' = Some now
        /\ mr_id r' = mr_id r /\ mr_basketId r' = mr_basketId r
        /\ mr_beneficiary r' = mr_beneficiary r
        /\ mr_amount r' = mr_amount r /\ mr_createdAt r' = mr_createdAt r)
  /\ (forall calls id r,
        MintStateService.run calls ∅ !! id = Some r ->
        (is_Some (mr_completedAt r) <-> is_terminal (mr_status r) = true))
  /\ (forall mints id r t assets error now,
        mints !! id = Some r ->
        exists r' mints',
          MultiChainMintStateService.updateMintRecord id
            {| u_status := Some t; u_assets := assets; u_error := error |}
            now mints = Ok (r', mints')
          /\ mints' !! id = Some r'
          /\ mcr_status r' = status_of t
          /\ mcr_completedAt r' = Some now
          /\ mcr_id r' = mcr_id r /\ mcr_basketId r' = mcr_basketId r
          /\ mcr_beneficiary r' = mcr_beneficiary r
          /\ mcr_amount r' = mcr_amount r
          /\ mcr_createdAt r' = mcr_createdAt r)
  /\ (forall calls id r,
        MultiChainMintStateService.run calls ∅ !! id = Some r ->
        (is_Some (mcr_completedAt r) <-> is_terminal (mcr_status r) = true)).
Proof.
  repeat split.
  - intros mints id r t assets error now Hr.
    unfold MintStateService.updateMintRecord. rewrite Hr.
    do 2 eexists. split; [reflexivity|]. rewrite lookup_insert_eq. done.
  - by apply (run_stamped calls ∅ (map_Forall_empty _) id r).
  - by apply (run_stamped calls ∅ (map_Forall_empty _) id r).
  - intros mints id r t assets error now Hr.
    unfold MultiChainMintStateService.updateMintRecord. rewrite Hr.
    do 2 eexists. split; [reflexivity|]. rewrite lookup_insert_eq. done.
  - by apply (run_stamped_mc calls ∅ (map_Forall_empty _) id r).
  - by apply (run_stamped_mc calls ∅ (map_Forall_empty _) id r).
Qed.


Lemma updateMintRecord_terminal_status_witness :
  exists r' mints',
    MintStateService.updateMintRecord "mint-BSKT20240101DEADBEEF"
      {| u_status := Some Failed; u_assets := None;
         u_error := Some "late" |}
      "2024-01-02T00:00:00.000Z" Fixtures.completed_ledger = Ok (r', mints')
    /\ mints' !! "mint-BSKT20240101DEADBEEF" = Some r'
    /\ mr_status r' = failed
    /\ mr_completedAt r' = Some "2024-01-02T00:00:00.000Z".
Proof.
  destruct (proj1 updateMintRecord_terminal_status Fixtures.completed_ledger
              "mint-BSKT20240101DEADBEEF"
              {| mr_id := "mint-BSKT20240101DEADBEEF"; mr_basketId := "busd";
                 mr_transactionId := "BSKT20240101DEADBEEF";
                 mr_beneficiary := "0xabc"; mr_amount := "1000";
                 mr_assets := []; mr_status := completed;
                 mr_createdAt := "2024-01-01T00:00:00.000Z";
                 mr_completedAt := Some "2024-01-01T00:00:02.000Z";
                 mr_error := None |}
              Failed None (Some "late") "2024-01-02T00:00:00.000Z")
    as (r' & mints' & Hu & Hl & Hs & Hc & _).
  - vm_compute. reflexivity.
  - exists r', mints'. repeat split; assumption.
Defined.

(** C9: [createMintRecord] cannot fail, and when the ledger already holds
    a record under the derived id -- whatever its status, terminal
    included -- that record is replaced by a fresh pending one (no
    completion timestamp, no error); the other records stay. This holds for
    the single-chain and the multi-chain service. *)
Theorem createMintRecord_replaces_existing :
  (forall mints basketId transactionId beneficiary amount assets now old,
      mints !! MintStateService.mint_id transactionId = Some old ->
      exists r mints',
        MintStateService.createMintRecord basketId transactionId beneficiary
          amount assets now mints = (r, mints')
        /\ mints' !! MintStateService.mint_id transactionId = Some r
        /\ mr_status r = pending
        /\ mr_completedAt r = None /\ mr_error r = None
        /\ mr_basketId r = basketId /\ mr_beneficiary r = beneficiary
        /\ mr_amount r = amount /\ mr_assets r = assets
        /\ mr_createdAt r = now
        /\ (forall id, id <> MintStateService.mint_id transactionId ->
            mints' !! id = mints !! id))
  /\ (forall mints basketId chainId chainName transactionId beneficiary amount
        assets now old,
        mints !! MultiChainMintStateService.mint_id chainId transactionId
        = Some old ->
        exists r mints',
          MultiChainMintStateService.createMintRecord basketId chainId
            chainName transactionId beneficiary amount assets now mints
          = (r, mints')
          /\ mints' !! MultiChainMintStateService.mint_id chainId transactionId
             = Some r
          /\ mcr_status r = pending
          /\ mcr_completedAt r = None /\ mcr_error r = None
          /\ mcr_basketId r = basketId /\ mcr_beneficiary r = beneficiary
          /\ mcr_amount r = amount /\ mcr_assets r = assets
          /\ mcr_createdAt r = now
          /\ (forall id,
              id <> MultiChainMintStateService.mint_id chainId transactionId ->
              mints' !! id = mints !! id)).
Proof.
  split.
  - intros mints b t ben amt assets now old _.
    unfold MintStateService.createMintRecord. do 2 eexists.
    split; [reflexivity|]. rewrite lookup_insert_eq. repeat split.
    intros id Hne. by rewrite lookup_insert_ne.
  - intros mints b ch chn t ben amt assets now old _.
    unfold MultiChainMintStateService.createMintRecord. do 2 eexists.
    split; [reflexivity|]. rewrite lookup_insert_eq. repeat split.
    intros id Hne. by rewrite lookup_insert_ne.
Qed.

Lemma createMintRecord_replaces_existing_witness :
  (exists old,
      Fixtures.completed_ledger !! "mint-BSKT20240101DEADBEEF" = Some old
      /\ mr_status old = completed)
  /\ exists r mints',
      MintStateService.createMintRecord "busd" "BSKT20240101DEADBEEF" "0xdef"
        "5" [] "2024-01-03T00:00:00.000Z" Fixtures.completed_ledger = (r, mints')
      /\ mints' !! MintStateService.mint_id "BSKT20240101DEADBEEF" = Some r
      /\ mr_status r = pending
      /\ mr_completedAt r = None /\ mr_error r = None
      /\ mr_basketId r = "busd" /\ mr_beneficiary r = "0xdef"
      /\ mr_amount r = "5" /\ mr_assets r = []
      /\ mr_createdAt r = "2024-01-03T00:00:00.000Z"
      /\ (forall id, id <> MintStateService.mint_id "BSKT20240101DEADBEEF" ->
          mints' !! id = Fixtures.completed_ledger !! id).
Proof.
  split.
  - eexists. split; vm_compute; reflexivity.
  - eapply (proj1 createMintRecord_replaces_existing Fixtures.completed_ledger).
    vm_compute. reflexivity.
Defined.

End MintLedgerFacts.

(** ** The mint orchestrator *)

Module OrchestratorFacts.
Import CREWorkflowService.

(** What [triggerMint] does up to the suspension. *)
Lemma triggerMint_cases request transactionId now_create now_value now_stamp
    registry mints :
  if accepted request registry then
    exists payload record,
      triggerMint request transactionId now_create now_value now_stamp
        registry mints
      = Awaiting payload
          (<[MintStateService.mint_id transactionId := record]> mints)
          (resume transactionId record (mr_assets record))
      /\ mr_id record = MintStateService.mint_id transactionId
      /\ mr_status record = pending
      /\ mr_completedAt record = None
      /\ mr_basketId record = rq_basketId request
      /\ mr_beneficiary record = rq_beneficiary request
      /\ mr_amount record = rq_amount request
      /\ mr_assets record
         = map toMintedAsset (filteredAssetsOf request registry)
      /\ wp_assets payload
         = map toAssetPayload (filteredAssetsOf request registry)
  else
    exists result,
      triggerMint request transactionId now_create now_value now_stamp
        registry mints
      = Finished result mints
      /\ r_success result = false
      /\ r_mintRecord result = None.
Proof.
  unfold accepted, filteredAssetsOf, triggerMint, AssetRegistry.expandBasket,
    AssetRegistry.getBasket.
  destruct (AssetRegistry.baskets registry !! rq_basketId request) as [b|];
    [|eexists; repeat split].
  unfold Ok. cbv beta iota.
  destruct (filterAssets _ _) as [|ea l] eqn:Hf; [eexists; repeat split|].
  cbn [MintStateService.createMintRecord].
  eexists _, (Build_MintRecord _ _ _ _ _ _ _ _ _ _).
  split; [reflexivity|]. repeat split.
Qed.

(** C6: when a request is accepted, [triggerMint] suspends on the
    workflow promise with a ledger that holds, under the id derived from
    the transaction id, a pending record of the request (no completion
    timestamp) next to the records that were there; the record is created
    after the expansion and before the workflow is invoked. When the request
    is not accepted, [triggerMint] returns a failure without suspending and
    leaves the ledger as it was. *)
Theorem triggerMint_pending_before_submission request transactionId
    now_create now_value now_stamp registry mints :
  if accepted request registry then
    exists payload mints' k record,
      triggerMint request transactionId now_create now_value now_stamp
        registry mints
      = Awaiting payload mints' k
      /\ MintStateService.getMintRecord
           (MintStateService.mint_id transactionId) mints' = Some record
      /\ (forall id, id <> MintStateService.mint_id transactionId ->
          mints' !! id = mints !! id)
      /\ mr_status record = pending
      /\ mr_completedAt record = None
      /\ mr_basketId record = rq_basketId request
      /\ mr_beneficiary record = rq_beneficiary request
      /\ mr_amount record = rq_amount request
      /\ mr_assets record
         = map toMintedAsset (filteredAssetsOf request registry)
      /\ wp_assets payload
         = map toAssetPayload (filteredAssetsOf request registry)
  else
    exists result,
      triggerMint request transactionId now_create now_value now_stamp
        registry mints
      = Finished result mints
      /\ r_success result = false
      /\ r_mintRecord result = None.
Proof.
  pose proof (triggerMint_cases request transactionId now_create now_value
                now_stamp registry mints) as H.
  destruct (accepted request registry); [|exact H].
  destruct H as (payload & record & Ht & _ & H).
  do 4 eexists. split; [exact Ht|].
  unfold MintStateService.getMintRecord. rewrite lookup_insert_eq.
  split; [done|]. split; [|exact H].
  intros id Hne. by rewrite lookup_insert_ne.
Qed.

(** The whole run of an accepted request: the mocked workflow succeeds, so
    the request is completed, whatever amount it asks for, as long as the
    ledger still holds the record when the promise resolves. *)
Lemma triggerMint_run_completes request transactionId now_create now_value
    now_stamp now_sim now_update between registry mints :
  accepted request registry = true ->
  (forall m, is_Some (m !! MintStateService.mint_id transactionId) ->
             is_Some (between m !! MintStateService.mint_id transactionId)) ->
  exists result final record,
    triggerMint_run request transactionId now_create now_value now_stamp
      now_sim now_update between registry mints = (result, final)
    /\ r_success result = true
    /\ r_mintRecord result = Some record
    /\ final !! MintStateService.mint_id transactionId = Some record
    /\ mr_status record = completed
    /\ mr_completedAt record = Some now_update.
Proof.
  intros Hacc Hbetween.
  pose proof (triggerMint_cases request transactionId now_create now_value
                now_stamp registry mints) as H.
  rewrite Hacc in H. destruct H as (payload & record & Ht & Hid & _).
  unfold triggerMint_run. rewrite Ht.
  unfold resume, runCRESimulation. cbn [sim_success].
  unfold MintStateService.updateMintRecord.
  destruct (Hbetween (<[MintStateService.mint_id transactionId := record]> mints))
    as [r Hr]; [rewrite lookup_insert_eq; by eexists|].
  rewrite Hid, Hr. do 3 eexists. split; [reflexivity|].
  rewrite lookup_insert_eq. repeat split.
Qed.


(** C5, as stated, fails: the backend completes a mint whose amount
    exceeds the reserve balance its workflow reports. *)
Lemma triggerMint_ignores_reserve_balance :
  ~ (forall request transactionId now_create now_value now_stamp now_sim
       now_update registry mints,
        JsNumber.gt (JsNumber.parseFloat (rq_amount request))
          (JsNumber.parseFloat mockReserveBalance) = true ->
        r_success
          (fst (triggerMint_run request transactionId now_create now_value
                  now_stamp now_sim now_update (fun m => m) registry mints))
        = false).
Proof.
  intros H.
  specialize (H Fixtures.large_request "BSKT20240101DEADBEEF" "" "" "" "" ""
                Fixtures.registry ∅).
  vm_compute in H. specialize (H eq_refl). discriminate H.
Qed.

(** C5 (amended): the backend applies no POR gate. The workflow it runs
    is a mock that reports success for every payload, so every accepted
    request is completed whatever its amount (the reserve balance is a
    constant of the mock's output and no attestation age is looked at). The
    dashboard's [checkMintEligibility] accepts exactly when the store's
    [isPORValid] flag is set, the requested amount is at most the drawn
    reserve balance, and the simulated policy draw is above 0.2; its verdict
    names the first of these checks that fails. *)
Theorem por_gate_as_implemented :
  (forall request transactionId now_create now_value now_stamp now_sim
     now_update between registry mints,
      accepted request registry = true ->
      (forall m, is_Some (m !! MintStateService.mint_id transactionId) ->
                 is_Some (between m !! MintStateService.mint_id transactionId)) ->
      exists result final record,
        triggerMint_run request transactionId now_create now_value now_stamp
          now_sim now_update between registry mints = (result, final)
        /\ r_success result = true
        /\ final !! MintStateService.mint_id transactionId = Some record
        /\ mr_status record = completed)
  /\ (forall payload now, sim_success (runCRESimulation payload now) = true)
  /\ (forall amount isPORValid rnd_reserve rnd_policy rnd_reason,
        let res :=
          MintRequestComponent.checkMintEligibility amount isPORValid
            rnd_reserve rnd_policy rnd_reason in
        let sufficient :=
          JsNumber.le (JsNumber.parseInt amount)
            (JsNumber.parseInt (MintRequestComponent.reserveBalance res)) in
        let policy :=
          JsNumber.gt rnd_policy (JsNumber.of_decimal false 2 (-1)) in
        MintRequestComponent.success res = isPORValid && sufficient && policy
        /\ MintRequestComponent.verdict res
           = (if negb isPORValid
              then MintRequestComponent.PORVerificationFailed
              else if negb sufficient
              then MintRequestComponent.InsufficientReserves
              else if negb policy
              then MintRequestComponent.ACEPolicyRejected
              else MintRequestComponent.EligibleForMinting)
        /\ (MintRequestComponent.success res = true
            <-> MintRequestComponent.verdict res
                = MintRequestComponent.EligibleForMinting)).
Proof.
  split; [|split].
  - intros request transactionId now_create now_value now_stamp now_sim
      now_update between registry mints Hacc Hb.
    destruct (triggerMint_run_completes request transactionId now_create
                now_value now_stamp now_sim now_update between registry mints
                Hacc Hb) as (result & final & record & Hr & Hs & _ & Hf & Hst & _).
    by exists result, final, record.
  - done.
  - intros amount isPORValid r1 r2 r3. cbv zeta.
    unfold MintRequestComponent.checkMintEligibility.
    cbn [MintRequestComponent.success MintRequestComponent.verdict
         MintRequestComponent.reserveBalance].
    split; [reflexivity|]. split; [reflexivity|].
    destruct isPORValid, (JsNumber.le _ _), (JsNumber.gt _ _); cbn;
      split; done.
Qed.

Lemma por_gate_as_implemented_witness :
  exists result final record,
    triggerMint_run Fixtures.large_request "BSKT20240101DEADBEEF"
      "2024-01-01T00:00:00.000Z" "2024-01-01T00:00:00.001Z"
      "2024-01-01T00:00:00.002Z" "2024-01-01T00:00:01.502Z"
      "2024-01-01T00:00:01.503Z" (fun m => m) Fixtures.registry ∅
    = (result, final)
    /\ r_success result = true
    /\ final !! MintStateService.mint_id "BSKT20240101DEADBEEF" = Some record
    /\ mr_status record = completed.
Proof.
  apply (proj1 por_gate_as_implemented).
  - vm_compute. reflexivity.
  - intros m Hm. exact Hm.
Defined.

End OrchestratorFacts.

(** ** The workflow's scaling step *)

Module WorkflowFacts.
Import Workflow Invariants.

(** C8, as stated, fails: a decimal value carried by the asset is not
    looked at; the amount is scaled by the global value. *)
Lemma scaledAmount_ignores_per_asset_decimals :
  ~ (forall config asset a d,
        JsNumber.bigint_of_string (wa_amount asset) = Some a ->
        JsNumber.bigint_of_number (claimed_decimals config asset) = Some d ->
        0 <= d ->
        scaledAmount config asset = Ok (a * 10 ^ d)).
Proof.
  intros H. specialize (H WorkflowFixtures.config6 WorkflowFixtures.asset18 600 18).
  vm_compute in H. specialize (H eq_refl eq_refl ltac:(discriminate)).
  discriminate H.
Qed.

Section Loop.
Variable encodable : string -> Z -> bool.
Variable submit : Submission -> option string.

Lemma mint_loop_sent config beneficiary assets : forall sent txHashes,
  exists n new,
    fst (mint_loop encodable submit config beneficiary assets sent txHashes)
    = (sent ++ new)%list
    /\ (n <= length assets)%nat
    /\ Forall2 (submitted_for config beneficiary) new (take n assets).
Proof.
  induction assets as [|asset rest IH]; intros sent txHashes.
  - exists 0%nat, []. cbn. rewrite app_nil_r. repeat split; constructor.
  - cbn [mint_loop].
    destruct (scaledAmount config asset) as [e|scaled] eqn:Hs.
    + exists 0%nat, []. cbn. rewrite app_nil_r.
      repeat split; [lia|constructor].
    + destruct (encodable beneficiary scaled); cbn [negb];
        [|exists 0%nat, []; cbn; rewrite app_nil_r;
          repeat split; [lia|constructor]].
      destruct (submit _) as [h|].
      * destruct (IH (sent ++ [{| sub_to := wa_contractAddress asset;
                                  sub_beneficiary := beneficiary;
                                  sub_amount := scaled |}])%list
                    (txHashes ++ [{| tx_asset := wa_symbol asset;
                                     tx_hash := h |}])%list)
          as (n & new & Hfst & Hn & HF).
        exists (S n), ({| sub_to := wa_contractAddress asset;
                          sub_beneficiary := beneficiary;
                          sub_amount := scaled |} :: new).
        rewrite Hfst, <- app_assoc. cbn. repeat split; [lia|].
        constructor; [done|exact HF].
      * exists 1%nat, [{| sub_to := wa_contractAddress asset;
                         sub_beneficiary := beneficiary;
                         sub_amount := scaled |}].
        cbn. repeat split; [lia|]. rewrite take_0.
        constructor; [done|constructor].
Qed.

End Loop.

(** C8 (amended): every amount handed to the submission is
    [BigInt(asset.amount) * 10^decimals] with [decimals] the single global
    [config.decimals], or 6 when that is absent; it is the same for two
    assets with the same amount string, whatever else they carry. The
    submissions of [onMintRequest] are made for the assets of the payload in
    order, each with the amount scaled this way. *)
Theorem scaledAmount_global_decimals encodable submit config payload :
  (forall asset a d,
      JsNumber.bigint_of_string (wa_amount asset) = Some a ->
      JsNumber.bigint_of_number
        (default (JsNumber.of_Z 6) (cfg_decimals config)) = Some d ->
      0 <= d ->
      scaledAmount config asset = Ok (a * 10 ^ d))
  /\ (forall asset asset',
        wa_amount asset = wa_amount asset' ->
        scaledAmount config asset = scaledAmount config asset')
  /\ (exists n,
        (n <= length (p_assets payload))%nat
        /\ Forall2
             (fun s asset =>
                sub_to s = wa_contractAddress asset
                /\ sub_beneficiary s = p_beneficiaryAccount payload
                /\ scaledAmount config asset = Ok (sub_amount s))
             (fst (onMintRequest encodable submit config payload))
             (take n (p_assets payload))).
Proof.
  split; [|split].
  - intros asset a d Ha Hd Hpos. unfold scaledAmount, decimals.
    rewrite Ha, Hd. destruct (d <? 0) eqn:Hlt; [lia|done].
  - intros asset asset' Heq. unfold scaledAmount. by rewrite Heq.
  - unfold onMintRequest. destruct (negb _).
    + exists 0%nat. cbn. split; [lia|]. rewrite take_0. constructor.
    + destruct (mint_loop_sent encodable submit config
                  (p_beneficiaryAccount payload)
                  (p_assets payload) [] []) as (n & new & Hfst & Hn & HF).
      exists n. rewrite Hfst. cbn. split; [done|exact HF].
Qed.

Lemma scaledAmount_global_decimals_witness :
  scaledAmount WorkflowFixtures.config6 WorkflowFixtures.asset18 = Ok (600 * 10 ^ 6).
Proof.
  apply (proj1 (scaledAmount_global_decimals (fun _ _ => true)
                  (fun _ => None) WorkflowFixtures.config6
                  {| p_messageType := ""; p_transactionId := "";
                     p_beneficiaryAccount := ""; p_amount := "";
                     p_assets := [WorkflowFixtures.asset18];
                     p_chain := {| cp_id := "sepolia"; cp_name := "Sepolia";
                                   cp_chainId := JsNumber.of_Z 11155111;
                                   cp_rpcUrl := "" |};
                     p_bankReference := "" |})).
  - vm_compute. reflexivity.
  - vm_compute. reflexivity.
  - lia.
Defined.

End WorkflowFacts.

(** ** Plain objects *)

Module JsObjectFacts.
Import JsObject.

Section Props.
Context {V : Type}.
Implicit Types (o : t V) (k : string) (v : V).

Lemma eqb_decide k k' : String.eqb k k' = bool_decide (k = k').
Proof.
  destruct (String.eqb_spec k k'); [by rewrite bool_decide_eq_true_2|].
  by rewrite bool_decide_eq_false_2.
Qed.

Lemma own_Some_elem o k : is_Some (own o k) <-> k ∈ map fst o.
Proof.
  induction o as [|[k' v'] o IH]; cbn.
  - split; [by intros [? ?]|by intros ?%elem_of_nil].
  - destruct (String.eqb_spec k' k) as [->|Hne].
    + split; [intros _; left|by eexists].
    + rewrite IH. split; [by right|].
      intros [->|H]%elem_of_cons; [done|exact H].
Qed.

Lemma own_None_elem o k : own o k = None <-> k ∉ map fst o.
Proof. rewrite <- own_Some_elem. apply eq_None_not_Some. Qed.

Lemma own_delete o k k' :
  own (delete o k) k' = if decide (k = k') then None else own o k'.
Proof.
  unfold delete. induction o as [|[k1 v1] o IH]; [by destruct (decide _)|].
  rewrite filter_cons. cbn [fst].
  destruct (String.eqb_spec k1 k) as [->|Hk].
  - rewrite decide_False by (by cbn; intros []). rewrite IH. cbn.
    destruct (decide (k = k')) as [->|Hkk]; [done|].
    destruct (String.eqb_spec k k'); [done|done].
  - rewrite decide_True by done. cbn. rewrite IH.
    destruct (String.eqb_spec k1 k') as [->|Hk1]; [|done].
    by rewrite decide_False.
Qed.

Lemma own_set o k v k' :
  own (set o k v) k' = if decide (k = k') then Some v else own o k'.
Proof.
  induction o as [|[k1 v1] o IH]; cbn.
  - destruct (String.eqb_spec k k'); [by rewrite decide_True|by rewrite decide_False].
  - destruct (String.eqb_spec k1 k) as [->|Hk]; cbn.
    + destruct (String.eqb_spec k k'); [by rewrite decide_True|by rewrite decide_False].
    + rewrite IH. destruct (String.eqb_spec k1 k') as [->|Hk1]; [|done].
      by rewrite decide_False.
Qed.

Lemma fst_delete o k :
  map fst (delete o k) = filter (fun c => c <> k) (map fst o).
Proof.
  unfold delete. induction o as [|[k1 v1] o IH]; [done|].
  rewrite filter_cons. cbn [map fst]. rewrite filter_cons. cbn [fst].
  destruct (String.eqb_spec k1 k) as [->|Hk].
  - rewrite decide_False by (by cbn; intros []).
    rewrite decide_False by (by intros []). exact IH.
  - rewrite !decide_True by done. cbn. by rewrite IH.
Qed.

Lemma wf_delete o k : wf o -> wf (delete o k).
Proof. unfold wf. rewrite fst_delete. apply NoDup_filter. Qed.

Lemma fst_set_new o k v :
  own o k = None -> map fst (set o k v) = (map fst o ++ [k])%list.
Proof.
  induction o as [|[k1 v1] o IH]; cbn; [done|].
  destruct (String.eqb_spec k1 k); [done|]. intros H. cbn. by rewrite IH.
Qed.

Lemma wf_set_new o k v : own o k = None -> wf o -> wf (set o k v).
Proof.
  intros Hk Hwf. unfold wf. rewrite fst_set_new by done.
  apply NoDup_app. split; [done|]. split; [|apply NoDup_singleton].
  intros x Hx ->%list_elem_of_singleton. by apply own_None_elem in Hk.
Qed.

Lemma insert_index_perm i k l : insert_index i k l ≡ₚ (i, k) :: l.
Proof.
  induction l as [|[j k'] l IH]; cbn; [done|].
  destruct (i <=? j); [done|]. rewrite IH. apply Permutation_swap.
Qed.

(** [Object.keys] lists the own property names, each once. *)
Lemma keys_perm o : keys o ≡ₚ map fst o.
Proof.
  unfold keys. generalize (map fst o) as names. clear o.
  induction names as [|k names IH]; [done|].
  cbn [foldr]. rewrite filter_cons.
  destruct (array_index k) as [i|] eqn:Hi.
  - rewrite decide_False
      by (rewrite bool_decide_eq_false_2 by done; exact (fun x => x)).
    rewrite insert_index_perm. cbn. by rewrite IH.
  - rewrite decide_True by (by rewrite bool_decide_eq_true_2).
    rewrite <- Permutation_middle. by rewrite IH.
Qed.

Lemma elem_of_keys o k : k ∈ keys o <-> is_Some (own o k).
Proof. by rewrite keys_perm, own_Some_elem. Qed.

Lemma length_keys o : length (keys o) = length o.
Proof. by rewrite keys_perm, length_map. Qed.

Lemma NoDup_keys o : wf o -> NoDup (keys o).
Proof. unfold wf. by rewrite keys_perm. Qed.

Lemma truthy_own o k : inherited k = false -> truthy o k = true -> is_Some (own o k).
Proof. unfold truthy. destruct (own o k); [by eexists|]. congruence. Qed.

End Props.

End JsObjectFacts.

(** ** The multi-chain registries *)

Module MultiChainFacts.
Import JsObjectFacts Invariants.

(** *** Assets *)

Lemma two_distinct (l : list string) (k : string) :
  NoDup l -> (2 <= length l)%nat -> exists c, c ∈ l /\ c <> k.
Proof.
  destruct l as [|x [|y l]]; cbn; [lia|lia|]. intros Hnd _.
  destruct (decide (x = k)) as [->|Hx].
  - exists y. split; [right; left|]. intros ->.
    apply NoDup_cons in Hnd as [Hnd _]. apply Hnd. left.
  - exists x. split; [left|done].
Qed.

Lemma head_filter_ne (l : list string) (k c : string) :
  c ∈ l -> c <> k ->
  exists c', head (filter (fun c => negb (String.eqb c k)) l) = Some c'
             /\ c' ∈ l /\ c' <> k.
Proof.
  intros Hc Hne.
  assert (Hin : c ∈ filter (fun c => negb (String.eqb c k)) l).
  { apply list_elem_of_filter. split; [|done].
    destruct (String.eqb_spec c k); [done|]. done. }
  destruct (filter _ l) as [|c' l'] eqn:Hf; [by apply elem_of_nil in Hin|].
  exists c'. split; [done|].
  assert (Hc' : c' ∈ filter (fun c => negb (String.eqb c k)) l)
    by (rewrite Hf; left).
  apply list_elem_of_filter in Hc' as [Hk Hl]. split; [done|].
  intros ->. by rewrite String.eqb_refl in Hk.
Qed.

Lemma remove_keeps_other (o : JsObject.t ChainAsset) k c :
  c ∈ JsObject.keys o -> c <> k -> c ∈ JsObject.keys (JsObject.delete o k).
Proof.
  rewrite !elem_of_keys, own_delete. intros Hc Hne.
  by rewrite decide_False by congruence.
Qed.

Lemma remove_leaves_one (o : JsObject.t ChainAsset) k :
  JsObject.wf o -> JsObject.keys o <> [] ->
  (length (JsObject.keys o) =? 1)%nat = false ->
  exists c, c ∈ JsObject.keys o /\ c <> k.
Proof.
  intros Hwf Hne Hlen. apply Nat.eqb_neq in Hlen.
  apply two_distinct; [by apply NoDup_keys|].
  destruct (JsObject.keys o) as [|x [|y l]]; cbn in *; [done|lia|lia].
Qed.

Lemma objects_wf_total h r : objects_wf h -> JsObject.wf (h !!! r).
Proof.
  intros Hwf. rewrite lookup_total_alt.
  destruct (h !! r) as [o|] eqn:Hr; cbn; [exact (Hwf r o Hr)|].
  apply NoDup_nil_2.
Qed.

Lemma set_nonempty (o : JsObject.t ChainAsset) ch ca :
  JsObject.keys (JsObject.set o ch ca) <> [].
Proof.
  intros Hnil.
  assert (Hin : ch ∈ JsObject.keys (JsObject.set o ch ca)).
  { rewrite elem_of_keys, own_set, decide_True by done. by eexists. }
  rewrite Hnil in Hin. by apply elem_of_nil in Hin.
Qed.

Lemma delete_nonempty (o : JsObject.t ChainAsset) ch :
  JsObject.wf o -> JsObject.keys o <> [] ->
  (length (JsObject.keys o) =? 1)%nat = false ->
  JsObject.keys (JsObject.delete o ch) <> [].
Proof.
  intros Hwf Hne Hlen Hnil.
  destruct (remove_leaves_one _ ch Hwf Hne Hlen) as (c & Hc' & Hcne).
  pose proof (remove_keeps_other _ _ _ Hc' Hcne) as Hin.
  rewrite Hnil in Hin. by apply elem_of_nil in Hin.
Qed.

Lemma register_inv a now st a' st' :
  MultiChainAssetRegistry.registerMultiChainAsset a now st = Ok (a', st') ->
  MultiChainAssetRegistry.assets st !! mca_id a = None
  /\ JsObject.keys (MultiChainAssetRegistry.chains_of st a) <> []
  /\ JsObject.truthy (MultiChainAssetRegistry.chains_of st a)
       (property_key (mca_defaultChain a)) = true
  /\ mca_chains a' = mca_chains a
  /\ mca_defaultChain a' = mca_defaultChain a
  /\ st' = {| MultiChainAssetRegistry.assets :=
                <[mca_id a := a']> (MultiChainAssetRegistry.assets st);
              MultiChainAssetRegistry.objects :=
                MultiChainAssetRegistry.objects st |}.
Proof.
  unfold MultiChainAssetRegistry.registerMultiChainAsset.
  destruct (MultiChainAssetRegistry.assets st !! mca_id a); [done|].
  destruct (length _ =? 0)%nat eqn:Hlen; [done|].
  destruct (JsObject.truthy _ _) eqn:Ht; [|done]. cbn.
  intros [= <- <-]. repeat split. intros Hnil. by rewrite Hnil in Hlen.
Qed.

Lemma addChain_inv id ch ca now st a' st' :
  MultiChainAssetRegistry.addAssetToChain id ch ca now st = Ok (a', st') ->
  exists a, MultiChainAssetRegistry.assets st !! id = Some a
    /\ JsObject.own (MultiChainAssetRegistry.chains_of st a) ch = None
    /\ mca_chains a' = mca_chains a
    /\ mca_defaultChain a' = mca_defaultChain a
    /\ st' = {| MultiChainAssetRegistry.assets :=
                  <[id := a']> (MultiChainAssetRegistry.assets st);
                MultiChainAssetRegistry.objects :=
                  <[mca_chains a :=
                      JsObject.set (MultiChainAssetRegistry.chains_of st a)
                        ch ca]> (MultiChainAssetRegistry.objects st) |}.
Proof.
  unfold MultiChainAssetRegistry.addAssetToChain.
  destruct (MultiChainAssetRegistry.assets st !! id) as [a|]; [|done].
  destruct (JsObject.truthy _ _) eqn:Ht; [done|]. intros [= <- <-].
  exists a. repeat split.
  unfold JsObject.truthy in Ht. by destruct (JsObject.own _ _).
Qed.

Lemma removeChain_inv id ch now st a' st' :
  MultiChainAssetRegistry.removeAssetFromChain id ch now st = Ok (a', st') ->
  exists a, MultiChainAssetRegistry.assets st !! id = Some a
    /\ (length (JsObject.keys (MultiChainAssetRegistry.chains_of st a))
        =? 1)%nat = false
    /\ mca_chains a' = mca_chains a
    /\ mca_defaultChain a'
       = (if bool_decide (mca_defaultChain a = Some ch)
          then head (filter (fun c => negb (String.eqb c ch))
                       (JsObject.keys
                          (MultiChainAssetRegistry.chains_of st a)))
          else mca_defaultChain a)
    /\ st' = {| MultiChainAssetRegistry.assets :=
                  <[id := a']> (MultiChainAssetRegistry.assets st);
                MultiChainAssetRegistry.objects :=
                  <[mca_chains a :=
                      JsObject.delete (MultiChainAssetRegistry.chains_of st a)
                        ch]> (MultiChainAssetRegistry.objects st) |}.
Proof.
  unfold MultiChainAssetRegistry.removeAssetFromChain.
  destruct (MultiChainAssetRegistry.assets st !! id) as [a|]; [|done].
  destruct (negb _); [done|].
  destruct (length _ =? 1)%nat eqn:Hlen; [done|]. intros [= <- <-].
  by exists a.
Qed.

(** The chains of an asset after the object under [r] was replaced. *)
Lemma chains_of_insert st assets' r o b :
  MultiChainAssetRegistry.chains_of
    {| MultiChainAssetRegistry.assets := assets';
       MultiChainAssetRegistry.objects :=
         <[r := o]> (MultiChainAssetRegistry.objects st) |} b
  = if decide (r = mca_chains b) then o
    else MultiChainAssetRegistry.chains_of st b.
Proof.
  unfold MultiChainAssetRegistry.chains_of. cbn. apply lookup_total_insert.
Qed.

Lemma asset_step_sound st c :
  registry_sound st -> registry_sound (MultiChainAssetRegistry.step st c).
Proof.
  intros [Hwf Hst]. unfold MultiChainAssetRegistry.step.
  destruct c as [a now|id ch ca now|id ch now].
  - destruct (MultiChainAssetRegistry.registerMultiChainAsset a now st)
      as [e|[a' st']] eqn:Hop; [done|].
    apply register_inv in Hop as (_ & Hne & _ & Hch & _ & ->).
    split; [exact Hwf|]. cbn.
    apply map_Forall_insert_2; [|exact Hst].
    unfold chains_nonempty, MultiChainAssetRegistry.chains_of in *. cbn.
    by rewrite Hch.
  - destruct (MultiChainAssetRegistry.addAssetToChain id ch ca now st)
      as [e|[a' st']] eqn:Hop; [done|].
    apply addChain_inv in Hop as (a & Ha & Hown & Hch & _ & ->).
    split; cbn.
    + apply map_Forall_insert_2; [|exact Hwf].
      apply wf_set_new; [exact Hown|by apply objects_wf_total].
    + assert (Hall : forall b,
                 chains_nonempty st b ->
                 chains_nonempty
                   {| MultiChainAssetRegistry.assets :=
                        <[id := a']> (MultiChainAssetRegistry.assets st);
                      MultiChainAssetRegistry.objects :=
                        <[mca_chains a :=
                            JsObject.set
                              (MultiChainAssetRegistry.chains_of st a) ch ca]>
                          (MultiChainAssetRegistry.objects st) |} b).
      { intros b Hb. unfold chains_nonempty. rewrite chains_of_insert.
        destruct (decide _); [apply set_nonempty|exact Hb]. }
      apply map_Forall_insert_2.
      * unfold chains_nonempty. rewrite chains_of_insert, Hch.
        rewrite decide_True by done. apply set_nonempty.
      * intros i b Hb. apply Hall, (Hst i b Hb).
  - destruct (MultiChainAssetRegistry.removeAssetFromChain id ch now st)
      as [e|[a' st']] eqn:Hop; [done|].
    apply removeChain_inv in Hop as (a & Ha & Hlen & Hch & _ & ->).
    assert (Hdel : JsObject.keys
                     (JsObject.delete
                        (MultiChainAssetRegistry.chains_of st a) ch) <> []).
    { apply delete_nonempty; [by apply objects_wf_total| |exact Hlen].
      exact (Hst id a Ha). }
    split; cbn.
    + apply map_Forall_insert_2; [|exact Hwf].
      apply wf_delete. by apply objects_wf_total.
    + assert (Hall : forall b,
                 chains_nonempty st b ->
                 chains_nonempty
                   {| MultiChainAssetRegistry.assets :=
                        <[id := a']> (MultiChainAssetRegistry.assets st);
                      MultiChainAssetRegistry.objects :=
                        <[mca_chains a :=
                            JsObject.delete
                              (MultiChainAssetRegistry.chains_of st a) ch]>
                          (MultiChainAssetRegistry.objects st) |} b).
      { intros b Hb. unfold chains_nonempty. rewrite chains_of_insert.
        destruct (decide _); [exact Hdel|exact Hb]. }
      apply map_Forall_insert_2.
      * unfold chains_nonempty. rewrite chains_of_insert, Hch.
        by rewrite decide_True by done.
      * intros i b Hb. apply Hall, (Hst i b Hb).
Qed.

Lemma asset_run_sound calls : forall st,
  registry_sound st -> registry_sound (MultiChainAssetRegistry.run calls st).
Proof.
  induction calls as [|c calls IH]; intros st Hst; [done|].
  cbn. by apply IH, asset_step_sound.
Qed.

Lemma unshared_insert st id a a' :
  MultiChainAssetRegistry.assets st !! id = Some a ->
  mca_chains a' = mca_chains a ->
  unshared st ->
  forall objects',
    unshared {| MultiChainAssetRegistry.assets :=
                  <[id := a']> (MultiChainAssetRegistry.assets st);
                MultiChainAssetRegistry.objects := objects' |}.
Proof.
  intros Ha Hch Hun objects' id1 a1 id2 a2. cbn.
  destruct (decide (id = id1)) as [<-|Hn1];
    destruct (decide (id = id2)) as [<-|Hn2]; [done| | |].
  - rewrite lookup_insert_eq, lookup_insert_ne by done.
    intros [= <-] H2 Heq. apply (Hun id a id2 a2 Ha H2). congruence.
  - rewrite lookup_insert_eq, lookup_insert_ne by done.
    intros H1 [= <-] Heq. apply (Hun id1 a1 id a H1 Ha). congruence.
  - rewrite !lookup_insert_ne by done. apply Hun.
Qed.

Lemma fresh_for_insert calls st id a a' :
  MultiChainAssetRegistry.assets st !! id = Some a ->
  mca_chains a' = mca_chains a ->
  fresh_for calls st ->
  forall objects',
    fresh_for calls
      {| MultiChainAssetRegistry.assets :=
           <[id := a']> (MultiChainAssetRegistry.assets st);
         MultiChainAssetRegistry.objects := objects' |}.
Proof.
  intros Ha Hch Hfr objects' i b. cbn.
  destruct (decide (id = i)) as [<-|Hne].
  - rewrite lookup_insert_eq. intros [= <-]. rewrite Hch. by apply (Hfr id).
  - rewrite lookup_insert_ne by done. apply Hfr.
Qed.

(** A change of the object that one asset holds leaves the chains of the
    other assets of an unshared registry as they were. *)
Lemma defaults_ok_insert st id a a' o :
  MultiChainAssetRegistry.assets st !! id = Some a ->
  mca_chains a' = mca_chains a ->
  unshared st -> defaults_ok st ->
  (exists c, mca_defaultChain a' = Some c /\ c ∈ JsObject.keys o) ->
  defaults_ok {| MultiChainAssetRegistry.assets :=
                   <[id := a']> (MultiChainAssetRegistry.assets st);
                 MultiChainAssetRegistry.objects :=
                   <[mca_chains a := o]>
                     (MultiChainAssetRegistry.objects st) |}.
Proof.
  intros Ha Hch Hun Hok Hnew i b. cbn.
  destruct (decide (id = i)) as [<-|Hne].
  - rewrite lookup_insert_eq. intros [= <-].
    unfold default_in_chains. rewrite chains_of_insert, Hch.
    by rewrite decide_True by done.
  - rewrite lookup_insert_ne by done. intros Hb.
    unfold default_in_chains. rewrite chains_of_insert.
    destruct (decide (mca_chains a = mca_chains b)) as [Heq|_];
      [|exact (Hok i b Hb)].
    by destruct (Hne (Hun id a i b Ha Hb Heq)).
Qed.

Lemma register_refs_register a now calls :
  register_refs (MultiChainAssetRegistry.Register a now :: calls)
  = mca_chains a :: register_refs calls.
Proof. reflexivity. Qed.

Lemma asset_step_default st c calls :
  asset_call_default_plain c ->
  registry_sound st -> defaults_ok st -> unshared st ->
  NoDup (register_refs (c :: calls)) -> fresh_for (c :: calls) st ->
  defaults_ok (MultiChainAssetRegistry.step st c)
  /\ unshared (MultiChainAssetRegistry.step st c)
  /\ NoDup (register_refs calls)
  /\ fresh_for calls (MultiChainAssetRegistry.step st c).
Proof.
  intros Hd [Hwf Hne] Hok Hun Hnd Hfr.
  unfold MultiChainAssetRegistry.step.
  destruct c as [a now|id ch ca now|id ch now].
  - rewrite register_refs_register in Hnd.
    apply NoDup_cons in Hnd as [Hnew Hnd].
    assert (Hfr2 : forall i b,
               MultiChainAssetRegistry.assets st !! i = Some b ->
               mca_chains b <> mca_chains a
               /\ mca_chains b ∉ register_refs calls).
    { intros i b Hb. specialize (Hfr i b Hb).
      rewrite register_refs_register in Hfr.
      by apply not_elem_of_cons in Hfr. }
    assert (Hfr' : fresh_for calls st).
    { intros i b Hb. apply (Hfr2 i b Hb). }
    destruct (MultiChainAssetRegistry.registerMultiChainAsset a now st)
      as [e|[a' st']] eqn:Hop; [done|].
    apply register_inv in Hop as (Hfree & _ & Ht & Hch & Hdf & ->).
    split; [|split; [|split; [done|]]].
    + intros i b. cbn. destruct (decide (mca_id a = i)) as [<-|Hni].
      * rewrite lookup_insert_eq. intros [= <-].
        destruct Hd as (d & Hdd & Hinh). exists d. rewrite Hdf.
        split; [done|].
        unfold MultiChainAssetRegistry.chains_of in *. cbn. rewrite Hch.
        apply elem_of_keys, truthy_own; [done|]. by rewrite Hdd in Ht.
      * rewrite lookup_insert_ne by done. apply Hok.
    + intros id1 a1 id2 a2. cbn.
      destruct (decide (mca_id a = id1)) as [<-|Hn1];
        destruct (decide (mca_id a = id2)) as [<-|Hn2]; [done| | |].
      * rewrite lookup_insert_eq, lookup_insert_ne by done.
        intros [= <-] H2 Heq. destruct (Hfr2 id2 a2 H2) as [Hneq _].
        congruence.
      * rewrite lookup_insert_eq, lookup_insert_ne by done.
        intros H1 [= <-] Heq. destruct (Hfr2 id1 a1 H1) as [Hneq _].
        congruence.
      * rewrite !lookup_insert_ne by done. apply Hun.
    + intros i b. cbn. destruct (decide (mca_id a = i)) as [<-|Hni].
      * rewrite lookup_insert_eq. intros [= <-]. by rewrite Hch.
      * rewrite lookup_insert_ne by done. apply Hfr'.
  - change (register_refs (_ :: calls)) with (register_refs calls) in Hnd.
    change (fresh_for (_ :: calls) st) with (fresh_for calls st) in Hfr.
    destruct (MultiChainAssetRegistry.addAssetToChain id ch ca now st)
      as [e|[a' st']] eqn:Hop; [done|].
    apply addChain_inv in Hop as (a & Ha & Hown & Hch & Hdf & ->).
    split; [|split; [|split; [done|]]].
    + apply (defaults_ok_insert st id a a'); try done.
      destruct (Hok id a Ha) as (d & Hdd & Hin). exists d.
      rewrite Hdf. split; [done|]. rewrite elem_of_keys, own_set.
      destruct (decide (ch = d)); [by eexists|]. by apply elem_of_keys.
    + by apply (unshared_insert st id a a').
    + by apply (fresh_for_insert calls st id a a').
  - change (register_refs (_ :: calls)) with (register_refs calls) in Hnd.
    change (fresh_for (_ :: calls) st) with (fresh_for calls st) in Hfr.
    destruct (MultiChainAssetRegistry.removeAssetFromChain id ch now st)
      as [e|[a' st']] eqn:Hop; [done|].
    apply removeChain_inv in Hop as (a & Ha & Hlen & Hch & Hdf & ->).
    split; [|split; [|split; [done|]]].
    + apply (defaults_ok_insert st id a a'); try done.
      destruct (Hok id a Ha) as (d & Hdd & Hin).
      pose proof (objects_wf_total _ (mca_chains a) Hwf) as Hwfa.
      pose proof (Hne id a Ha) as Hnonempty.
      rewrite Hdf.
      destruct (bool_decide (mca_defaultChain a = Some ch)) eqn:Hdef.
      * destruct (remove_leaves_one _ ch Hwfa Hnonempty Hlen)
          as (c & Hc' & Hcne).
        destruct (head_filter_ne _ ch c Hc' Hcne) as (c' & Hh & Hc'in & Hc'ne).
        exists c'. split; [done|]. by apply remove_keeps_other.
      * exists d. split; [done|]. apply remove_keeps_other; [done|].
        apply bool_decide_eq_false in Hdef. congruence.
    + by apply (unshared_insert st id a a').
    + by apply (fresh_for_insert calls st id a a').
Qed.

Lemma asset_run_default calls : forall st,
  Forall asset_call_default_plain calls ->
  registry_sound st -> defaults_ok st -> unshared st ->
  NoDup (register_refs calls) -> fresh_for calls st ->
  defaults_ok (MultiChainAssetRegistry.run calls st).
Proof.
  induction calls as [|c calls IH]; intros st Hd Hs Hok Hun Hnd Hfr; [done|].
  apply Forall_cons in Hd as [Hd1 Hd2].
  destruct (asset_step_default st c calls Hd1 Hs Hok Hun Hnd Hfr)
    as (Hok' & Hun' & Hnd' & Hfr').
  cbn. apply IH; try done. by apply asset_step_sound.
Qed.

Lemma init_sound h : objects_wf h -> registry_sound (MultiChainAssetRegistry.init h).
Proof. intros Hwf. split; [exact Hwf|]. cbn. apply map_Forall_empty. Qed.

(** In every registry built by [registerMultiChainAsset],
    [addAssetToChain] and [removeAssetFromChain] calls, whatever objects
    the callers hand in, every asset is on at least one chain. Its default
    chain is one of its chains when every asset was registered with a
    default that is not an inherited property name and no two
    registrations were handed the same [chains] object. Two assets
    registered with one object share it: removing the first from a chain
    removes the second from it too, and can leave the second with a
    default chain that it is not on. *)
Theorem asset_chains_invariant :
  (forall calls h id a,
      objects_wf h ->
      MultiChainAssetRegistry.assets
        (MultiChainAssetRegistry.run calls (MultiChainAssetRegistry.init h))
        !! id = Some a ->
      chains_nonempty
        (MultiChainAssetRegistry.run calls (MultiChainAssetRegistry.init h)) a)
  /\ (forall calls h id a,
        objects_wf h ->
        Forall asset_call_default_plain calls ->
        NoDup (register_refs calls) ->
        MultiChainAssetRegistry.assets
          (MultiChainAssetRegistry.run calls (MultiChainAssetRegistry.init h))
          !! id = Some a ->
        default_in_chains
          (MultiChainAssetRegistry.run calls (MultiChainAssetRegistry.init h))
          a)
  /\ (objects_wf Fixtures.shared_objects
      /\ Forall asset_call_default_plain Fixtures.shared_calls
      /\ exists a st,
           st = MultiChainAssetRegistry.run Fixtures.shared_calls
                  (MultiChainAssetRegistry.init Fixtures.shared_objects)
           /\ MultiChainAssetRegistry.assets st !! "usdt" = Some a
           /\ mca_defaultChain a = Some "polygon"
           /\ JsObject.keys (MultiChainAssetRegistry.chains_of st a)
              = ["sepolia"]
           /\ ~ default_in_chains st a).
Proof.
  split; [|split].
  - intros calls h id a Hwf Ha.
    destruct (asset_run_sound calls _ (init_sound h Hwf)) as [_ Hall].
    exact (Hall id a Ha).
  - intros calls h id a Hwf Hd Hnd Ha.
    assert (Hall : defaults_ok
                     (MultiChainAssetRegistry.run calls
                        (MultiChainAssetRegistry.init h))).
    { apply asset_run_default;
        [done|by apply init_sound
        |intros i b; cbn; by rewrite lookup_empty
        |intros i1 b1 i2 b2; cbn; by rewrite lookup_empty
        |done
        |intros i b; cbn; by rewrite lookup_empty]. }
    exact (Hall id a Ha).
  - split; [|split].
    + intros r o. unfold Fixtures.shared_objects.
      intros [<- <-]%lookup_singleton_Some. unfold JsObject.wf. cbn.
      apply NoDup_cons. split; [|apply NoDup_singleton].
      intros Hin. apply list_elem_of_singleton in Hin. discriminate Hin.
    + repeat (apply Forall_cons; split; [|]); try apply Forall_nil_2;
        try exact I.
      * exists "sepolia". split; [reflexivity|vm_compute; reflexivity].
      * exists "polygon". split; [reflexivity|vm_compute; reflexivity].
    + exists Fixtures.usdt_stored.
      eexists. split; [reflexivity|].
      assert (Hkeys : JsObject.keys
                (MultiChainAssetRegistry.chains_of
                   (MultiChainAssetRegistry.run Fixtures.shared_calls
                      (MultiChainAssetRegistry.init Fixtures.shared_objects))
                   Fixtures.usdt_stored)
              = ["sepolia"]) by (vm_compute; reflexivity).
      split; [|split; [reflexivity|split; [exact Hkeys|]]].
      * vm_compute. reflexivity.
      * intros (c & Hc & Hin). rewrite Hkeys in Hin.
        apply list_elem_of_singleton in Hin. subst. discriminate Hc.
Qed.

Lemma asset_chains_invariant_witness :
  exists a st,
    st = MultiChainAssetRegistry.run Fixtures.asset_calls
           (MultiChainAssetRegistry.init Fixtures.caller_objects)
    /\ MultiChainAssetRegistry.assets st !! "usdc" = Some a
    /\ JsObject.keys (MultiChainAssetRegistry.chains_of st a) = ["polygon"]
    /\ mca_defaultChain a = Some "polygon"
    /\ chains_nonempty st a /\ default_in_chains st a.
Proof.
  assert (Hwf : objects_wf Fixtures.caller_objects).
  { intros r o. unfold Fixtures.caller_objects.
    intros [<- <-]%lookup_singleton_Some. unfold JsObject.wf. cbn.
    apply NoDup_singleton. }
  assert (Hplain : Forall asset_call_default_plain Fixtures.asset_calls).
  { repeat (apply Forall_cons; split; [|]); try apply Forall_nil_2;
      try exact I.
    exists "sepolia". split; [reflexivity|vm_compute; reflexivity]. }
  assert (Hnd : NoDup (register_refs Fixtures.asset_calls))
    by (cbn; apply NoDup_singleton).
  pose (a := {| mca_id := "usdc"; mca_type := monetary;
                mca_name := "USD Coin"; mca_symbol := "USDC";
                mca_chains := 0%nat; mca_defaultChain := Some "polygon";
                mca_metadata := None;
                mca_createdAt := "2024-01-01T00:00:00.000Z";
                mca_updatedAt := "2024-01-01T00:00:02.000Z" |}).
  assert (Ha : MultiChainAssetRegistry.assets
                 (MultiChainAssetRegistry.run Fixtures.asset_calls
                    (MultiChainAssetRegistry.init Fixtures.caller_objects))
                 !! "usdc" = Some a) by (vm_compute; reflexivity).
  exists a. eexists. split; [reflexivity|]. split; [exact Ha|].
  split; [vm_compute; reflexivity|]. split; [reflexivity|].
  destruct asset_chains_invariant as (Hne & Hdef & _). split.
  - exact (Hne Fixtures.asset_calls Fixtures.caller_objects "usdc" a Hwf Ha).
  - exact (Hdef Fixtures.asset_calls Fixtures.caller_objects "usdc" a Hwf
             Hplain Hnd Ha).
Defined.

(** *** Baskets *)

Lemma includes_elem l c :
  MultiChainBasketRegistry.includes l (Some c) = true <-> c ∈ l.
Proof.
  cbn. rewrite existsb_exists. setoid_rewrite <- list_elem_of_In.
  split.
  - intros (x & Hx & Heq). apply String.eqb_eq in Heq. by subst.
  - intros H. exists c. by rewrite String.eqb_refl.
Qed.

Lemma createBasket_mc_inv b now st b' st' :
  MultiChainBasketRegistry.createBasket b now st = Ok (b', st') ->
  st !! mcb_id b = None
  /\ mcb_supportedChains b <> []
  /\ MultiChainBasketRegistry.includes (mcb_supportedChains b)
       (mcb_defaultChain b) = true
  /\ JsNumber.strict_eq (MultiChainBasketRegistry.totalWeight (mcb_assets b))
       (JsNumber.of_Z 100) = true
  /\ mcb_supportedChains b' = mcb_supportedChains b
  /\ mcb_defaultChain b' = mcb_defaultChain b
  /\ mcb_assets b' = mcb_assets b
  /\ st' = <[mcb_id b := b']> st.
Proof.
  unfold MultiChainBasketRegistry.createBasket.
  destruct (st !! mcb_id b); [done|].
  destruct (length _ =? 0)%nat eqn:Hlen; [done|].
  destruct (MultiChainBasketRegistry.includes _ _) eqn:Hinc; [|done].
  cbn [negb]. destruct (JsNumber.strict_eq _ _) eqn:Hw; [|done].
  intros [= <- <-]. repeat split. intros Hnil. by rewrite Hnil in Hlen.
Qed.

Lemma addChainToBasket_inv id ch now st b' st' :
  MultiChainBasketRegistry.addChainToBasket id ch now st = Ok (b', st') ->
  exists b, st !! id = Some b
    /\ (ch ∉ mcb_supportedChains b)
    /\ mcb_supportedChains b' = (mcb_supportedChains b ++ [ch])%list
    /\ mcb_defaultChain b' = mcb_defaultChain b
    /\ mcb_assets b' = mcb_assets b
    /\ st' = <[id := b']> st.
Proof.
  unfold MultiChainBasketRegistry.addChainToBasket.
  destruct (st !! id) as [b|]; [|done].
  destruct (MultiChainBasketRegistry.includes _ _) eqn:Hinc; [done|].
  intros [= <- <-]. exists b. repeat split.
  rewrite <- includes_elem. by rewrite Hinc.
Qed.

Lemma removeChainFromBasket_inv id ch now st b' st' :
  MultiChainBasketRegistry.removeChainFromBasket id ch now st = Ok (b', st') ->
  exists b, st !! id = Some b
    /\ ch ∈ mcb_supportedChains b
    /\ (length (mcb_supportedChains b) =? 1)%nat = false
    /\ mcb_supportedChains b'
       = filter (fun c => negb (String.eqb c ch)) (mcb_supportedChains b)
    /\ mcb_defaultChain b'
       = (if bool_decide (mcb_defaultChain b = Some ch)
          then head (filter (fun c => negb (String.eqb c ch))
                       (mcb_supportedChains b))
          else mcb_defaultChain b)
    /\ mcb_assets b' = mcb_assets b
    /\ st' = <[id := b']> st.
Proof.
  unfold MultiChainBasketRegistry.removeChainFromBasket.
  destruct (st !! id) as [b|]; [|done].
  destruct (MultiChainBasketRegistry.includes _ _) eqn:Hinc; [|done].
  cbn [negb]. destruct (length _ =? 1)%nat eqn:Hlen; [done|].
  intros [= <- <-]. exists b. split; [done|].
  split; [by apply includes_elem|]. by repeat split.
Qed.

Lemma elem_of_filter_ne (l : list string) k c :
  c ∈ filter (fun c => negb (String.eqb c k)) l <-> c <> k /\ c ∈ l.
Proof.
  rewrite list_elem_of_filter.
  destruct (String.eqb_spec c k); cbn; split; intros [H1 H2]; done.
Qed.

Lemma basket_step_ok st c :
  basket_call_nodup c ->
  map_Forall (fun _ b => NoDup (mcb_supportedChains b) /\ basket_chains_ok b) st ->
  map_Forall (fun _ b => NoDup (mcb_supportedChains b) /\ basket_chains_ok b)
    (MultiChainBasketRegistry.step st c).
Proof.
  intros Hc Hst. unfold MultiChainBasketRegistry.step.
  destruct c as [b now|id ch now|id ch now].
  - destruct (MultiChainBasketRegistry.createBasket b now st)
      as [e|[b' st']] eqn:Hop; [done|].
    apply createBasket_mc_inv in Hop as (_ & Hne & Hinc & _ & Hs & Hd & _ & ->).
    apply map_Forall_insert_2; [|done].
    unfold basket_chains_ok. rewrite Hs, Hd. split; [exact Hc|]. split; [done|].
    destruct (mcb_defaultChain b) as [d|]; [|done].
    exists d. split; [done|]. by apply includes_elem.
  - destruct (MultiChainBasketRegistry.addChainToBasket id ch now st)
      as [e|[b' st']] eqn:Hop; [done|].
    apply addChainToBasket_inv in Hop as (b & Hb & Hnin & Hs & Hd & _ & ->).
    apply map_Forall_insert_2; [|done].
    destruct (Hst _ _ Hb) as [Hnd [Hne (d & Hdd & Hin)]].
    unfold basket_chains_ok. rewrite Hs, Hd. split; [|split].
    + apply NoDup_app. split; [done|]. split; [|apply NoDup_singleton].
      by intros x Hx ->%list_elem_of_singleton.
    + by destruct (mcb_supportedChains b).
    + exists d. split; [done|]. apply elem_of_app. by left.
  - destruct (MultiChainBasketRegistry.removeChainFromBasket id ch now st)
      as [e|[b' st']] eqn:Hop; [done|].
    apply removeChainFromBasket_inv in Hop
      as (b & Hb & Hin & Hlen & Hs & Hd & _ & ->).
    apply map_Forall_insert_2; [|done].
    destruct (Hst _ _ Hb) as [Hnd [Hne (d & Hdd & Hdin)]].
    apply Nat.eqb_neq in Hlen.
    destruct (two_distinct (mcb_supportedChains b) ch Hnd) as (c & Hc' & Hcne).
    { destruct (mcb_supportedChains b) as [|x [|y l]]; cbn in *; [done|lia|lia]. }
    destruct (head_filter_ne _ ch c Hc' Hcne) as (c' & Hh & Hc'in & Hc'ne).
    unfold basket_chains_ok. rewrite Hs, Hd. split; [|split].
    + by apply NoDup_filter.
    + intros Hnil. rewrite Hnil in Hh. done.
    + destruct (bool_decide (mcb_defaultChain b = Some ch)) eqn:Hdef.
      * exists c'. split; [done|]. by apply elem_of_filter_ne.
      * exists d. split; [done|]. apply elem_of_filter_ne. split; [|done].
        apply bool_decide_eq_false in Hdef. congruence.
Qed.

(** In every registry built by [createBasket], [addChainToBasket] and
    [removeChainFromBasket] calls from baskets that list each supported
    chain once, every basket supports at least one chain and its default
    chain is among them. *)
Lemma basket_chains_invariant calls :
  Forall basket_call_nodup calls ->
  forall id b, MultiChainBasketRegistry.run calls ∅ !! id = Some b ->
               basket_chains_ok b.
Proof.
  intros Hnd.
  assert (H : forall st,
              map_Forall (fun _ b => NoDup (mcb_supportedChains b)
                                     /\ basket_chains_ok b) st ->
              map_Forall (fun _ b => NoDup (mcb_supportedChains b)
                                     /\ basket_chains_ok b)
                (MultiChainBasketRegistry.run calls st)).
  { induction Hnd as [|c calls Hc _ IH]; intros st Hst; [done|].
    cbn. by apply IH, basket_step_ok. }
  intros id b Hb. by apply (H ∅ (map_Forall_empty _) id b).
Qed.

Lemma basket_chains_invariant_witness :
  exists b,
    MultiChainBasketRegistry.run Fixtures.basket_calls ∅ !! "busd" = Some b
    /\ mcb_supportedChains b = ["polygon"]
    /\ basket_chains_ok b.
Proof.
  assert (Hnd : Forall basket_call_nodup Fixtures.basket_calls).
  { repeat (apply Forall_cons; split; [|]); try apply Forall_nil_2;
      try exact I.
    cbn. apply NoDup_singleton. }
  destruct (MultiChainBasketRegistry.run Fixtures.basket_calls ∅ !! "busd")
    as [b|] eqn:Hb; [|vm_compute in Hb; discriminate Hb].
  exists b. split; [reflexivity|]. split.
  - vm_compute in Hb. injection Hb as <-. reflexivity.
  - exact (basket_chains_invariant Fixtures.basket_calls Hnd "busd" b Hb).
Defined.

(** C3 at a failing input: a basket created with the chain "sepolia"
    listed twice passes the checks of [createBasket]; removing "sepolia"
    passes the only-chain check (the list has length 2) and leaves the
    basket with no supported chain and an undefined default chain. *)
Lemma removeChainFromBasket_duplicate_chain :
  exists created st1 removed st2,
    MultiChainBasketRegistry.createBasket Fixtures.twice_sepolia
      "2024-01-01T00:00:00.000Z" ∅ = Ok (created, st1)
    /\ MultiChainBasketRegistry.removeChainFromBasket "busd" "sepolia"
         "2024-01-01T00:00:01.000Z" st1 = Ok (removed, st2)
    /\ st2 !! "busd" = Some removed
    /\ mcb_supportedChains removed = []
    /\ mcb_defaultChain removed = None.
Proof. do 4 eexists. repeat split; vm_compute; reflexivity. Qed.

(** An asset registered with a default chain named like a property every
    object inherits passes the default-chain check although the chain is not
    one of its chains. *)
Lemma registerMultiChainAsset_inherited_default :
  exists registered st,
    MultiChainAssetRegistry.registerMultiChainAsset
      (Fixtures.sepolia_asset "constructor") "2024-01-01T00:00:00.000Z"
      (MultiChainAssetRegistry.init Fixtures.caller_objects)
    = Ok (registered, st)
    /\ MultiChainAssetRegistry.assets st !! "usdc" = Some registered
    /\ mca_defaultChain registered = Some "constructor"
    /\ JsObject.keys (MultiChainAssetRegistry.chains_of st registered)
       = ["sepolia"].
Proof. do 2 eexists. repeat split; vm_compute; reflexivity. Qed.

(** *** Basket weights *)

Lemma basket_step_weighted st c :
  map_Forall (fun _ b => weights_sum_to_100_mc b) st ->
  map_Forall (fun _ b => weights_sum_to_100_mc b)
    (MultiChainBasketRegistry.step st c).
Proof.
  intros Hst. unfold MultiChainBasketRegistry.step.
  destruct c as [b now|id ch now|id ch now].
  - destruct (MultiChainBasketRegistry.createBasket b now st)
      as [e|[b' st']] eqn:Hop; [done|].
    apply createBasket_mc_inv in Hop as (_ & _ & _ & Hw & _ & _ & Ha & ->).
    apply map_Forall_insert_2; [|done].
    unfold weights_sum_to_100_mc. by rewrite Ha.
  - destruct (MultiChainBasketRegistry.addChainToBasket id ch now st)
      as [e|[b' st']] eqn:Hop; [done|].
    apply addChainToBasket_inv in Hop as (b & Hb & _ & _ & _ & Ha & ->).
    apply map_Forall_insert_2; [|done].
    unfold weights_sum_to_100_mc. rewrite Ha. exact (Hst _ _ Hb).
  - destruct (MultiChainBasketRegistry.removeChainFromBasket id ch now st)
      as [e|[b' st']] eqn:Hop; [done|].
    apply removeChainFromBasket_inv in Hop as (b & Hb & _ & _ & _ & _ & Ha & ->).
    apply map_Forall_insert_2; [|done].
    unfold weights_sum_to_100_mc. rewrite Ha. exact (Hst _ _ Hb).
Qed.

Lemma basket_run_weighted calls : forall st,
  map_Forall (fun _ b => weights_sum_to_100_mc b) st ->
  map_Forall (fun _ b => weights_sum_to_100_mc b)
    (MultiChainBasketRegistry.run calls st).
Proof.
  induction calls as [|c calls IH]; intros st Hst; [done|].
  apply (IH (MultiChainBasketRegistry.step st c)).
  by apply basket_step_weighted.
Qed.

Lemma createBasket_mc_weights basket now st :
  (forall fb st',
      MultiChainBasketRegistry.createBasket basket now st = Ok (fb, st') ->
      weights_sum_to_100_mc basket
      /\ st' !! mcb_id basket = Some fb
      /\ weights_sum_to_100_mc fb)
  /\ (JsNumber.strict_eq
        (MultiChainBasketRegistry.totalWeight (mcb_assets basket))
        (JsNumber.of_Z 100) = false ->
      exists e,
        MultiChainBasketRegistry.createBasket basket now st = Throw e
        /\ (st !! mcb_id basket = None ->
            mcb_supportedChains basket <> [] ->
            MultiChainBasketRegistry.includes (mcb_supportedChains basket)
              (mcb_defaultChain basket) = true ->
            e = WeightsMustSumTo100
                  (MultiChainBasketRegistry.totalWeight (mcb_assets basket))))
  /\ (forall calls id b,
        MultiChainBasketRegistry.run calls ∅ !! id = Some b ->
        weights_sum_to_100_mc b).
Proof.
  split; [|split].
  - intros fb st' Hc.
    apply createBasket_mc_inv in Hc as (_ & _ & _ & Hw & _ & _ & Ha & ->).
    unfold weights_sum_to_100_mc. rewrite Ha, lookup_insert_eq. done.
  - intros Hsum. unfold MultiChainBasketRegistry.createBasket.
    destruct (st !! mcb_id basket); [by eexists|].
    destruct (mcb_supportedChains basket) as [|c l] eqn:Hl; cbn [length Nat.eqb];
      [eexists; split; [done|]; done|].
    destruct (MultiChainBasketRegistry.includes _ _); cbn [negb];
      [|eexists; split; [done|]; done].
    rewrite Hsum. cbn [negb]. by eexists.
  - intros calls id b Hb.
    by apply (basket_run_weighted calls ∅ (map_Forall_empty _) id b).
Qed.

End MultiChainFacts.

(** ** Whole numbers as JavaScript numbers *)

Module WholeNumberFacts.
Import JsNumber Invariants.

Lemma pow2_pred d : 0 < d -> 2 ^ d = 2 * 2 ^ (d - 1).
Proof.
  intros Hd. rewrite <- Z.pow_succ_r by lia. f_equal. lia.
Qed.

Lemma digits2_bounds p :
  2 ^ (Zpos (digits2_pos p) - 1) <= Zpos p < 2 ^ Zpos (digits2_pos p).
Proof.
  induction p as [p IH|p IH|]; cbn [digits2_pos].
  - rewrite Pos2Z.inj_succ, (Pos2Z.inj_xI p).
    replace (Z.succ (Zpos (digits2_pos p)) - 1) with (Zpos (digits2_pos p)) by lia.
    rewrite Z.pow_succ_r by lia.
    rewrite (pow2_pred (Zpos (digits2_pos p))) in * by lia.
    remember (2 ^ (Zpos (digits2_pos p) - 1)) as X in *. clear HeqX. lia.
  - rewrite Pos2Z.inj_succ, (Pos2Z.inj_xO p).
    replace (Z.succ (Zpos (digits2_pos p)) - 1) with (Zpos (digits2_pos p)) by lia.
    rewrite Z.pow_succ_r by lia.
    rewrite (pow2_pred (Zpos (digits2_pos p))) in * by lia.
    remember (2 ^ (Zpos (digits2_pos p) - 1)) as X in *. clear HeqX. lia.
  - cbn. lia.
Qed.

Lemma digits2_log2 p : Zpos (digits2_pos p) = Z.log2 (Zpos p) + 1.
Proof.
  pose proof (digits2_bounds p) as H.
  symmetry. apply Z.add_move_r. apply Z.log2_unique; [lia|].
  replace (Z.succ (Zpos (digits2_pos p) - 1)) with (Zpos (digits2_pos p)) by lia.
  exact H.
Qed.

Lemma iter_xO p n : Zpos (Pos.iter xO p n) = Zpos p * 2 ^ Zpos n.
Proof.
  induction n as [|n IH] using Pos.peano_ind.
  - cbn. lia.
  - rewrite Pos.iter_succ, (Pos2Z.inj_xO (Pos.iter xO p n)), IH,
      Pos2Z.inj_succ, Z.pow_succ_r by lia.
    lia.
Qed.

Lemma iter_pos_nat {A} (f : A -> A) p x :
  SpecFloat.iter_pos f p x = Nat.iter (Pos.to_nat p) f x.
Proof.
  revert x. induction p as [p IH|p IH|]; intros x; cbn [SpecFloat.iter_pos].
  - rewrite !IH, Pos2Nat.inj_xI, Nat.iter_succ_r.
    replace (2 * Pos.to_nat p)%nat with (Pos.to_nat p + Pos.to_nat p)%nat by lia.
    by rewrite Nat.iter_add.
  - rewrite !IH, Pos2Nat.inj_xO.
    replace (2 * Pos.to_nat p)%nat with (Pos.to_nat p + Pos.to_nat p)%nat by lia.
    by rewrite Nat.iter_add.
  - done.
Qed.

(** Shifting out zero bits is exact. *)
Lemma shr_exact (k : nat) (m : Z) :
  0 < m ->
  Nat.iter k shr_1 (Build_shr_record (m * 2 ^ Z.of_nat k) false false)
  = Build_shr_record m false false.
Proof.
  intros Hm. induction k as [|k IH].
  - cbn. f_equal. lia.
  - rewrite Nat.iter_succ_r.
    replace (m * 2 ^ Z.of_nat (S k)) with (2 * (m * 2 ^ Z.of_nat k))
      by (rewrite Nat2Z.inj_succ, Z.pow_succ_r by lia; lia).
    assert (Hpos : 0 < m * 2 ^ Z.of_nat k) by (apply Z.mul_pos_pos; lia).
    destruct (m * 2 ^ Z.of_nat k) as [|q|q] eqn:Hq; [lia| |lia].
    cbn [Z.mul Pos.mul shr_1 orb]. exact IH.
Qed.


Lemma log2_bound c : 0 < c < 2 ^ 53 -> 0 <= Z.log2 c < 53.
Proof.
  intros Hc. split; [apply Z.log2_nonneg|].
  apply Z.log2_lt_pow2; lia.
Qed.

Lemma digits_scaled M c k :
  0 < c -> 0 <= k -> Zpos M = c * 2 ^ k ->
  Zpos (digits2_pos M) = Z.log2 c + 1 + k.
Proof.
  intros Hc Hk HM. rewrite digits2_log2, HM, Z.log2_mul_pow2 by lia. lia.
Qed.

Lemma fexp_small d : 1 <= d <= 53 -> fexp prec emax d = d - 53.
Proof. intros Hd. unfold fexp, emin, prec, emax. lia. Qed.

(** Rounding a whole number below [2^53] that is written with trailing
    zero bits gives the number itself. *)
Lemma binary_round_aux_whole M e c :
  0 < c < 2 ^ 53 -> e <= Z.log2 c + 1 - 53 ->
  Zpos M = c * 2 ^ (- e) ->
  binary_round_aux prec emax false (Zpos M) e loc_Exact = whole c.
Proof.
  intros Hc He HM. pose proof (log2_bound c Hc) as Hl.
  set (d := Z.log2 c + 1) in *.
  assert (HD : Zpos (digits2_pos M) = d - e)
    by (rewrite (digits_scaled M c (- e)) by lia; lia).
  set (n := d - 53 - e).
  set (M0 := c * 2 ^ (53 - d)).
  assert (HM0 : 0 < M0) by (apply Z.mul_pos_pos; lia).
  assert (HMn : Zpos M = M0 * 2 ^ n).
  { rewrite HM. unfold M0, n. rewrite <- Z.mul_assoc, <- Z.pow_add_r by lia.
    do 2 f_equal. lia. }
  assert (Hshift :
            shr_fexp prec emax (Zpos M) e loc_Exact
            = (Build_shr_record M0 false false, d - 53)).
  { unfold shr_fexp. cbn [Zdigits2 shr_record_of_loc].
    rewrite HD. replace (d - e + e) with d by lia.
    rewrite fexp_small by lia. fold n. unfold shr.
    destruct n as [|p|p] eqn:Hn; [| |lia].
    - f_equal; [|lia]. f_equal. rewrite HMn. cbn. lia.
    - rewrite iter_pos_nat, HMn, <- (positive_nat_Z p), shr_exact by done.
      f_equal. rewrite positive_nat_Z. lia. }
  assert (HD0 : Zdigits2 M0 = 53).
  { destruct M0 as [|m0|m0] eqn:HM0e; [lia| |lia]. cbn [Zdigits2].
    rewrite (digits_scaled m0 c (53 - d)) by (fold d; lia). fold d. lia. }
  unfold binary_round_aux. rewrite Hshift.
  cbn [shr_m loc_of_shr_record round_nearest_even].
  unfold shr_fexp. rewrite HD0. cbn [shr_record_of_loc].
  replace (53 + (d - 53)) with d by lia. rewrite fexp_small by lia.
  replace (d - 53 - (d - 53)) with 0 by lia. cbn [shr shr_m].
  destruct M0 as [|m0|m0] eqn:HM0e; [lia| |lia].
  unfold emax, prec. destruct (d - 53 <=? 1024 - 53) eqn:Hle; [|lia].
  unfold whole. fold d. fold M0. by rewrite HM0e.
Qed.

Lemma binary_round_whole M e c :
  0 < c < 2 ^ 53 -> e <= 0 -> Zpos M = c * 2 ^ (- e) ->
  binary_round prec emax false M e = whole c.
Proof.
  intros Hc He HM. pose proof (log2_bound c Hc) as Hl.
  unfold binary_round.
  rewrite (digits_scaled M c (- e)) by lia.
  replace (Z.log2 c + 1 + - e + e) with (Z.log2 c + 1) by lia.
  rewrite fexp_small by lia. unfold shl_align.
  destruct (Z.log2 c + 1 - 53 - e) as [|p|p] eqn:Hp.
  - apply binary_round_aux_whole; [done|lia|done].
  - apply binary_round_aux_whole; [done|lia|done].
  - apply binary_round_aux_whole; [done|lia|].
    rewrite iter_xO, HM, <- Z.mul_assoc, <- Z.pow_add_r by lia.
    do 2 f_equal. lia.
Qed.

Lemma of_Z_whole c : 0 < c < 2 ^ 53 -> of_Z c = whole c.
Proof.
  intros Hc. unfold of_Z. destruct c as [|p|p]; [lia| |lia].
  cbn [binary_normalize]. apply binary_round_whole; [done|lia|cbn; lia].
Qed.

Lemma shl_align_value m e e' :
  e' <= e -> Zpos (fst (shl_align m e e')) = Zpos m * 2 ^ (e - e').
Proof.
  intros He. unfold shl_align.
  destruct (e' - e) as [|p|p] eqn:Hp; cbn [fst]; [|lia|].
  - replace (e - e') with 0 by lia. lia.
  - rewrite iter_xO. do 2 f_equal. lia.
Qed.

Lemma whole_value c :
  0 < c < 2 ^ 53 ->
  forall e', e' <= Z.log2 c + 1 - 53 ->
  Zpos (Z.to_pos (c * 2 ^ (53 - (Z.log2 c + 1))))
  * 2 ^ (Z.log2 c + 1 - 53 - e') = c * 2 ^ (- e').
Proof.
  intros Hc e' He. pose proof (log2_bound c Hc) as Hl.
  rewrite Z2Pos.id by (apply Z.mul_pos_pos; lia).
  rewrite <- Z.mul_assoc, <- Z.pow_add_r by lia. do 2 f_equal. lia.
Qed.

(** Adding two whole numbers whose sum is below [2^53] is exact. *)
Lemma add_of_Z a b :
  0 <= a -> 0 <= b -> a + b < 2 ^ 53 ->
  add (of_Z a) (of_Z b) = of_Z (a + b).
Proof.
  intros Ha Hb Hab.
  destruct (Z.eq_dec b 0) as [->|Hb0].
  { rewrite Z.add_0_r. destruct (Z.eq_dec a 0) as [->|Ha0]; [done|].
    by rewrite (of_Z_whole a) by lia. }
  destruct (Z.eq_dec a 0) as [->|Ha0].
  { rewrite Z.add_0_l. by rewrite (of_Z_whole b) by lia. }
  rewrite !of_Z_whole by lia.
  pose proof (log2_bound a ltac:(lia)) as Hla.
  pose proof (log2_bound b ltac:(lia)) as Hlb.
  unfold add, whole at 1 2. cbn [SFadd cond_Zopp].
  set (ea := Z.log2 a + 1 - 53). set (eb := Z.log2 b + 1 - 53).
  assert (Hmin : Z.min ea eb <= ea /\ Z.min ea eb <= eb /\ Z.min ea eb <= 0)
    by (unfold ea, eb; lia).
  destruct Hmin as (Hma & Hmb & Hm0).
  rewrite !shl_align_value by done.
  unfold ea at 2, eb at 2.
  rewrite !whole_value by (fold ea; fold eb; lia).
  rewrite <- Z.mul_add_distr_r.
  assert (Hpos : 0 < (a + b) * 2 ^ (- Z.min ea eb))
    by (apply Z.mul_pos_pos; lia).
  destruct ((a + b) * 2 ^ (- Z.min ea eb)) as [|M|M] eqn:HM; [lia| |lia].
  cbn [binary_normalize]. apply binary_round_whole; [lia|done|done].
Qed.

(** Two whole numbers below [2^53] are [===] exactly when they are
    equal. *)
Lemma strict_eq_of_Z a b :
  0 <= a < 2 ^ 53 -> 0 <= b < 2 ^ 53 ->
  strict_eq (of_Z a) (of_Z b) = bool_decide (a = b).
Proof.
  intros Ha Hb.
  destruct (decide (a = b)) as [->|Hne].
  - rewrite bool_decide_eq_true_2 by done.
    destruct (Z.eq_dec b 0) as [->|Hb0]; [done|].
    rewrite of_Z_whole by lia. unfold strict_eq, SFeqb, whole. cbn [SFcompare].
    by rewrite Z.compare_refl, Pos.compare_cont_refl.
  - rewrite bool_decide_eq_false_2 by done.
    destruct (Z.eq_dec a 0) as [->|Ha0].
    { rewrite (of_Z_whole b) by lia. done. }
    destruct (Z.eq_dec b 0) as [->|Hb0].
    { rewrite (of_Z_whole a) by lia. done. }
    rewrite !of_Z_whole by lia. unfold strict_eq, SFeqb, whole. cbn [SFcompare].
    pose proof (log2_bound a ltac:(lia)) as Hla.
    pose proof (log2_bound b ltac:(lia)) as Hlb.
    destruct (Z.compare_spec (Z.log2 a + 1 - 53) (Z.log2 b + 1 - 53))
      as [He|He|He]; [|done|done].
    change (PosDef.Pos.compare_cont Eq ?x ?y) with (Pos.compare x y).
    destruct (Pos.compare_spec
                (Z.to_pos (a * 2 ^ (53 - (Z.log2 a + 1))))
                (Z.to_pos (b * 2 ^ (53 - (Z.log2 b + 1))))) as [Hm|Hm|Hm];
      [|done|done].
    exfalso. apply Hne.
    assert (Hl : Z.log2 a = Z.log2 b) by lia.
    apply (f_equal Zpos) in Hm.
    rewrite !Z2Pos.id in Hm by (apply Z.mul_pos_pos; lia).
    rewrite Hl in Hm. apply Z.mul_cancel_r in Hm; [done|].
    apply Z.pow_nonzero; lia.
Qed.


Lemma sum_Z_nonneg ws : Forall (Z.le 0) ws -> 0 <= sum_Z ws.
Proof.
  unfold sum_Z. induction 1 as [|w ws Hw _ IH]; cbn [fold_right]; lia.
Qed.

(** The [reduce] that adds up whole weights computes their sum. *)
Lemma fold_add_whole {A} (w : A -> number) (l : list A) :
  forall ws acc,
    map w l = map of_Z ws -> 0 <= acc -> Forall (Z.le 0) ws ->
    acc + sum_Z ws < 2 ^ 53 ->
    fold_left (fun sum x => add sum (w x)) l (of_Z acc)
    = of_Z (acc + sum_Z ws).
Proof.
  induction l as [|x l IH]; intros [|n ws] acc Hmap Hacc Hws Hlt;
    try discriminate Hmap.
  - cbn. by rewrite Z.add_0_r.
  - cbn in Hmap. injection Hmap as Hx Hmap.
    apply Forall_cons in Hws as [Hn Hws].
    pose proof (sum_Z_nonneg ws Hws) as Hs.
    cbn [fold_left sum_Z fold_right] in *. fold (sum_Z ws) in *.
    rewrite Hx, add_of_Z by lia.
    rewrite (IH ws (acc + n)) by (done || lia).
    f_equal. lia.
Qed.

End WholeNumberFacts.

(** ** Basket weights *)

Module BasketWeightFacts.
Import Invariants.

(** C4, as stated, fails: a request whose weights do not sum to 100 can
    fail on an earlier check, with an error that does not report the sum;
    here the weights sum to 90 and the error names the unknown asset. *)
Lemma createBasket_error_may_not_report_sum :
  ~ (forall st basket now,
        JsNumber.strict_eq (AssetRegistry.totalWeight (b_assets basket))
          (JsNumber.of_Z 100) = false ->
        AssetRegistry.createBasket basket now st
        = Throw (WeightsMustSumTo100
                   (AssetRegistry.totalWeight (b_assets basket)))).
Proof.
  intros H.
  specialize (H Fixtures.registry Fixtures.underweight_unknown "").
  vm_compute in H. specialize (H eq_refl). discriminate H.
Qed.

(** C4 (amended): in the single-chain and in the multi-chain registry,
    [createBasket] succeeds only if the weights of the request sum to 100 (as
    the code adds them), and then stores the basket, whose weights sum to
    100; for any other sum it fails, and the error is the one that reports
    the sum whenever the checks made before the weights pass (the id is free
    and, single-chain, every asset is registered; multi-chain, the supported
    chains are not empty and include the default chain). Every basket of a
    registry built by the registry's calls has weights that sum to 100. The
    sum is the one the code computes, by adding JavaScript numbers from 0:
    for whole weights that are not negative and sum to less than [2^53] it
    is their exact sum, and the check passes exactly when that sum is
    100. *)
Theorem createBasket_weights_sum_to_100 :
  (forall basket now st,
      (forall fb st',
          AssetRegistry.createBasket basket now st = Ok (fb, st') ->
          weights_sum_to_100 basket
          /\ AssetRegistry.baskets st' !! b_id basket = Some fb
          /\ weights_sum_to_100 fb)
      /\ (JsNumber.strict_eq (AssetRegistry.totalWeight (b_assets basket))
            (JsNumber.of_Z 100) = false ->
          exists e,
            AssetRegistry.createBasket basket now st = Throw e
            /\ (AssetRegistry.baskets st !! b_id basket = None ->
                Forall (registered st) (b_assets basket) ->
                e = WeightsMustSumTo100
                      (AssetRegistry.totalWeight (b_assets basket))))
      /\ (forall calls id b,
            AssetRegistry.baskets (AssetRegistry.run calls AssetRegistry.empty)
              !! id = Some b ->
            weights_sum_to_100 b))
  /\ (forall basket now st,
        (forall fb st',
            MultiChainBasketRegistry.createBasket basket now st = Ok (fb, st') ->
            weights_sum_to_100_mc basket
            /\ st' !! mcb_id basket = Some fb
            /\ weights_sum_to_100_mc fb)
        /\ (JsNumber.strict_eq
              (MultiChainBasketRegistry.totalWeight (mcb_assets basket))
              (JsNumber.of_Z 100) = false ->
            exists e,
              MultiChainBasketRegistry.createBasket basket now st = Throw e
              /\ (st !! mcb_id basket = None ->
                  mcb_supportedChains basket <> [] ->
                  MultiChainBasketRegistry.includes
                    (mcb_supportedChains basket) (mcb_defaultChain basket)
                  = true ->
                  e = WeightsMustSumTo100
                        (MultiChainBasketRegistry.totalWeight
                           (mcb_assets basket))))
        /\ (forall calls id b,
              MultiChainBasketRegistry.run calls ∅ !! id = Some b ->
              weights_sum_to_100_mc b))
  /\ (forall total,
        message (WeightsMustSumTo100 total)
        = ("Asset weights must sum to 100 (current: "
           ++ JsNumber.toString total ++ ")")%string)
  /\ (forall ws,
        Forall (Z.le 0) ws -> sum_Z ws < 2 ^ 53 ->
        (forall l,
            map weight l = map JsNumber.of_Z ws ->
            AssetRegistry.totalWeight l = JsNumber.of_Z (sum_Z ws)
            /\ JsNumber.strict_eq (AssetRegistry.totalWeight l)
                 (JsNumber.of_Z 100)
               = bool_decide (sum_Z ws = 100))
        /\ (forall l,
              map cba_weight l = map JsNumber.of_Z ws ->
              MultiChainBasketRegistry.totalWeight l
              = JsNumber.of_Z (sum_Z ws)
              /\ JsNumber.strict_eq (MultiChainBasketRegistry.totalWeight l)
                   (JsNumber.of_Z 100)
                 = bool_decide (sum_Z ws = 100))).
Proof.
  split; [|split; [|split]].
  - intros basket now st. apply AssetRegistryFacts.createBasket_weights.
  - intros basket now st. apply MultiChainFacts.createBasket_mc_weights.
  - reflexivity.
  - intros ws Hws Hlt.
    pose proof (WholeNumberFacts.sum_Z_nonneg ws Hws) as Hs.
    split; intros l Hl.
    + unfold AssetRegistry.totalWeight.
      rewrite (WholeNumberFacts.fold_add_whole weight l ws 0) by (done || lia).
      rewrite Z.add_0_l. split; [done|].
      apply WholeNumberFacts.strict_eq_of_Z; lia.
    + unfold MultiChainBasketRegistry.totalWeight.
      rewrite (WholeNumberFacts.fold_add_whole cba_weight l ws 0)
        by (done || lia).
      rewrite Z.add_0_l. split; [done|].
      apply WholeNumberFacts.strict_eq_of_Z; lia.
Qed.

Lemma createBasket_weights_sum_to_100_witness :
  (exists e,
      AssetRegistry.createBasket Fixtures.underweight
        "2024-01-01T00:00:03.000Z" Fixtures.registry = Throw e
      /\ message e = "Asset weights must sum to 100 (current: 90)")
  /\ AssetRegistry.totalWeight (b_assets Fixtures.underweight)
     = JsNumber.of_Z 90.
Proof.
  split.
  - destruct (proj1 (proj2 (proj1 createBasket_weights_sum_to_100
                              Fixtures.underweight "2024-01-01T00:00:03.000Z"
                              Fixtures.registry)))
      as (e & He & Hsum).
    + vm_compute. reflexivity.
    + exists e. split; [exact He|].
      rewrite Hsum.
      * vm_compute. reflexivity.
      * vm_compute. reflexivity.
      * repeat constructor; vm_compute; eexists; reflexivity.
  - refine (proj1 (proj1 (proj2 (proj2 (proj2
                                          createBasket_weights_sum_to_100))
                            [60; 30] _ _) _ _)).
    + repeat (apply Forall_cons; split; [lia|]). apply Forall_nil_2.
    + vm_compute. reflexivity.
    + vm_compute. reflexivity.
Defined.

End BasketWeightFacts.

(** ** Strings *)

Module StringFacts.

Lemma append_cons c (s t : string) :
  (String c s ++ t)%string = String c (s ++ t)%string.
Proof. reflexivity. Qed.

Lemma append_snoc (n : string) c after :
  ((n ++ String c "") ++ after)%string = (n ++ String c after)%string.
Proof.
  induction n as [|x n IH]; [reflexivity|]. by rewrite !append_cons, IH.
Qed.

Lemma length_append (s1 s2 : string) :
  String.length (s1 ++ s2) = (String.length s1 + String.length s2)%nat.
Proof. induction s1 as [|c s1 IH]; simpl; [done|]. by rewrite IH. Qed.

Lemma prefix_append (p s : string) : String.prefix p (p ++ s) = true.
Proof.
  induction p as [|c p IH]; simpl; [by destruct s|].
  by destruct (ascii_dec c c).
Qed.

Lemma filter_cons_bool {A} (p : A -> bool) (x : A) (l : list A) :
  filter p (x :: l) = if p x then x :: filter p l else filter p l.
Proof.
  rewrite filter_cons. destruct (p x) eqn:Hp.
  - by rewrite decide_True by exact I.
  - by rewrite decide_False by (intros []).
Qed.

End StringFacts.

(** ** Ledger invariants *)

Module LedgerFacts.
Import LedgerInvariants.

Lemma step_record_ids st c :
  map_Forall (fun id r => mr_id r = id
                          /\ id = MintStateService.mint_id (mr_transactionId r))
    st ->
  map_Forall (fun id r => mr_id r = id
                          /\ id = MintStateService.mint_id (mr_transactionId r))
    (MintStateService.step st c).
Proof.
  intros Hst. destruct c as [b t ben amt assets now|id u now]; cbn.
  - by apply map_Forall_insert_2.
  - unfold MintStateService.updateMintRecord.
    destruct (st !! id) as [r|] eqn:Hr; [|done]. cbn.
    apply map_Forall_insert_2; [|done]. exact (Hst _ _ Hr).
Qed.

Lemma step_record_ids_mc st c :
  map_Forall (fun id r => mcr_id r = id
                          /\ id = MultiChainMintStateService.mint_id
                                    (mcr_chainId r) (mcr_transactionId r)) st ->
  map_Forall (fun id r => mcr_id r = id
                          /\ id = MultiChainMintStateService.mint_id
                                    (mcr_chainId r) (mcr_transactionId r))
    (MultiChainMintStateService.step st c).
Proof.
  intros Hst. destruct c as [b ch chn t ben amt assets now|id u now]; cbn.
  - by apply map_Forall_insert_2.
  - unfold MultiChainMintStateService.updateMintRecord.
    destruct (st !! id) as [r|] eqn:Hr; [|done]. cbn.
    apply map_Forall_insert_2; [|done]. exact (Hst _ _ Hr).
Qed.

Lemma run_record_ids calls : forall st,
  map_Forall (fun id r => mr_id r = id
                          /\ id = MintStateService.mint_id (mr_transactionId r))
    st ->
  map_Forall (fun id r => mr_id r = id
                          /\ id = MintStateService.mint_id (mr_transactionId r))
    (MintStateService.run calls st).
Proof.
  induction calls as [|c calls IH]; intros st Hst; [done|].
  cbn. by apply IH, step_record_ids.
Qed.

Lemma run_record_ids_mc calls : forall st,
  map_Forall (fun id r => mcr_id r = id
                          /\ id = MultiChainMintStateService.mint_id
                                    (mcr_chainId r) (mcr_transactionId r)) st ->
  map_Forall (fun id r => mcr_id r = id
                          /\ id = MultiChainMintStateService.mint_id
                                    (mcr_chainId r) (mcr_transactionId r))
    (MultiChainMintStateService.run calls st).
Proof.
  induction calls as [|c calls IH]; intros st Hst; [done|].
  cbn. by apply IH, step_record_ids_mc.
Qed.

Lemma mint_id_inj t t' :
  MintStateService.mint_id t = MintStateService.mint_id t' -> t = t'.
Proof. unfold MintStateService.mint_id. intros H. by simplify_eq/=. Qed.

(** In every ledger built from the empty one by [createMintRecord] and
    [updateMintRecord] calls, a record is stored under its own [id], and
    that id is the one derived from the record's transaction id (and, in the
    multi-chain ledger, its chain id). *)
Theorem ledger_record_ids :
  (forall calls id r,
      MintStateService.run calls ∅ !! id = Some r ->
      mr_id r = id /\ id = MintStateService.mint_id (mr_transactionId r))
  /\ (forall calls id r,
        MultiChainMintStateService.run calls ∅ !! id = Some r ->
        mcr_id r = id
        /\ id = MultiChainMintStateService.mint_id (mcr_chainId r)
                  (mcr_transactionId r)).
Proof.
  split; intros calls id r Hr.
  - exact (run_record_ids calls ∅ (map_Forall_empty _) id r Hr).
  - exact (run_record_ids_mc calls ∅ (map_Forall_empty _) id r Hr).
Qed.

Lemma ledger_record_ids_witness :
  exists r,
    MintStateService.run Examples.ledger_calls ∅
      !! "mint-BSKT20240101DEADBEEF" = Some r
    /\ mr_id r = "mint-BSKT20240101DEADBEEF"
    /\ mr_transactionId r = "BSKT20240101DEADBEEF".
Proof.
  destruct (MintStateService.run Examples.ledger_calls ∅
              !! "mint-BSKT20240101DEADBEEF") as [r|] eqn:Hr;
    [|vm_compute in Hr; discriminate Hr].
  exists r. split; [reflexivity|].
  destruct (proj1 ledger_record_ids Examples.ledger_calls _ r Hr) as [Hid Htx].
  split; [exact Hid|]. symmetry. by apply mint_id_inj.
Defined.

(** On such a ledger, [GET /status/:transactionId] answers with a record of
    that very transaction, and answers 404 only when the ledger holds no
    record of the transaction. *)
Theorem status_route_finds_transaction calls transactionId :
  match MintsRoute.status transactionId (MintStateService.run calls ∅) with
  | MintsRoute.Json200 record => mr_transactionId record = transactionId
  | MintsRoute.Status404 =>
      forall id r, MintStateService.run calls ∅ !! id = Some r ->
                   mr_transactionId r <> transactionId
  end.
Proof.
  unfold MintsRoute.status, MintStateService.getMintRecord.
  fold (MintStateService.mint_id transactionId).
  destruct (MintStateService.run calls ∅ !! MintStateService.mint_id transactionId)
    as [record|] eqn:Hr.
  - destruct (run_record_ids calls ∅ (map_Forall_empty _) _ _ Hr) as [_ Hid].
    symmetry. by apply mint_id_inj.
  - intros id r Hid Htx.
    destruct (run_record_ids calls ∅ (map_Forall_empty _) _ _ Hid) as [_ ->].
    rewrite Htx in Hid. congruence.
Qed.

Lemma same_request_refl r : same_request r r.
Proof. by repeat split. Qed.

Lemma same_request_mc_refl r : same_request_mc r r.
Proof. by repeat split. Qed.

Lemma step_keeps_request st c id r :
  ~ recreates id c ->
  (exists r0, st !! id = Some r0 /\ same_request r r0) ->
  exists r', MintStateService.step st c !! id = Some r' /\ same_request r r'.
Proof.
  intros Hc (r0 & Hr0 & Hsame).
  destruct c as [b t ben amt assets now|id' u now]; cbn in *.
  - exists r0. by rewrite lookup_insert_ne.
  - unfold MintStateService.updateMintRecord.
    destruct (st !! id') as [r1|] eqn:Hr1; cbn; [|by exists r0].
    destruct (decide (id' = id)) as [->|Hne].
    + rewrite lookup_insert_eq. eexists. split; [done|].
      rewrite Hr0 in Hr1. injection Hr1 as <-. exact Hsame.
    + rewrite lookup_insert_ne by done. by exists r0.
Qed.

Lemma step_keeps_request_mc st c id r :
  ~ recreates_mc id c ->
  (exists r0, st !! id = Some r0 /\ same_request_mc r r0) ->
  exists r', MultiChainMintStateService.step st c !! id = Some r'
             /\ same_request_mc r r'.
Proof.
  intros Hc (r0 & Hr0 & Hsame).
  destruct c as [b ch chn t ben amt assets now|id' u now]; cbn in *.
  - exists r0. by rewrite lookup_insert_ne.
  - unfold MultiChainMintStateService.updateMintRecord.
    destruct (st !! id') as [r1|] eqn:Hr1; cbn; [|by exists r0].
    destruct (decide (id' = id)) as [->|Hne].
    + rewrite lookup_insert_eq. eexists. split; [done|].
      rewrite Hr0 in Hr1. injection Hr1 as <-. exact Hsame.
    + rewrite lookup_insert_ne by done. by exists r0.
Qed.

(** No call removes a record, and as long as no [createMintRecord] call
    reuses its id, a record keeps the request it was created for: its id,
    basket, transaction id, beneficiary, amount and creation time (and, in
    the multi-chain ledger, its chain) are the same after any sequence of
    calls. *)
Theorem ledger_keeps_request :
  (forall calls st id r,
      st !! id = Some r ->
      Forall (fun c => ~ recreates id c) calls ->
      exists r', MintStateService.run calls st !! id = Some r'
                 /\ same_request r r')
  /\ (forall calls st id r,
        st !! id = Some r ->
        Forall (fun c => ~ recreates_mc id c) calls ->
        exists r', MultiChainMintStateService.run calls st !! id = Some r'
                   /\ same_request_mc r r').
Proof.
  split.
  - intros calls st id r Hr Hcalls.
    assert (H : exists r0, st !! id = Some r0 /\ same_request r r0)
      by (exists r; split; [done|apply same_request_refl]).
    clear Hr. revert st H.
    induction Hcalls as [|c calls Hc _ IH]; intros st H; [exact H|].
    cbn. apply IH. by apply step_keeps_request.
  - intros calls st id r Hr Hcalls.
    assert (H : exists r0, st !! id = Some r0 /\ same_request_mc r r0)
      by (exists r; split; [done|apply same_request_mc_refl]).
    clear Hr. revert st H.
    induction Hcalls as [|c calls Hc _ IH]; intros st H; [exact H|].
    cbn. apply IH. by apply step_keeps_request_mc.
Qed.

Lemma ledger_keeps_request_witness :
  exists r r',
    Fixtures.completed_ledger !! "mint-BSKT20240101DEADBEEF" = Some r
    /\ MintStateService.run Examples.later_calls Fixtures.completed_ledger
         !! "mint-BSKT20240101DEADBEEF" = Some r'
    /\ same_request r r'.
Proof.
  destruct (Fixtures.completed_ledger !! "mint-BSKT20240101DEADBEEF")
    as [r|] eqn:Hr; [|vm_compute in Hr; discriminate Hr].
  destruct (proj1 ledger_keeps_request Examples.later_calls
              Fixtures.completed_ledger "mint-BSKT20240101DEADBEEF" r Hr)
    as (r' & Hr' & Hsame).
  - repeat constructor. intros [].
  - exists r, r'. split; [reflexivity|]. split; [exact Hr'|exact Hsame].
Defined.

Lemma has_char_app c t : has_char "-" (c ++ String "-" t) = true.
Proof.
  induction c as [|x c IH]; [done|].
  change (Ascii.eqb x "-" || has_char "-" (c ++ String "-" t) = true).
  rewrite IH. apply orb_true_r.
Qed.

Lemma last_dash_split c1 : forall c2 t1 t2,
  has_char "-" t1 = false -> has_char "-" t2 = false ->
  (c1 ++ String "-" t1)%string = (c2 ++ String "-" t2)%string ->
  c1 = c2 /\ t1 = t2.
Proof.
  induction c1 as [|a c1 IH]; intros [|b c2] t1 t2 H1 H2 Heq; cbn in Heq.
  - by simplify_eq.
  - injection Heq as _ Heq. rewrite Heq, has_char_app in H1. discriminate H1.
  - injection Heq as _ Heq. rewrite <- Heq, has_char_app in H2. discriminate H2.
  - injection Heq as -> Heq. destruct (IH c2 t1 t2 H1 H2 Heq) as [-> ->]. done.
Qed.

(** Two multi-chain mints whose transaction ids hold no [-] get the same
    record id only when they name the same chain and the same transaction;
    when transaction ids may hold a [-], different mints can share an id. *)
Theorem multichain_mint_id_injective :
  (forall c1 t1 c2 t2,
      has_char "-" t1 = false -> has_char "-" t2 = false ->
      MultiChainMintStateService.mint_id c1 t1
      = MultiChainMintStateService.mint_id c2 t2 ->
      c1 = c2 /\ t1 = t2)
  /\ MultiChainMintStateService.mint_id "polygon" "mainnet-T1"
     = MultiChainMintStateService.mint_id "polygon-mainnet" "T1".
Proof.
  split; [|reflexivity].
  intros c1 t1 c2 t2 H1 H2 Heq. unfold MultiChainMintStateService.mint_id in Heq.
  apply (last_dash_split c1 c2 t1 t2 H1 H2).
  change (("mint-" ++ (c1 ++ String "-" t1))%string
          = ("mint-" ++ (c2 ++ String "-" t2))%string) in Heq.
  by simplify_eq/=.
Qed.

Lemma multichain_mint_id_injective_witness :
  "polygon-mainnet" = "polygon-mainnet" /\ "T1" = "T1".
Proof.
  apply (proj1 multichain_mint_id_injective "polygon-mainnet" "T1"
           "polygon-mainnet" "T1"); reflexivity.
Defined.

End LedgerFacts.
(** ** Registries: what later calls leave alone *)

Module RegistryFacts.
Import AssetRegistry Invariants.

Lemma step_keeps st c :
  (forall id a, assets st !! id = Some a -> assets (step st c) !! id = Some a)
  /\ (forall id b, baskets st !! id = Some b ->
                   baskets (step st c) !! id = Some b).
Proof.
  destruct c as [asset now|basket now]; cbn.
  - unfold registerAsset.
    destruct (assets st !! a_id asset) eqn:Hfree; [done|]. cbn.
    split; [|done]. intros id a Ha.
    rewrite lookup_insert_ne; [done|]. intros Heq. rewrite Heq in Hfree. congruence.
  - unfold createBasket.
    destruct (baskets st !! b_id basket) eqn:Hfree; [done|].
    destruct (validate_assets st (b_assets basket)) as [e|[]]; [done|].
    cbn. destruct (negb _); [done|]. cbn.
    split; [done|]. intros id b Hb.
    rewrite lookup_insert_ne; [done|]. intros Heq. rewrite Heq in Hfree. congruence.
Qed.

Lemma run_keeps calls : forall st,
  (forall id a, assets st !! id = Some a ->
                assets (run calls st) !! id = Some a)
  /\ (forall id b, baskets st !! id = Some b ->
                   baskets (run calls st) !! id = Some b).
Proof.
  induction calls as [|c calls IH]; intros st; [done|].
  cbn. destruct (step_keeps st c) as [Ha Hb].
  destruct (IH (step st c)) as [IHa IHb].
  split; [intros id a H; by apply IHa, Ha|intros id b H; by apply IHb, Hb].
Qed.

Lemma step_ids st c :
  map_Forall (fun id a => a_id a = id /\ a_createdAt a = a_updatedAt a)
    (assets st) ->
  map_Forall (fun id b => b_id b = id /\ b_createdAt b = b_updatedAt b)
    (baskets st) ->
  map_Forall (fun id a => a_id a = id /\ a_createdAt a = a_updatedAt a)
    (assets (step st c))
  /\ map_Forall (fun id b => b_id b = id /\ b_createdAt b = b_updatedAt b)
       (baskets (step st c)).
Proof.
  intros Ha Hb. destruct c as [asset now|basket now]; cbn.
  - unfold registerAsset.
    destruct (assets st !! a_id asset) eqn:Hfree; [done|]. cbn.
    split; [|done]. by apply map_Forall_insert_2.
  - unfold createBasket.
    destruct (baskets st !! b_id basket) eqn:Hfree; [done|].
    destruct (validate_assets st (b_assets basket)) as [e|[]]; [done|].
    cbn. destruct (negb _); [done|]. cbn.
    split; [done|]. by apply map_Forall_insert_2.
Qed.

Lemma run_ids calls : forall st,
  map_Forall (fun id a => a_id a = id /\ a_createdAt a = a_updatedAt a)
    (assets st) ->
  map_Forall (fun id b => b_id b = id /\ b_createdAt b = b_updatedAt b)
    (baskets st) ->
  map_Forall (fun id a => a_id a = id /\ a_createdAt a = a_updatedAt a)
    (assets (run calls st))
  /\ map_Forall (fun id b => b_id b = id /\ b_createdAt b = b_updatedAt b)
       (baskets (run calls st)).
Proof.
  induction calls as [|c calls IH]; intros st Ha Hb; [done|].
  cbn. destruct (step_ids st c Ha Hb) as [Ha' Hb']. by apply IH.
Qed.

(** Assets and baskets are written once: whatever [registerAsset] and
    [createBasket] calls follow, an asset or a basket of the registry stays
    exactly as it was stored. In a registry built by such calls from the
    empty one, each is stored under its own id with equal creation and
    update times. *)
Theorem registry_write_once :
  (forall calls st id a,
      assets st !! id = Some a -> assets (run calls st) !! id = Some a)
  /\ (forall calls st id b,
        baskets st !! id = Some b -> baskets (run calls st) !! id = Some b)
  /\ (forall calls id a,
        assets (run calls empty) !! id = Some a ->
        a_id a = id /\ a_createdAt a = a_updatedAt a)
  /\ (forall calls id b,
        baskets (run calls empty) !! id = Some b ->
        b_id b = id /\ b_createdAt b = b_updatedAt b).
Proof.
  split; [|split; [|split]].
  - intros calls st. apply run_keeps.
  - intros calls st. apply run_keeps.
  - intros calls id a.
    apply (proj1 (run_ids calls empty (map_Forall_empty _) (map_Forall_empty _))).
  - intros calls id b.
    apply (proj2 (run_ids calls empty (map_Forall_empty _) (map_Forall_empty _))).
Qed.

Lemma registry_write_once_witness :
  exists a,
    assets Fixtures.registry !! "usd" = Some a
    /\ assets (run [Examples.gbp_call] Fixtures.registry) !! "usd" = Some a
    /\ a_id a = "usd".
Proof.
  destruct (assets Fixtures.registry !! "usd") as [a|] eqn:Ha;
    [|vm_compute in Ha; discriminate Ha].
  exists a. split; [reflexivity|]. split.
  - exact (proj1 registry_write_once [Examples.gbp_call] Fixtures.registry
             "usd" a Ha).
  - exact (proj1 (proj1 (proj2 (proj2 registry_write_once))
                    Examples.registry_calls "usd" a Ha)).
Defined.

Lemma expand_entries_ext st st' t l :
  Forall (fun ba => assets st' !! assetId ba = assets st !! assetId ba) l ->
  expand_entries st' t l = expand_entries st t l.
Proof.
  induction 1 as [|ba l Hba _ IH]; [done|].
  cbn [expand_entries]. by rewrite Hba, IH.
Qed.

(** The expansion of a basket does not change when more assets and baskets
    are registered: in a registry built by [registerAsset] and [createBasket]
    calls, [expandBasket] of a stored basket gives the same entries after any
    further calls. *)
Theorem expandBasket_stable calls0 calls basketId totalAmount :
  is_Some (baskets (run calls0 empty) !! basketId) ->
  expandBasket basketId totalAmount (run calls (run calls0 empty))
  = expandBasket basketId totalAmount (run calls0 empty).
Proof.
  intros [b Hb]. unfold expandBasket.
  rewrite (proj2 (run_keeps calls (run calls0 empty)) _ _ Hb), Hb.
  f_equal. apply expand_entries_ext.
  pose proof (AssetRegistryFacts.run_closed calls0 empty
                AssetRegistryFacts.empty_closed _ _ Hb) as Hreg.
  eapply Forall_impl; [exact Hreg|]. intros ba [a Ha].
  by rewrite (proj1 (run_keeps calls (run calls0 empty)) _ _ Ha), Ha.
Qed.

Lemma expandBasket_stable_witness :
  expandBasket "busd" "1000"
    (run [Examples.gbp_call] (run Examples.registry_calls empty))
  = expandBasket "busd" "1000" (run Examples.registry_calls empty).
Proof.
  apply (expandBasket_stable Examples.registry_calls [Examples.gbp_call]).
  vm_compute. by eexists.
Defined.

End RegistryFacts.

(** ** Adding a chain and removing it again *)

Module ChainRoundTripFacts.
Import JsObjectFacts.

Lemma delete_set_new {V} (o : JsObject.t V) k v :
  JsObject.own o k = None -> JsObject.delete (JsObject.set o k v) k = o.
Proof.
  unfold JsObject.delete.
  induction o as [|[k1 v1] o IH]; cbn [JsObject.set JsObject.own]; intros Hk.
  - rewrite filter_cons, filter_nil. cbn [fst].
    rewrite String.eqb_refl. by rewrite decide_False by (by cbn; intros []).
  - destruct (String.eqb_spec k1 k) as [->|Hne]; [done|].
    rewrite filter_cons. cbn [fst].
    destruct (String.eqb_spec k1 k) as [?|_]; [done|].
    rewrite decide_True by done. by rewrite IH.
Qed.

Lemma filter_ne_snoc (l : list string) c :
  c ∉ l -> filter (fun x => negb (String.eqb x c)) (l ++ [c])%list = l.
Proof.
  intros Hc. rewrite filter_app, filter_cons, filter_nil.
  rewrite String.eqb_refl, decide_False by (by cbn; intros []).
  rewrite app_nil_r. induction l as [|x l IH]; [done|].
  apply not_elem_of_cons in Hc as [Hx Hl].
  rewrite filter_cons, decide_True, IH; [done|done|].
  destruct (String.eqb_spec x c); [by subst|done].
Qed.

(** [addAssetToChain] followed by [removeAssetFromChain] of the same chain
    undoes the addition, provided the asset was on some chain before and
    the chain is not its default chain: the asset is as it was but for
    [updatedAt], and so is every [chains] object, hence every asset that
    shares one. Likewise [addChainToBasket] followed by
    [removeChainFromBasket] gives a basket that supported some chain before
    its supported chains and its default chain back. *)
Theorem add_then_remove_chain :
  (forall st id c x now now' a a1 st1,
      MultiChainAssetRegistry.assets st !! id = Some a ->
      MultiChainAssetRegistry.chains_of st a <> [] ->
      mca_defaultChain a <> Some c ->
      MultiChainAssetRegistry.addAssetToChain id c x now st = Ok (a1, st1) ->
      let a2 :=
        MultiChainAssetRegistry.with_default a (mca_defaultChain a) now' in
      MultiChainAssetRegistry.removeAssetFromChain id c now' st1
      = Ok (a2,
            {| MultiChainAssetRegistry.assets :=
                 <[id := a2]> (MultiChainAssetRegistry.assets st);
               MultiChainAssetRegistry.objects :=
                 MultiChainAssetRegistry.objects st |}))
  /\ (forall st id c now now' b b1 st1,
        st !! id = Some b ->
        mcb_supportedChains b <> [] ->
        mcb_defaultChain b <> Some c ->
        MultiChainBasketRegistry.addChainToBasket id c now st = Ok (b1, st1) ->
        let b2 :=
          MultiChainBasketRegistry.with_chains b (mcb_supportedChains b)
            (mcb_defaultChain b) now' in
        exists st2,
          MultiChainBasketRegistry.removeChainFromBasket id c now' st1
          = Ok (b2, st2)
          /\ st2 !! id = Some b2).
Proof.
  split.
  - intros st id c x now now' a a1 st1 Ha Hne Hdef Hadd a2.
    unfold MultiChainAssetRegistry.addAssetToChain in Hadd. rewrite Ha in Hadd.
    destruct (JsObject.truthy (MultiChainAssetRegistry.chains_of st a) c)
      eqn:Ht; [done|].
    injection Hadd as <- <-.
    set (o := MultiChainAssetRegistry.chains_of st a) in *.
    assert (Hown : JsObject.own o c = None).
    { unfold JsObject.truthy in Ht. by destruct (JsObject.own _ _). }
    assert (Hlook : MultiChainAssetRegistry.objects st !! mca_chains a
                    = Some o).
    { subst o. unfold MultiChainAssetRegistry.chains_of in *.
      rewrite lookup_total_alt in Hne |- *.
      by destruct (MultiChainAssetRegistry.objects st !! mca_chains a). }
    unfold MultiChainAssetRegistry.removeAssetFromChain.
    cbn [MultiChainAssetRegistry.assets]. rewrite lookup_insert_eq.
    unfold MultiChainAssetRegistry.chains_of.
    cbn [MultiChainAssetRegistry.objects mca_chains mca_defaultChain
         MultiChainAssetRegistry.with_default].
    rewrite lookup_total_insert_eq.
    unfold JsObject.truthy. rewrite own_set, decide_True by done.
    cbn [negb]. rewrite length_keys.
    assert (Hlen : length (JsObject.set o c x) = S (length o)).
    { rewrite <- (length_map fst), fst_set_new by done.
      rewrite length_app, length_map. cbn. lia. }
    rewrite Hlen.
    replace (S (length o) =? 1)%nat with false
      by (symmetry; apply Nat.eqb_neq; destruct o; cbn; [done|lia]).
    rewrite bool_decide_eq_false_2 by done.
    rewrite delete_set_new by done.
    rewrite !insert_insert_eq. rewrite (insert_id _ _ _ Hlook).
    reflexivity.
  - intros st id c now now' b b1 st1 Hb Hne Hdef Hadd b2.
    unfold MultiChainBasketRegistry.addChainToBasket in Hadd.
    rewrite Hb in Hadd.
    destruct (MultiChainBasketRegistry.includes (mcb_supportedChains b) (Some c))
      eqn:Hinc0; [done|].
    injection Hadd as <- <-.
    assert (Hnotin : c ∉ mcb_supportedChains b).
    { intros Hin. apply MultiChainFacts.includes_elem in Hin. congruence. }
    unfold MultiChainBasketRegistry.removeChainFromBasket.
    rewrite lookup_insert_eq.
    cbn [mcb_supportedChains mcb_defaultChain
         MultiChainBasketRegistry.with_chains].
    assert (Hinc : MultiChainBasketRegistry.includes
                     (mcb_supportedChains b ++ [c])%list (Some c) = true).
    { apply MultiChainFacts.includes_elem, elem_of_app. right. left. }
    rewrite Hinc. cbn [negb]. rewrite length_app. cbn [length].
    replace (length (mcb_supportedChains b) + 1 =? 1)%nat with false
      by (symmetry; apply Nat.eqb_neq;
          destruct (mcb_supportedChains b); cbn; [done|lia]).
    rewrite bool_decide_eq_false_2 by done.
    rewrite filter_ne_snoc by done.
    eexists. split; [reflexivity|]. apply lookup_insert_eq.
Qed.

Lemma add_then_remove_chain_witness :
  exists a2,
    MultiChainAssetRegistry.removeAssetFromChain "usdc" "polygon"
      "2024-01-01T00:00:02.000Z" Examples.two_chains
    = Ok (a2,
          {| MultiChainAssetRegistry.assets :=
               <["usdc" := a2]>
                 (MultiChainAssetRegistry.assets Examples.one_asset);
             MultiChainAssetRegistry.objects :=
               MultiChainAssetRegistry.objects Examples.one_asset |})
    /\ MultiChainAssetRegistry.chains_of Examples.one_asset a2
       = Fixtures.sepolia_chains.
Proof.
  eexists. split.
  - apply (proj1 add_then_remove_chain Examples.one_asset "usdc" "polygon"
             Fixtures.polygon_chain "2024-01-01T00:00:01.000Z"
             "2024-01-01T00:00:02.000Z" (Fixtures.sepolia_asset "sepolia")
             Examples.on_polygon Examples.two_chains).
    + vm_compute. reflexivity.
    + discriminate.
    + discriminate.
    + vm_compute. reflexivity.
  - reflexivity.
Defined.

End ChainRoundTripFacts.
(** ** The payload handed to the workflow *)

Module PayloadFacts.
Import CREWorkflowService PayloadInvariants.

Lemma AssetType_eqb_eq a b : AssetType_eqb a b = true <-> a = b.
Proof. destruct a, b; cbn; split; (done || discriminate). Qed.

Lemma existsb_AssetType t seen :
  existsb (AssetType_eqb t) seen = true <-> t ∈ seen.
Proof.
  rewrite existsb_exists. setoid_rewrite <- list_elem_of_In. split.
  - intros (x & Hx & Heq). apply AssetType_eqb_eq in Heq. by subst.
  - intros H. exists t. split; [done|]. by apply AssetType_eqb_eq.
Qed.

Lemma distinct_types_spec l : forall seen,
  NoDup (distinct_types seen l)
  /\ forall t, t ∈ distinct_types seen l <-> t ∈ l /\ t ∉ seen.
Proof.
  induction l as [|x l IH]; intros seen; cbn [distinct_types].
  - split; [constructor|]. intros t. split; [by intros ?%elem_of_nil|].
    by intros [?%elem_of_nil _].
  - destruct (existsb (AssetType_eqb x) seen) eqn:Hx.
    + apply existsb_AssetType in Hx.
      destruct (IH seen) as [Hnd Hin]. split; [done|].
      intros t. rewrite Hin, elem_of_cons. split; [by intros [? ?]; split; [right|]|].
      intros [[->|Ht] Hs]; [done|by split].
    + assert (Hx' : x ∉ seen).
      { intros H. apply existsb_AssetType in H. congruence. }
      destruct (IH (x :: seen)) as [Hnd Hin]. split.
      * constructor; [|done]. rewrite Hin. intros [_ H]. apply H. left.
      * intros t. rewrite elem_of_cons, Hin, !elem_of_cons. split.
        -- intros [->|[Ht Hs]]; [by split; [left|]|].
           split; [by right|]. intros H. apply Hs. by right.
        -- intros [[->|Ht] Hs]; [by left|].
           destruct (AssetType_eqb t x) eqn:E;
             [apply AssetType_eqb_eq in E; by left|].
           right. split; [done|]. intros [->|H]; [|by apply Hs].
           rewrite (proj2 (AssetType_eqb_eq x x) eq_refl) in E. discriminate E.
Qed.

Lemma nodup_constant {A} (l : list A) (t : A) :
  NoDup l -> l <> [] -> (forall x, x ∈ l -> x = t) -> l = [t].
Proof.
  intros Hnd Hne Hall. destruct l as [|x [|y l]]; [done| |].
  - by rewrite (Hall x) by left.
  - exfalso. apply NoDup_cons in Hnd as [Hx _]. apply Hx.
    rewrite (Hall x) by left. rewrite (Hall y) by (right; left). left.
Qed.

Lemma filterAssets_typed t expanded :
  Forall (fun ea => a_type (fst ea) = t) (filterAssets (Some t) expanded).
Proof.
  cbn. apply Forall_forall. intros ea Hea.
  apply list_elem_of_filter in Hea as [Hty _].
  apply AssetType_eqb_eq. by destruct (AssetType_eqb _ _).
Qed.

Lemma same_asset_maps l :
  Forall2 same_asset (map toMintedAsset l) (map toAssetPayload l).
Proof.
  induction l as [|x xs IH]; cbn [map]; constructor; [|done].
  by repeat split.
Qed.

(** When [triggerMint] invokes the workflow, the payload names the
    transaction, its bank reference, the beneficiary and the amount of the
    request; the ledger holds a record of the transaction whose assets are,
    one for one, the assets of the payload with the same amounts; there is
    at least one; the asset count of the metadata is their number and the
    asset types of the metadata are the types that occur among them, each
    once; with a type filter every asset has that type. *)
Theorem triggerMint_payload request transactionId now_create now_value
    now_stamp registry mints payload mints' k :
  triggerMint request transactionId now_create now_value now_stamp registry
    mints = Awaiting payload mints' k ->
  wp_transactionId payload = transactionId
  /\ wp_bankReference payload = generateBankReference transactionId
  /\ wp_beneficiaryAccount payload = rq_beneficiary request
  /\ wp_amount payload = rq_amount request
  /\ (exists record,
        mints' !! MintStateService.mint_id transactionId = Some record
        /\ Forall2 same_asset (mr_assets record) (wp_assets payload)
        /\ mr_assets record <> []
        /\ pm_assetCount (wp_metadata payload) = length (mr_assets record))
  /\ NoDup (pm_assetTypes (wp_metadata payload))
  /\ (forall t, t ∈ pm_assetTypes (wp_metadata payload)
                <-> exists p, p ∈ wp_assets payload /\ ap_type p = t)
  /\ (forall t, rq_assetTypeFilter request = Some t ->
                pm_assetTypes (wp_metadata payload) = [t]
                /\ Forall (fun p => ap_type p = t) (wp_assets payload)).
Proof.
  unfold triggerMint, AssetRegistry.expandBasket, AssetRegistry.getBasket.
  destruct (AssetRegistry.baskets registry !! rq_basketId request) as [b|];
    [|discriminate].
  unfold Ok. cbv beta iota.
  set (fa := filterAssets _ _). destruct fa as [|ea l] eqn:Hfa; [discriminate|].
  cbn [MintStateService.createMintRecord]. intros [= <- <- <-].
  cbn [wp_transactionId wp_bankReference wp_beneficiaryAccount wp_amount
       wp_assets wp_metadata pm_assetCount pm_assetTypes buildWorkflowPayload].
  repeat (split; [reflexivity|]).
  destruct (distinct_types_spec (map ap_type (map toAssetPayload (ea :: l))) [])
    as [Hnd Hin].
  assert (Hmem : forall t,
             t ∈ distinct_types [] (map ap_type (map toAssetPayload (ea :: l)))
             <-> exists p, p ∈ map toAssetPayload (ea :: l) /\ ap_type p = t).
  { intros t. rewrite Hin, list_elem_of_fmap. split.
    - intros [(p & -> & Hp) _]. by exists p.
    - intros (p & Hp & <-). split; [by exists p|]. by intros ?%elem_of_nil. }
  split; [|split; [exact Hnd|split; [exact Hmem|]]].
  - eexists. split; [apply lookup_insert_eq|].
    cbn [mr_assets]. split; [|split; [done|cbn [length]; by rewrite !length_map]].
    apply (same_asset_maps (ea :: l)).
  - intros t Hf.
    assert (Hall : Forall (fun p => ap_type p = t)
                     (map toAssetPayload (ea :: l))).
    { apply Forall_map. rewrite <- Hfa. unfold fa. rewrite Hf.
      apply filterAssets_typed. }
    split; [|exact Hall].
    apply nodup_constant; [exact Hnd|by cbn|].
    intros x Hx. apply Hmem in Hx as (p & Hp & <-).
    rewrite Forall_forall in Hall. by apply Hall.
Qed.

Lemma triggerMint_payload_witness :
  exists payload mints' k,
    triggerMint Fixtures.large_request "BSKT20240101DEADBEEF"
      "2024-01-01T00:00:00.000Z" "2024-01-01T00:00:00.001Z"
      "2024-01-01T00:00:00.002Z" Fixtures.registry ∅
    = Awaiting payload mints' k
    /\ wp_bankReference payload
       = generateBankReference "BSKT20240101DEADBEEF"
    /\ NoDup (pm_assetTypes (wp_metadata payload)).
Proof.
  assert (Hout : exists payload mints' k,
             triggerMint Fixtures.large_request "BSKT20240101DEADBEEF"
               "2024-01-01T00:00:00.000Z" "2024-01-01T00:00:00.001Z"
               "2024-01-01T00:00:00.002Z" Fixtures.registry ∅
             = Awaiting payload mints' k).
  { pose proof (OrchestratorFacts.triggerMint_cases Fixtures.large_request
                  "BSKT20240101DEADBEEF" "2024-01-01T00:00:00.000Z"
                  "2024-01-01T00:00:00.001Z" "2024-01-01T00:00:00.002Z"
                  Fixtures.registry ∅) as H.
    assert (Hacc : accepted Fixtures.large_request Fixtures.registry = true)
      by (vm_compute; reflexivity).
    rewrite Hacc in H. destruct H as (payload & record & Ht & _).
    by do 3 eexists. }
  destruct Hout as (payload & mints' & k & Ht).
  exists payload, mints', k. split; [exact Ht|].
  destruct (triggerMint_payload _ _ _ _ _ _ _ _ _ _ Ht)
    as (_ & Href & _ & _ & _ & Hnd & _).
  by split.
Defined.

End PayloadFacts.
(** ** Transaction ids and bank references *)

Module BankReferenceFacts.
Import CREWorkflowService TransactionIds StringFacts.

Lemma length_substring0 n : forall s,
  String.length (String.substring 0 n s) = Nat.min n (String.length s).
Proof.
  induction n as [|n IH]; intros [|c s]; simpl; try done. by rewrite IH.
Qed.

Lemma substring0_all n : forall s,
  (String.length s <= n)%nat -> String.substring 0 n s = s.
Proof.
  induction n as [|n IH]; intros [|c s]; simpl; intros Hle; try done; [lia|].
  rewrite IH; [done|lia].
Qed.

Lemma length_hex_of s : String.length (hex_of s) = (2 * String.length s)%nat.
Proof. induction s as [|c s IH]; simpl; [done|]. lia. Qed.

Lemma length_zeros n : String.length (JsNumber.zeros n) = n.
Proof. induction n as [|n IH]; simpl; [done|]. by rewrite IH. Qed.

Lemma length_remove_dashes s :
  (String.length (remove_dashes s) <= String.length s)%nat.
Proof.
  induction s as [|c s IH]; simpl; [done|]. destruct (Ascii.eqb c "-"); simpl; lia.
Qed.

Lemma length_toUpperCase s :
  String.length (toUpperCase s) = String.length s.
Proof. induction s as [|c s IH]; simpl; [done|]. by rewrite IH. Qed.

Lemma code_hex_digit n :
  (n < 16)%nat ->
  nat_of_ascii (hex_digit n) = if (n <? 10)%nat then (48 + n)%nat else (87 + n)%nat.
Proof.
  intros Hn. unfold hex_digit. apply nat_ascii_embedding.
  destruct (Nat.ltb_spec n 10); lia.
Qed.

Lemma hex_digit_inj n m :
  (n < 16)%nat -> (m < 16)%nat -> hex_digit n = hex_digit m -> n = m.
Proof.
  intros Hn Hm H. apply (f_equal nat_of_ascii) in H.
  rewrite !code_hex_digit in H by done.
  destruct (Nat.ltb_spec n 10), (Nat.ltb_spec m 10); lia.
Qed.

Lemma hex_pair_inj c c' :
  hex_digit (nat_of_ascii c / 16) = hex_digit (nat_of_ascii c' / 16) ->
  hex_digit (nat_of_ascii c mod 16) = hex_digit (nat_of_ascii c' mod 16) ->
  c = c'.
Proof.
  intros Hq Hr.
  pose proof (nat_ascii_bounded c) as Hc.
  pose proof (nat_ascii_bounded c') as Hc'.
  apply hex_digit_inj in Hq;
    [|apply Nat.Div0.div_lt_upper_bound; lia
     |apply Nat.Div0.div_lt_upper_bound; lia].
  apply hex_digit_inj in Hr; [|apply Nat.mod_upper_bound; lia..].
  rewrite <- (ascii_nat_embedding c), <- (ascii_nat_embedding c').
  f_equal.
  rewrite (Nat.div_mod_eq (nat_of_ascii c) 16),
    (Nat.div_mod_eq (nat_of_ascii c') 16).
  by rewrite Hq, Hr.
Qed.

Lemma padded_inj t1 : forall n t2,
  (String.length t1 <= n)%nat -> (String.length t2 <= n)%nat ->
  has_char zero t1 = false -> has_char zero t2 = false ->
  (hex_of t1 ++ JsNumber.zeros (2 * (n - String.length t1)))%string
  = (hex_of t2 ++ JsNumber.zeros (2 * (n - String.length t2)))%string ->
  t1 = t2.
Proof.
  assert (Hnul : forall c r n,
             has_char zero (String c r) = false ->
             (String.length (String c r) <= n)%nat ->
             (hex_of "" ++ JsNumber.zeros (2 * (n - String.length "")))%string
             <> (hex_of (String c r)
                   ++ JsNumber.zeros (2 * (n - String.length (String c r))))%string).
  { intros c r n Hc Hlen Heq.
    change (hex_of "" ++ ?x)%string with x in Heq.
    change (String.length "") with 0%nat in Heq. rewrite Nat.sub_0_r in Heq.
    cbn [String.length] in Hlen.
    destruct n as [|n]; [lia|].
    replace (2 * S n)%nat with (S (S (2 * n))) in Heq by lia.
    cbn [JsNumber.zeros hex_of String.append] in Heq.
    injection Heq as Hq Hr _.
    cbn [has_char] in Hc. apply orb_false_iff in Hc as [Hc _].
    assert (c = zero); [|subst; by rewrite Ascii.eqb_refl in Hc].
    apply hex_pair_inj; [exact (eq_sym Hq)|exact (eq_sym Hr)]. }
  induction t1 as [|c1 t1 IH]; intros n [|c2 t2] H1 H2 Hn1 Hn2 Heq.
  - done.
  - by apply Hnul in Heq.
  - symmetry in Heq. by apply Hnul in Heq.
  - cbn [String.length] in H1, H2. destruct n as [|n]; [lia|].
    cbn [hex_of String.append String.length] in Heq.
    injection Heq as Hq Hr Heq.
    cbn [has_char] in Hn1, Hn2.
    apply orb_false_iff in Hn1 as [_ Hn1]. apply orb_false_iff in Hn2 as [_ Hn2].
    rewrite (hex_pair_inj c1 c2 Hq Hr). f_equal.
    apply (IH n t2); [lia|lia|done|done|].
    exact Heq.
Qed.

(** A bank reference is ["0x"] followed by 64 characters, whatever the
    transaction id. Two transaction ids of at most 32 characters, none of
    them NUL, have the same bank reference only when they are the same id;
    the ids [generateTransactionId] makes are that short. *)
Lemma length_drop_partial s :
  (String.length (drop_partial s) <= String.length s)%nat.
Proof.
  unfold drop_partial. induction s as [|c s IH]; simpl; [done|].
  destruct (drop_partial_aux s) as [r' tail]. simpl in IH.
  destruct tail; simpl; lia.
Qed.

Lemma length_written t : (String.length (written t) <= 32)%nat.
Proof.
  unfold written.
  pose proof (length_substring0 32 t) as Hl.
  pose proof (length_drop_partial (String.substring 0 32 t)) as Hd.
  destruct (String.get 32 t) as [c|]; [destruct (is_continuation c)|]; lia.
Qed.

Lemma get_beyond n : forall s,
  (String.length s <= n)%nat -> String.get n s = None.
Proof.
  induction n as [|n IH]; intros [|c s]; simpl; intros Hle; try done; [lia|].
  apply IH. lia.
Qed.

Lemma written_all t : (String.length t <= 32)%nat -> written t = t.
Proof.
  intros Hle. unfold written. rewrite get_beyond by done.
  by apply substring0_all.
Qed.

Theorem generateBankReference_bytes32 :
  (forall t,
      String.length (generateBankReference t) = 66%nat
      /\ String.prefix "0x" (generateBankReference t) = true)
  /\ (forall t1 t2,
        (String.length t1 <= 32)%nat -> (String.length t2 <= 32)%nat ->
        has_char zero t1 = false -> has_char zero t2 = false ->
        generateBankReference t1 = generateBankReference t2 -> t1 = t2)
  /\ (forall iso b0 b1 b2 b3,
        (String.length (generateTransactionId iso b0 b1 b2 b3) <= 22)%nat
        /\ String.prefix "BSKT" (generateTransactionId iso b0 b1 b2 b3) = true).
Proof.
  split; [|split].
  - intros t. split; [|apply prefix_append].
    unfold generateBankReference. cbv zeta.
    pose proof (length_written t) as Hw.
    rewrite !length_append, length_hex_of, length_zeros.
    simpl String.length. lia.
  - intros t1 t2 H1 H2 Hn1 Hn2. unfold generateBankReference. cbv zeta.
    rewrite !written_all by done. intros Heq.
    apply (padded_inj t1 32 t2); try done.
    simpl in Heq. by injection Heq.
  - intros iso b0 b1 b2 b3. split; [|apply prefix_append].
    unfold generateTransactionId.
    rewrite !length_append, length_toUpperCase, length_hex_of.
    pose proof (length_remove_dashes (String.substring 0 10 iso)) as Hd.
    rewrite length_substring0 in Hd. simpl String.length. lia.
Qed.

Lemma generateBankReference_bytes32_witness :
  "BSKT20240101DEADBEEF" = "BSKT20240101DEADBEEF".
Proof.
  apply (proj1 (proj2 generateBankReference_bytes32)
           "BSKT20240101DEADBEEF" "BSKT20240101DEADBEEF").
  - cbn. lia.
  - cbn. lia.
  - reflexivity.
  - reflexivity.
  - reflexivity.
Defined.

End BankReferenceFacts.
(** ** The mint handler's loop *)

Module MintLoopFacts.
Import Workflow Invariants.

Section Loop.
Variable encodable : string -> Z -> bool.
Variable submit : Submission -> option string.



End Loop.

(** *** Amounts that are not whole *)

Lemma has_char_trim_start c s :
  JsNumber.is_white c = false ->
  has_char c (JsNumber.trim_start s) = has_char c s.
Proof.
  intros Hc. induction s as [|x s IH]; [done|].
  cbn [JsNumber.trim_start]. destruct (JsNumber.is_white x) eqn:Hx; [|done].
  rewrite IH. cbn [has_char].
  destruct (Ascii.eqb_spec x c) as [->|_]; [congruence|done].
Qed.

Lemma has_char_trim_end c s :
  JsNumber.is_white c = false ->
  has_char c (fst (JsNumber.trim_end_aux s)) = has_char c s.
Proof.
  intros Hc. induction s as [|x s IH]; [done|].
  cbn [JsNumber.trim_end_aux].
  destruct (JsNumber.trim_end_aux s) as [r blank] eqn:Hr. cbn [fst] in IH.
  assert (Hblank : blank = true -> has_char c s = false).
  { clear IH. revert r blank Hr. induction s as [|y s IHs]; intros r blank Hr Hb;
      [done|].
    cbn [JsNumber.trim_end_aux] in Hr.
    destruct (JsNumber.trim_end_aux s) as [r' b'].
    destruct (b' && JsNumber.is_white y) eqn:Hby; [|by simplify_eq].
    apply andb_true_iff in Hby as [-> Hy]. cbn [has_char].
    rewrite (IHs r' true eq_refl eq_refl).
    destruct (Ascii.eqb_spec y c) as [->|_]; [congruence|done]. }
  destruct (blank && JsNumber.is_white x) eqn:Hbx; cbn [fst has_char].
  - apply andb_true_iff in Hbx as [-> Hx]. rewrite Hblank by done.
    destruct (Ascii.eqb_spec x c) as [->|_]; [congruence|done].
  - by rewrite IH.
Qed.

Lemma take_radix_keeps radix s : forall acc len,
  has_char "." s = true ->
  has_char "." (JsNumber.take_radix radix acc len s).2 = true.
Proof.
  induction s as [|x s IH]; intros acc len Hs; [done|].
  cbn [JsNumber.take_radix].
  destruct (JsNumber.hex_val x) as [d|] eqn:Hx; [|done].
  destruct (d <? radix); [|done]. apply IH.
  cbn [has_char] in Hs. destruct (Ascii.eqb_spec x ".") as [->|_]; [|done].
  discriminate Hx.
Qed.

Lemma all_digits_fraction radix s :
  has_char "." s = true ->
  (let '(v, n, rest) := JsNumber.take_radix radix 0 0%nat s in
   if negb (n =? 0)%nat && String.eqb rest "" then Some v else None) = None.
Proof.
  intros Hs. pose proof (take_radix_keeps radix s 0 0%nat Hs) as H.
  destruct (JsNumber.take_radix radix 0 0%nat s) as [[v n] rest]. cbn in H.
  destruct rest; [discriminate H|]. by rewrite andb_false_r.
Qed.

Lemma bigint_of_string_fraction s :
  has_char "." s = true -> JsNumber.bigint_of_string s = None.
Proof.
  intros Hs. unfold JsNumber.bigint_of_string.
  assert (Ht : has_char "." (JsNumber.trim s) = true).
  { unfold JsNumber.trim. by rewrite has_char_trim_end, has_char_trim_start. }
  destruct (JsNumber.trim s) as [|c1 t]; [discriminate Ht|].
  cbv beta zeta.
  destruct c1 as [[] [] [] [] [] [] [] []];
    try (apply all_digits_fraction; exact Ht);
    try (rewrite all_digits_fraction by exact Ht; reflexivity).
  destruct t as [|c2 t]; [discriminate Ht|].
  destruct c2 as [[] [] [] [] [] [] [] []];
    try (apply all_digits_fraction; exact Ht).
Qed.

(** An amount that holds a decimal point cannot be scaled: [BigInt] throws
    a SyntaxError for it, whatever [decimals] is, so the asset is not
    submitted. *)
Theorem scaledAmount_rejects_fraction config asset :
  has_char "." (wa_amount asset) = true ->
  scaledAmount config asset = Throw (BigIntSyntaxError (wa_amount asset)).
Proof.
  intros H. unfold scaledAmount. by rewrite bigint_of_string_fraction.
Qed.

Lemma scaledAmount_rejects_fraction_witness :
  scaledAmount WorkflowFixtures.config6 Examples.fraction
  = Throw (BigIntSyntaxError "0.6").
Proof.
  apply (scaledAmount_rejects_fraction WorkflowFixtures.config6
           Examples.fraction).
  reflexivity.
Defined.

End MintLoopFacts.
(** ** Queries on the mint ledger *)

Module MintQueryFacts.
Import MintQueries StringFacts.

Lemma status_partition (l : list MintRecord) :
  length l
  = (length (filter (has_status completed) l)
     + length (filter (has_status failed) l)
     + length (filter (has_status pending) l))%nat.
Proof.
  induction l as [|m l IH]; [done|].
  rewrite !filter_cons_bool. unfold has_status in *.
  destruct (mr_status m); cbn [status_eqb length]; lia.
Qed.

(** The counts of [getBasketStats] add up: every mint of the basket is
    counted in exactly one of [completed], [failed] and [pending]; the same
    holds for the counts of [GET /mints]. *)
Theorem mint_counts_add_up basketId values :
  let stats := getBasketStats basketId values in
  let all := allMintsStats values in
  bs_totalMints stats
  = (bs_completed stats + bs_failed stats + bs_pending stats)%nat
  /\ mc_total all = (mc_completed all + mc_failed all + mc_pending all)%nat.
Proof. cbn. split; apply status_partition. Qed.

Lemma length_filter_perm {A} (p : A -> bool) (l l' : list A) :
  l ≡ₚ l' -> length (filter p l) = length (filter p l').
Proof. intros H. by rewrite H. Qed.

Lemma basket_counts_cons basketId s (m : MintRecord) l :
  length (filter (has_status s) (getMintsByBasket basketId (m :: l)))
  = ((if String.eqb (mr_basketId m) basketId && has_status s m then 1 else 0)
     + length (filter (has_status s) (getMintsByBasket basketId l)))%nat.
Proof.
  unfold getMintsByBasket. rewrite filter_cons_bool.
  destruct (String.eqb (mr_basketId m) basketId); [|done].
  rewrite filter_cons_bool. by destruct (has_status s m).
Qed.

Lemma basket_total_cons basketId (m : MintRecord) l :
  length (getMintsByBasket basketId (m :: l))
  = ((if String.eqb (mr_basketId m) basketId then 1 else 0)
     + length (getMintsByBasket basketId l))%nat.
Proof.
  unfold getMintsByBasket. rewrite filter_cons_bool.
  by destruct (String.eqb (mr_basketId m) basketId).
Qed.

Lemma basket_counts_perm basketId s (l l' : list MintRecord) :
  l ≡ₚ l' ->
  length (filter (has_status s) (getMintsByBasket basketId l))
  = length (filter (has_status s) (getMintsByBasket basketId l')).
Proof. intros H. unfold getMintsByBasket. by rewrite H. Qed.

Lemma basket_total_perm basketId (l l' : list MintRecord) :
  l ≡ₚ l' ->
  length (getMintsByBasket basketId l) = length (getMintsByBasket basketId l').
Proof. intros H. unfold getMintsByBasket. by rewrite H. Qed.

(** Giving a pending mint its final status moves it, in the statistics of
    its basket, from [pending] to [completed] or [failed]; the number of
    mints of the basket stays the same and the counts of every other basket
    are untouched. This holds in whatever order the ledger lists its
    records. *)
Theorem stats_after_update mints id r status assets error now r' mints'
    values values' :
  mints !! id = Some r ->
  mr_status r = pending ->
  MintStateService.updateMintRecord id
    {| u_status := Some status; u_assets := assets; u_error := error |}
    now mints = Ok (r', mints') ->
  listing mints values -> listing mints' values' ->
  let before := getBasketStats (mr_basketId r) values in
  let after := getBasketStats (mr_basketId r) values' in
  bs_totalMints after = bs_totalMints before
  /\ bs_pending before = S (bs_pending after)
  /\ match status with
     | Completed => bs_completed after = S (bs_completed before)
                    /\ bs_failed after = bs_failed before
     | Failed => bs_failed after = S (bs_failed before)
                 /\ bs_completed after = bs_completed before
     end
  /\ (forall other,
        other <> mr_basketId r ->
        let b := getBasketStats other values in
        let a := getBasketStats other values' in
        bs_totalMints a = bs_totalMints b
        /\ bs_completed a = bs_completed b
        /\ bs_failed a = bs_failed b
        /\ bs_pending a = bs_pending b).
Proof.
  intros Hr Hst Hup Hl Hl'.
  unfold MintStateService.updateMintRecord in Hup. rewrite Hr in Hup.
  injection Hup as <- <-.
  set (rest := (map_to_list (delete id mints)).*2).
  assert (Hv : values ≡ₚ r :: rest).
  { unfold listing in Hl. rewrite Hl.
    rewrite <- (map_to_list_delete mints id r Hr). done. }
  assert (Hv' : values' ≡ₚ
                MintStateService.apply_updates r
                  {| u_status := Some status; u_assets := assets;
                     u_error := error |} now :: rest).
  { unfold listing in Hl'. rewrite Hl', <- insert_delete_eq.
    rewrite map_to_list_insert by apply lookup_delete_eq. done. }
  cbv zeta. unfold getBasketStats.
  cbn [bs_totalMints bs_completed bs_failed bs_pending].
  split; [|split; [|split]].
  - rewrite (basket_total_perm _ _ _ Hv), (basket_total_perm _ _ _ Hv').
    by rewrite !basket_total_cons.
  - rewrite (basket_counts_perm _ _ _ _ Hv), (basket_counts_perm _ _ _ _ Hv').
    rewrite !basket_counts_cons. unfold has_status.
    cbn [MintStateService.apply_updates mr_basketId mr_status u_status
         from_option].
    rewrite Hst, String.eqb_refl. by destruct status.
  - destruct status;
      rewrite !(basket_counts_perm _ _ _ _ Hv),
        !(basket_counts_perm _ _ _ _ Hv'), !basket_counts_cons;
      unfold has_status;
      cbn [MintStateService.apply_updates mr_basketId mr_status u_status
           from_option status_of];
      rewrite Hst, String.eqb_refl; done.
  - intros other Hother.
    rewrite (basket_total_perm _ _ _ Hv), (basket_total_perm _ _ _ Hv'),
      !(basket_counts_perm _ _ _ _ Hv), !(basket_counts_perm _ _ _ _ Hv'),
      !basket_total_cons, !basket_counts_cons.
    cbn [MintStateService.apply_updates mr_basketId].
    destruct (String.eqb_spec (mr_basketId r) other) as [Heq|_];
      [congruence|].
    cbn [andb]. repeat split.
Qed.

Lemma stats_after_update_witness :
  bs_pending (getBasketStats "busd" [Examples.pending_record])
  = S (bs_pending (getBasketStats "busd" [Examples.completed_record]))
  /\ bs_completed (getBasketStats "busd" [Examples.completed_record])
     = S (bs_completed (getBasketStats "busd" [Examples.pending_record])).
Proof.
  destruct (stats_after_update Examples.pending_ledger "mint-T1"
              Examples.pending_record Completed None None
              "2024-01-01T00:00:02.000Z" Examples.completed_record
              (<["mint-T1" := Examples.completed_record]>
                 Examples.pending_ledger)
              [Examples.pending_record] [Examples.completed_record])
    as (_ & Hp & [Hc _] & _).
  - vm_compute. reflexivity.
  - reflexivity.
  - vm_compute. reflexivity.
  - unfold listing. vm_compute. reflexivity.
  - unfold listing. vm_compute. reflexivity.
  - split; [exact Hp|exact Hc].
Defined.

Lemma last_cons_default {A} (l : list A) : forall x d,
  List.last (x :: l) d = List.last l x.
Proof.
  induction l as [|y l IH]; intros x d; [done|].
  change (List.last (x :: y :: l) d) with (List.last (y :: l) d).
  by rewrite !IH.
Qed.

Lemma fold_count_asset assetId (l : list MintedAsset) : forall t c s,
  let matching :=
    filter (fun a => String.eqb (ma_assetId a) assetId) l in
  fold_left (count_asset assetId) l (t, c, s)
  = (fold_left (fun t a => JsNumber.add t (JsNumber.parseFloat (ma_amount a)))
       matching t,
     (c + length matching)%nat,
     List.last (map ma_symbol matching) s).
Proof.
  induction l as [|a l IH]; intros t c s; cbv zeta.
  - cbn. by rewrite Nat.add_0_r.
  - cbn [fold_left]. rewrite filter_cons_bool. unfold count_asset at 2.
    destruct (String.eqb (ma_assetId a) assetId).
    + rewrite IH. cbn [fold_left length map]. rewrite last_cons_default.
      do 2 f_equal. lia.
    + by rewrite IH.
Qed.

Lemma fold_count_mint assetId (values : list MintRecord) : forall acc,
  fold_left (count_mint assetId) values acc
  = fold_left (count_asset assetId)
      (concat (map mr_assets (filter (has_status completed) values))) acc.
Proof.
  induction values as [|m values IH]; intros acc; [done|].
  cbn [fold_left]. rewrite filter_cons_bool. unfold count_mint at 2.
  destruct (has_status completed m).
  - cbn [map concat]. by rewrite fold_left_app, IH.
  - apply IH.
Qed.

(** [getTotalMintedByAsset] looks at completed mints only: its count is
    the number of entries for the asset in the completed mints, its total is
    the sum of their amounts, added in order from 0, and its symbol is the
    symbol of the last of them. When no completed mint holds the asset, the
    answer is the asset id for the symbol, ["0"] and 0, whatever pending and
    failed mints there are. *)
Theorem getTotalMintedByAsset_completed assetId values :
  let matching :=
    filter (fun a => String.eqb (ma_assetId a) assetId)
      (concat (map mr_assets (filter (has_status completed) values))) in
  let total := getTotalMintedByAsset assetId values in
  tm_count total = length matching
  /\ tm_symbol total = List.last (map ma_symbol matching) assetId
  /\ tm_totalAmount total
     = JsNumber.toString
         (fold_left
            (fun t a => JsNumber.add t (JsNumber.parseFloat (ma_amount a)))
            matching (JsNumber.of_Z 0))
  /\ (matching = [] ->
      total = {| tm_symbol := assetId; tm_totalAmount := "0"; tm_count := 0 |}).
Proof.
  cbv zeta. unfold getTotalMintedByAsset.
  rewrite fold_count_mint, fold_count_asset. cbv zeta.
  cbn [tm_count tm_symbol tm_totalAmount]. repeat split.
  intros ->. reflexivity.
Qed.

End MintQueryFacts.
(** ** The API key check *)

Module AuthFacts.
Import Auth.

Lemma split_commas_nonempty s : split_commas s <> [].
Proof.
  destruct s as [|u r]; cbn; [done|].
  destruct (u =? 44)%N; [done|]. by destruct (split_commas r).
Qed.

Lemma split_commas_no_comma s :
  Forall (fun piece => 44%N ∉ piece) (split_commas s).
Proof.
  induction s as [|u r IH]; cbn.
  - constructor; [apply not_elem_of_nil|constructor].
  - destruct (N.eqb_spec u 44) as [->|Hne].
    + constructor; [apply not_elem_of_nil|exact IH].
    + destruct (split_commas r) as [|piece pieces].
      * constructor; [|constructor].
        intros Hin. apply list_elem_of_singleton in Hin. congruence.
      * apply Forall_cons in IH as [Hp Hps]. constructor; [|exact Hps].
        intros [?|?]%elem_of_cons; [congruence|done].
Qed.

Lemma trim_start_elem s u : u ∈ trim_start s -> u ∈ s.
Proof.
  induction s as [|v r IH]; cbn; [done|].
  destruct (is_white v); [|done]. intros H. right. by apply IH.
Qed.

Lemma trim_end_elem s u : u ∈ trim_end s -> u ∈ s.
Proof.
  induction s as [|v r IH]; cbn; [done|].
  destruct (trim_end r) as [|w r'].
  - destruct (is_white v); [by intros ?%elem_of_nil|].
    intros ->%list_elem_of_singleton. left.
  - intros [->|H]%elem_of_cons; [left|right; by apply IH].
Qed.

Lemma trim_start_head s u :
  head (trim_start s) = Some u -> is_white u = false.
Proof.
  induction s as [|v r IH]; cbn; [done|].
  destruct (is_white v) eqn:Hv; [exact IH|]. cbn. by intros [= <-].
Qed.

Lemma trim_end_head s u :
  head (trim_end s) = Some u -> head s = Some u.
Proof.
  destruct s as [|v r]; cbn; [done|].
  destruct (trim_end r); [|done]. by destruct (is_white v).
Qed.

Lemma trim_end_last s u :
  last (trim_end s) = Some u -> is_white u = false.
Proof.
  induction s as [|v r IH]; cbn; [done|].
  destruct (trim_end r) as [|w r'].
  - destruct (is_white v) eqn:Hv; [done|]. cbn. by intros [= <-].
  - intros H. apply IH. exact H.
Qed.

Lemma includes_elem_of l k : includes l k = true <-> k ∈ l.
Proof. unfold includes. apply bool_decide_eq_true. Qed.

(** A request passes the API key check exactly when its key is not empty
    and is, after trimming, one of the comma-separated entries of
    [VALID_API_KEYS]. So a key that holds a comma, or that starts or ends
    with white space (any white space or line terminator of ECMAScript),
    never passes, whatever the configuration, and no request passes when
    the variable is unset or empty. *)
Theorem apiKeyAuth_passes header env :
  (forall k,
      apiKeyAuth header env = Next k
      <-> header = Some k /\ k <> []
          /\ exists entry,
               entry ∈ split_commas (default [] env)
               /\ trim entry = k)
  /\ (forall k,
        apiKeyAuth header env = Next k ->
        (44%N ∉ k)
        /\ (forall u, head k = Some u -> is_white u = false)
        /\ (forall u, last k = Some u -> is_white u = false))
  /\ (env = None \/ env = Some [] ->
      apiKeyAuth header env = Status401 \/ apiKeyAuth header env = Status403).
Proof.
  assert (Hchar : forall k,
             apiKeyAuth header env = Next k
             <-> header = Some k /\ k <> []
                 /\ exists entry,
                      entry ∈ split_commas (default [] env)
                      /\ trim entry = k).
  { intros k. unfold apiKeyAuth.
    assert (Hcfg : match env with
                   | Some e => if bool_decide (e = []) then [] else e
                   | None => []
                   end = default [] env).
    { destruct env as [e|]; [|done]. cbn.
      by destruct (decide (e = [])) as [->|];
        [rewrite bool_decide_eq_true_2|rewrite bool_decide_eq_false_2]. }
    rewrite Hcfg.
    destruct header as [apiKey|]; [|split; [done|by intros [? _]]].
    destruct (decide (apiKey = [])) as [->|Hne].
    { rewrite bool_decide_eq_true_2 by done.
      split; [done|]. intros ([= <-] & Hk & _). done. }
    rewrite bool_decide_eq_false_2 by done.
    destruct (includes _ apiKey) eqn:Hinc.
    - apply includes_elem_of, list_elem_of_fmap in Hinc
        as (entry & Hentry & Hin).
      split.
      + intros [= <-]. split; [done|]. split; [done|]. by exists entry.
      + by intros ([= <-] & _).
    - split; [done|]. intros ([= <-] & _ & entry & Hin & Htrim).
      assert (includes (map trim (split_commas (default [] env))) apiKey
              = true); [|congruence].
      apply includes_elem_of, list_elem_of_fmap. by exists entry. }
  split; [exact Hchar|]. split.
  - intros k Hk. apply Hchar in Hk as (_ & _ & entry & Hin & <-).
    split; [|split].
    + intros Hc. apply trim_end_elem, trim_start_elem in Hc.
      pose proof (split_commas_no_comma (default [] env)) as Hall.
      rewrite Forall_forall in Hall. by apply (Hall entry).
    + intros u Hu. apply trim_end_head in Hu. exact (trim_start_head _ _ Hu).
    + intros u Hu. exact (trim_end_last _ _ Hu).
  - intros Henv.
    assert (Hno : forall k, apiKeyAuth header env <> Next k).
    { intros k Hk. apply Hchar in Hk as (_ & Hne & entry & Hin & Htrim).
      assert (Hd : default [] env = []) by (by destruct Henv as [->| ->]).
      rewrite Hd in Hin. cbn in Hin. apply list_elem_of_singleton in Hin.
      subst. by cbn in Hne. }
    destruct (apiKeyAuth header env) as [| |k]; [by left|by right|].
    by destruct (Hno k).
Qed.

Lemma apiKeyAuth_passes_witness :
  apiKeyAuth (Some (units "key-1"))
    (Some (units "key-0, key-1" ++ [160%N])%list)
  = Next (units "key-1")
  /\ apiKeyAuth (Some (units "key-1" ++ [160%N])%list)
       (Some (units "key-0, key-1" ++ [160%N])%list)
     = Status403.
Proof.
  split.
  - apply (proj1 (apiKeyAuth_passes (Some (units "key-1"))
                    (Some (units "key-0, key-1" ++ [160%N])%list))).
    split; [reflexivity|]. split; [discriminate|].
    exists (units " key-1" ++ [160%N])%list. split; [|reflexivity].
    vm_compute. right. left.
  - vm_compute. reflexivity.
Defined.

End AuthFacts.
(** ** The token's proof-of-reserve gate *)

Module StablecoinFacts.
Import StablecoinERC20.

Section Token.
Variable erc20 : Type.
Variable _mint : address -> Z -> erc20 -> Outcome erc20.
Variable _burn : address -> Z -> erc20 -> Outcome erc20.
Variable totalSupply : erc20 -> Z.

(** Once the verifier has attested at a time that is not 0, a minter's
    [mint] gets past the gate at every time from the attestation up to one
    hour later, the end included, and is refused with [PORExpired] after
    that. The attested reserve balance and the amount play no part: the
    gate lets a mint of any amount through, even when the attested balance
    is 0. *)
Theorem mint_after_attestation sender now0 porHash newReserveBalance st st1 :
  verifyAndUpdatePOR erc20 sender now0 porHash newReserveBalance st = inr st1 ->
  0 < now0 ->
  sender = porVerifier erc20 st
  /\ porHash <> 0
  /\ reserveBalance erc20 st1 = newReserveBalance
  /\ forall minter now to amount,
       role (isMinter erc20 st1) minter = true ->
       (now0 <= now <= now0 + 3600 ->
        mint erc20 _mint minter now to amount st1
        = match _mint to amount (token erc20 st1) with
          | inl e => inl e
          | inr t => inr (with_token erc20 st1 t)
          end)
       /\ (now0 + 3600 < now ->
           mint erc20 _mint minter now to amount st1 = inl PORExpired).
Proof.
  unfold verifyAndUpdatePOR. intros Hv Hnow.
  destruct (bool_decide (sender = porVerifier erc20 st)) eqn:Hs; [|done].
  apply bool_decide_eq_true in Hs. cbn [negb] in Hv.
  destruct (bool_decide (porHash = 0)) eqn:Hh; [done|].
  apply bool_decide_eq_false in Hh. injection Hv as <-.
  split; [done|]. split; [done|]. split; [done|].
  intros minter now to amount Hrole.
  unfold mint, requirePOR, checked_sub, POR_VALIDITY_WINDOW.
  rewrite Hrole. cbn [negb with_por lastPORTimestamp token].
  destruct (now0 =? 0) eqn:H0; [lia|].
  split; intros Hrange.
  - destruct (now <? now0) eqn:H1; [lia|].
    by destruct (3600 <? now - now0) eqn:H2; [lia|].
  - destruct (now <? now0) eqn:H1; [lia|].
    by destruct (3600 <? now - now0) eqn:H2; [|lia].
Qed.

Lemma isPORValid_requirePOR now st :
  0 <= lastPORTimestamp erc20 st <= now ->
  (isPORValid erc20 now st = inr true <-> requirePOR erc20 now st = inr tt)
  /\ (isPORValid erc20 now st = inr false
      <-> requirePOR erc20 now st = inl PORVerificationRequired
          \/ requirePOR erc20 now st = inl PORExpired)
  /\ (0 < lastPORTimestamp erc20 st ->
      now = lastPORTimestamp erc20 st + POR_VALIDITY_WINDOW ->
      isPORValid erc20 now st = inr true).
Proof.
  intros Hrange. unfold isPORValid, requirePOR, checked_sub,
    POR_VALIDITY_WINDOW.
  destruct (lastPORTimestamp erc20 st =? 0) eqn:H0.
  - replace (0 <? lastPORTimestamp erc20 st) with false by lia.
    split; [done|]. split; [|lia]. split; [by left|done].
  - replace (0 <? lastPORTimestamp erc20 st) with true by lia.
    destruct (now <? lastPORTimestamp erc20 st) eqn:H1; [lia|].
    destruct (3600 <? now - lastPORTimestamp erc20 st) eqn:H2.
    + replace (now - lastPORTimestamp erc20 st <=? 3600) with false by lia.
      split; [done|]. split; [|lia]. split; [by right|done].
    + replace (now - lastPORTimestamp erc20 st <=? 3600) with true by lia.
      split; [done|]. split; [|done]. split; [done|by intros [?|?]].
Qed.

(** [isPORValid] and the checks of [mint] and [burn] agree: at a time
    that is not before the last attestation, [isPORValid] answers [true]
    exactly when the two proof-of-reserve checks pass, and [false] exactly
    when they refuse with [PORVerificationRequired] or [PORExpired]. So
    when it answers [true], a minter's [mint] and a burner's [burn] go on
    to [_mint] and [_burn], and when it answers [false] they revert with
    one of the two errors. An attestation that is exactly one hour old is
    still valid. *)
Theorem isPORValid_matches_gate now st :
  0 <= lastPORTimestamp erc20 st <= now ->
  (isPORValid erc20 now st = inr true <-> requirePOR erc20 now st = inr tt)
  /\ (isPORValid erc20 now st = inr false
      <-> requirePOR erc20 now st = inl PORVerificationRequired
          \/ requirePOR erc20 now st = inl PORExpired)
  /\ (0 < lastPORTimestamp erc20 st ->
      now = lastPORTimestamp erc20 st + POR_VALIDITY_WINDOW ->
      isPORValid erc20 now st = inr true)
  /\ (forall sender account amount,
        isPORValid erc20 now st = inr true ->
        (role (isMinter erc20 st) sender = true ->
         mint erc20 _mint sender now account amount st
         = match _mint account amount (token erc20 st) with
           | inl e => inl e
           | inr t => inr (with_token erc20 st t)
           end)
        /\ (role (isBurner erc20 st) sender = true ->
            burn erc20 _burn sender now account amount st
            = match _burn account amount (token erc20 st) with
              | inl e => inl e
              | inr t => inr (with_token erc20 st t)
              end))
  /\ (forall sender account amount,
        isPORValid erc20 now st = inr false ->
        (role (isMinter erc20 st) sender = true ->
         mint erc20 _mint sender now account amount st
         = inl PORVerificationRequired
         \/ mint erc20 _mint sender now account amount st = inl PORExpired)
        /\ (role (isBurner erc20 st) sender = true ->
            burn erc20 _burn sender now account amount st
            = inl PORVerificationRequired
            \/ burn erc20 _burn sender now account amount st
               = inl PORExpired)).
Proof.
  intros Hrange.
  destruct (isPORValid_requirePOR now st Hrange) as (Ht & Hf & Hedge).
  split; [exact Ht|]. split; [exact Hf|]. split; [exact Hedge|]. split.
  - intros sender account amount Hv. apply Ht in Hv.
    split; intros Hrole; unfold mint, burn; by rewrite Hrole, Hv.
  - intros sender account amount Hv. apply Hf in Hv.
    split; intros Hrole; unfold mint, burn; rewrite Hrole; cbn [negb];
      destruct Hv as [Hv|Hv]; rewrite Hv; [by left|by right|by left|by right].
Qed.

(** Only the owner changes the mint role. Granting gives the role to that
    account and leaves every other account as it was; it attests nothing:
    on a token that was never attested the new minter's [mint] is still
    refused with [PORVerificationRequired]. After a revocation the
    account's [mint] is refused with [NotMinter], whatever the
    attestation. *)
Theorem mint_role_changes sender account st :
  (sender <> owner erc20 st ->
   grantMintRole erc20 sender account st
   = inl (OwnableUnauthorizedAccount sender)
   /\ revokeMintRole erc20 sender account st
      = inl (OwnableUnauthorizedAccount sender))
  /\ (forall st1,
        grantMintRole erc20 sender account st = inr st1 ->
        sender = owner erc20 st
        /\ role (isMinter erc20 st1) account = true
        /\ (forall other, other <> account ->
                          role (isMinter erc20 st1) other
                          = role (isMinter erc20 st) other)
        /\ (lastPORTimestamp erc20 st = 0 ->
            forall now to amount,
              mint erc20 _mint account now to amount st1
              = inl PORVerificationRequired))
  /\ (forall st1,
        revokeMintRole erc20 sender account st = inr st1 ->
        sender = owner erc20 st
        /\ (forall now to amount,
              mint erc20 _mint account now to amount st1 = inl NotMinter)
        /\ (forall other, other <> account ->
                          role (isMinter erc20 st1) other
                          = role (isMinter erc20 st) other)).
Proof.
  unfold grantMintRole, revokeMintRole, onlyOwner.
  destruct (bool_decide (owner erc20 st = sender)) eqn:Ho.
  - apply bool_decide_eq_true in Ho. split; [congruence|].
    split; intros st1 [= <-]; (split; [done|]).
    + unfold role at 1. cbn [isMinter with_minters].
      rewrite lookup_insert_eq. split; [done|]. split.
      * intros other Hne. unfold role. cbn [isMinter with_minters].
        by rewrite lookup_insert_ne.
      * intros H0 now to amount. unfold mint, role, requirePOR.
        cbn [isMinter with_minters lastPORTimestamp].
        rewrite lookup_insert_eq. cbn [default negb]. by rewrite H0.
    + split.
      * intros now to amount. unfold mint, role.
        cbn [isMinter with_minters]. by rewrite lookup_insert_eq.
      * intros other Hne. unfold role. cbn [isMinter with_minters].
        by rewrite lookup_insert_ne.
  - split; [done|]. split; by intros st1.
Qed.

(** With no overflow, [checkReserveRatio] reports the reserve as
    sufficient exactly when [reserveBalance * 1e18] is at least
    [minReserveRatio * totalSupply]; with the initial ratio of [1e18], that
    is when the reserve balance is at least the total supply. Its answer
    does not depend on the attestation. *)
Theorem checkReserveRatio_sufficient st :
  0 < totalSupply (token erc20 st) ->
  0 <= reserveBalance erc20 st ->
  reserveBalance erc20 st * 10 ^ 18 <= MAX_UINT256 ->
  exists ok ratio,
    checkReserveRatio erc20 totalSupply st = inr (ok, ratio)
    /\ ratio = reserveBalance erc20 st * 10 ^ 18 / totalSupply (token erc20 st)
    /\ (ok = true
        <-> minReserveRatio erc20 st * totalSupply (token erc20 st)
            <= reserveBalance erc20 st * 10 ^ 18)
    /\ (minReserveRatio erc20 st = 10 ^ 18 ->
        (ok = true <-> totalSupply (token erc20 st) <= reserveBalance erc20 st)).
Proof.
  intros Hs Hr Hmax. unfold checkReserveRatio, checked_mul.
  destruct (totalSupply (token erc20 st) =? 0) eqn:H0; [lia|].
  destruct (MAX_UINT256 <? reserveBalance erc20 st * 10 ^ 18) eqn:H1; [lia|].
  do 2 eexists. split; [reflexivity|]. split; [reflexivity|].
  assert (Hiff : forall m,
             (m <=? reserveBalance erc20 st * 10 ^ 18
                    / totalSupply (token erc20 st)) = true
             <-> m * totalSupply (token erc20 st)
                 <= reserveBalance erc20 st * 10 ^ 18).
  { intros m. rewrite Z.leb_le. split.
    - intros H. apply (Z.mul_le_mono_nonneg_r _ _ (totalSupply (token erc20 st)))
        in H; [|lia].
      pose proof (Z.mul_div_le (reserveBalance erc20 st * 10 ^ 18)
                    (totalSupply (token erc20 st)) Hs). lia.
    - intros H. apply Z.div_le_lower_bound; lia. }
  split; [apply Hiff|]. intros ->. rewrite Hiff. lia.
Qed.

End Token.

Lemma checkReserveRatio_sufficient_witness :
  exists ratio,
    checkReserveRatio Z (fun supply => supply) Examples.coin
    = inr (true, ratio).
Proof.
  destruct (checkReserveRatio_sufficient Z (fun supply => supply)
              Examples.coin) as (ok & ratio & Hc & _ & _ & Hok).
  - cbn. lia.
  - cbn. lia.
  - vm_compute. discriminate.
  - exists ratio. rewrite Hc. do 2 f_equal. apply Hok; [reflexivity|].
    cbn. lia.
Defined.

Lemma isPORValid_matches_gate_witness :
  isPORValid Z 4600 Examples.attested = inr true
  /\ requirePOR Z 4600 Examples.attested = inr tt.
Proof.
  destruct (isPORValid_matches_gate Z Examples.supply_mint
              Examples.supply_burn 4600 Examples.attested)
    as (Hiff & _ & Hedge & _).
  - cbn. lia.
  - assert (H : isPORValid Z 4600 Examples.attested = inr true).
    { apply Hedge; [cbn; lia|reflexivity]. }
    split; [exact H|]. by apply Hiff.
Defined.

Lemma mint_after_attestation_witness :
  mint Z Examples.supply_mint 5 4600 9 (10 ^ 30) Examples.attested
  = inr (with_token Z Examples.attested (100 + 10 ^ 30))
  /\ reserveBalance Z Examples.attested = 0.
Proof.
  destruct (mint_after_attestation Z Examples.supply_mint 7 1000 99 0
              Examples.coin Examples.attested)
    as (_ & _ & Hres & Hmint).
  - reflexivity.
  - lia.
  - split; [|exact Hres].
    apply (proj1 (Hmint 5 4600 9 (10 ^ 30) eq_refl)). lia.
Defined.

End StablecoinFacts.

(** ** Pending mints of the consumer contract *)

Module MintingConsumerFacts.
Import MintingConsumer.

Section Consumer.
Variable erc20 : Type.
Variable _mint : address -> Z -> erc20 -> StablecoinERC20.Outcome erc20.
Variable requestIdOf : address -> Z -> string -> Z -> Z.

(** A pending mint is executed at most once: when [executePendingMint]
    succeeds, the caller is the owner, the request was pending and not yet
    executed, the consumer holds the token's mint role, the token's
    [_mint] ran for the beneficiary and the amount of the request, and
    [executePendingMint] of the same request on the state it leaves reverts
    -- for the owner with "Already executed". *)
Theorem executePendingMint_once sender now requestId st coin st' coin' :
  executePendingMint erc20 _mint sender now requestId st coin
  = inr (st', coin') ->
  sender = owner st
  /\ (exists req,
        pendingMints st !! requestId = Some req
        /\ mq_executed req = false
        /\ _mint (mq_beneficiary req) (mq_amount req)
             (StablecoinERC20.token erc20 coin)
           = inr (StablecoinERC20.token erc20 coin'))
  /\ StablecoinERC20.role (StablecoinERC20.isMinter erc20 coin) (self st) = true
  /\ (forall sender' now' coin'',
        exists e,
          executePendingMint erc20 _mint sender' now' requestId st' coin''
          = inl e
          /\ (sender' = owner st' -> e = Require "Already executed")).
Proof.
  unfold executePendingMint at 1. unfold onlyOwner.
  destruct (bool_decide (owner st = sender)) eqn:Ho; [|done].
  apply bool_decide_eq_true in Ho.
  destruct (pendingMints st !! requestId) as [req|] eqn:Hreq;
    unfold default, from_option, id;
    [|by rewrite bool_decide_eq_true_2 by done].
  destruct (bool_decide (mq_beneficiary req = 0)) eqn:Hb; [done|].
  destruct (mq_executed req) eqn:He; [done|].
  destruct (StablecoinERC20.lastPORTimestamp erc20 coin =? 0); [done|].
  destruct (StablecoinERC20.checked_sub _ _) as [?|age]; [done|].
  destruct (StablecoinERC20.POR_VALIDITY_WINDOW <? age); [done|].
  destruct (StablecoinERC20.mint _ _ _ _ _ _ _) as [?|c] eqn:Hm; [done|].
  intros [= <- <-].
  unfold StablecoinERC20.mint in Hm.
  destruct (StablecoinERC20.role _ _) eqn:Hrole; [|done]. cbn [negb] in Hm.
  destruct (StablecoinERC20.requirePOR _ _ _) as [?|[]]; [done|].
  destruct (_mint _ _ _) as [?|t] eqn:Ht; [done|]. injection Hm as <-.
  split; [done|]. split; [by exists req|]. split; [done|].
  intros sender' now' coin''. unfold executePendingMint, onlyOwner.
  cbn [owner pendingMints with_pending]. rewrite lookup_insert_eq.
  unfold default, from_option, id. cbn [mq_beneficiary mq_executed].
  destruct (bool_decide (owner st = sender')) eqn:Ho'.
  - rewrite Hb. by eexists.
  - eexists. split; [done|]. intros ->.
    by rewrite bool_decide_eq_true_2 in Ho'.
Qed.

(** A request the owner made is executed as requested. [requestMint]
    succeeds only for the owner, a beneficiary that is not the zero address
    and an amount above 0, and files the request under the hash of its
    arguments and the block time. [executePendingMint] of that request
    then reverts with [PORNotVerified] while the token was never attested
    and with "POR expired" when the attestation is more than one hour
    old; otherwise it has the token mint the requested amount to the
    requested beneficiary and marks the request executed -- or reverts with
    the token's [NotMinter] when the consumer does not hold the mint
    role. *)
Theorem requestMint_then_execute sender now beneficiary amount transactionId
    st requestId st1 :
  requestMint requestIdOf sender now beneficiary amount transactionId st
  = inr (requestId, st1) ->
  let req executed :=
    {| mq_beneficiary := beneficiary; mq_amount := amount;
       mq_transactionId := transactionId; mq_timestamp := now;
       mq_executed := executed |} in
  sender = owner st /\ beneficiary <> 0 /\ 0 < amount
  /\ requestId = requestIdOf beneficiary amount transactionId now
  /\ pendingMints st1 !! requestId = Some (req false)
  /\ (forall now' coin,
        StablecoinERC20.lastPORTimestamp erc20 coin = 0 ->
        executePendingMint erc20 _mint sender now' requestId st1 coin
        = inl PORNotVerified)
  /\ (forall now' coin,
        0 < StablecoinERC20.lastPORTimestamp erc20 coin ->
        StablecoinERC20.lastPORTimestamp erc20 coin + 3600 < now' ->
        executePendingMint erc20 _mint sender now' requestId st1 coin
        = inl (Require "POR expired"))
  /\ (forall now' coin,
        0 < StablecoinERC20.lastPORTimestamp erc20 coin <= now' ->
        now' <= StablecoinERC20.lastPORTimestamp erc20 coin + 3600 ->
        executePendingMint erc20 _mint sender now' requestId st1 coin
        = if StablecoinERC20.role (StablecoinERC20.isMinter erc20 coin)
               (self st)
          then
            match _mint beneficiary amount
                    (StablecoinERC20.token erc20 coin) with
            | inl e => inl (FromStablecoin e)
            | inr t =>
                inr (with_pending st1
                       (<[requestId := req true]> (pendingMints st1)),
                     StablecoinERC20.with_token erc20 coin t)
            end
          else inl (FromStablecoin StablecoinERC20.NotMinter)).
Proof.
  unfold requestMint, onlyOwner.
  destruct (bool_decide (owner st = sender)) eqn:Ho; [|done].
  destruct (bool_decide (beneficiary = 0)) eqn:Hb; [done|].
  destruct (0 <? amount) eqn:Ha; [|done]. cbn [negb].
  intros [= <- <-]. cbv zeta.
  apply bool_decide_eq_true in Ho. pose proof Hb as Hb'.
  apply bool_decide_eq_false in Hb'.
  split; [done|]. split; [done|]. split; [lia|]. split; [done|].
  cbn [pendingMints with_pending]. rewrite lookup_insert_eq.
  split; [done|].
  assert (Hhead : forall now' coin,
            executePendingMint erc20 _mint sender now'
              (requestIdOf beneficiary amount transactionId now)
              (with_pending st
                 (<[requestIdOf beneficiary amount transactionId now :=
                      {| mq_beneficiary := beneficiary; mq_amount := amount;
                         mq_transactionId := transactionId;
                         mq_timestamp := now; mq_executed := false |}]>
                    (pendingMints st))) coin
            = if StablecoinERC20.lastPORTimestamp erc20 coin =? 0
              then inl PORNotVerified
              else
                match StablecoinERC20.checked_sub now'
                        (StablecoinERC20.lastPORTimestamp erc20 coin) with
                | inl _ => inl (Panic 17)
                | inr porAge =>
                    if StablecoinERC20.POR_VALIDITY_WINDOW <? porAge
                    then inl (Require "POR expired")
                    else
                      match StablecoinERC20.mint erc20 _mint (self st) now'
                              beneficiary amount coin with
                      | inl e => inl (FromStablecoin e)
                      | inr coin' =>
                          inr (with_pending st
                                 (<[requestIdOf beneficiary amount
                                      transactionId now :=
                                      {| mq_beneficiary := beneficiary;
                                         mq_amount := amount;
                                         mq_transactionId := transactionId;
                                         mq_timestamp := now;
                                         mq_executed := true |}]>
                                    (<[requestIdOf beneficiary amount
                                         transactionId now :=
                                         {| mq_beneficiary := beneficiary;
                                            mq_amount := amount;
                                            mq_transactionId := transactionId;
                                            mq_timestamp := now;
                                            mq_executed := false |}]>
                                       (pendingMints st))),
                               coin')
                      end
                end).
  { intros now' coin. unfold executePendingMint, onlyOwner.
    cbn [owner pendingMints with_pending self].
    rewrite bool_decide_eq_true_2 by done. rewrite lookup_insert_eq.
    unfold default, from_option, id.
    cbn [mq_beneficiary mq_executed mq_amount mq_transactionId mq_timestamp].
    by rewrite Hb. }
  split; [|split].
  - intros now' coin H0. rewrite Hhead, H0. done.
  - intros now' coin Hpos Hlate. rewrite Hhead.
    unfold StablecoinERC20.checked_sub, StablecoinERC20.POR_VALIDITY_WINDOW.
    destruct (StablecoinERC20.lastPORTimestamp erc20 coin =? 0) eqn:H0;
      [lia|].
    destruct (now' <? StablecoinERC20.lastPORTimestamp erc20 coin) eqn:H1;
      [lia|].
    by destruct (3600 <? now' - StablecoinERC20.lastPORTimestamp erc20 coin)
      eqn:H2; [|lia].
  - intros now' coin Hpos Hin. rewrite Hhead.
    unfold StablecoinERC20.mint, StablecoinERC20.requirePOR,
      StablecoinERC20.checked_sub, StablecoinERC20.POR_VALIDITY_WINDOW.
    destruct (StablecoinERC20.lastPORTimestamp erc20 coin =? 0) eqn:H0;
      [lia|].
    destruct (now' <? StablecoinERC20.lastPORTimestamp erc20 coin) eqn:H1;
      [lia|].
    destruct (3600 <? now' - StablecoinERC20.lastPORTimestamp erc20 coin)
      eqn:H2; [lia|].
    destruct (StablecoinERC20.role _ _); [|done]. cbn [negb].
    by destruct (_mint _ _ _).
Qed.

End Consumer.

Lemma executePendingMint_once_witness :
  exists st' coin',
    executePendingMint Z Examples.supply_mint 1 2000 42 Examples.consumer
      Examples.attested = inr (st', coin')
    /\ StablecoinERC20.token Z coin' = 125
    /\ executePendingMint Z Examples.supply_mint 1 2001 42 st' coin'
       = inl (Require "Already executed").
Proof.
  destruct (executePendingMint Z Examples.supply_mint 1 2000 42
              Examples.consumer Examples.attested)
    as [e|[st' coin']] eqn:He; [vm_compute in He; discriminate He|].
  exists st', coin'. split; [reflexivity|].
  destruct (executePendingMint_once Z Examples.supply_mint 1 2000 42
              Examples.consumer Examples.attested st' coin' He)
    as (_ & _ & _ & Hagain).
  split.
  - vm_compute in He. by injection He as <- <-.
  - destruct (Hagain 1 2001 coin') as (e & Hcall & Herr).
    rewrite Hcall. f_equal. apply Herr.
    vm_compute in He. by injection He as <- <-.
Defined.

Lemma requestMint_then_execute_witness :
  exists st1 st2,
    requestMint Examples.request_id 1 1500 9 25 "T2" Examples.consumer
    = inr (1534, st1)
    /\ executePendingMint Z Examples.supply_mint 1 2000 1534 st1
         Examples.attested
       = inr (st2, StablecoinERC20.with_token Z Examples.attested 125)
    /\ pendingMints st2 !! 1534
       = Some {| mq_beneficiary := 9; mq_amount := 25;
                 mq_transactionId := "T2"; mq_timestamp := 1500;
                 mq_executed := true |}.
Proof.
  eexists. eexists.
  assert (Hreq : requestMint Examples.request_id 1 1500 9 25 "T2"
                   Examples.consumer
                 = inr (1534,
                        with_pending Examples.consumer
                          (<[1534 :=
                               {| mq_beneficiary := 9; mq_amount := 25;
                                  mq_transactionId := "T2";
                                  mq_timestamp := 1500;
                                  mq_executed := false |}]>
                             (pendingMints Examples.consumer))))
    by reflexivity.
  split; [exact Hreq|].
  destruct (requestMint_then_execute Z Examples.supply_mint
              Examples.request_id 1 1500 9 25 "T2" Examples.consumer 1534
              _ Hreq) as (_ & _ & _ & _ & _ & _ & _ & Hexec).
  split.
  - rewrite (Hexec 2000 Examples.attested); [reflexivity|cbn; lia|cbn; lia].
  - cbn [pendingMints with_pending]. apply lookup_insert_eq.
Defined.

End MintingConsumerFacts.
(** ** Environment placeholders *)

Module ConfigLoaderFacts.
Import ConfigLoader StringFacts.

Lemma match_here_no_dollar c r :
  Ascii.eqb c "$" = false -> match_here (String c r) = None.
Proof.
  intros Hc. destruct r as [|b [|c' r']]; cbn [match_here]; try done.
  by rewrite Hc.
Qed.

Lemma replace_plain callback text :
  has_char "$" text = false -> replace_matches callback 0 text = inr text.
Proof.
  induction text as [|c r IH]; [done|]. cbn [has_char]. intros H.
  apply orb_false_iff in H as [Hc Hr].
  cbn [replace_matches]. rewrite match_here_no_dollar by done.
  by rewrite IH.
Qed.

Lemma replace_skip callback x : forall s,
  replace_matches callback (String.length x) (x ++ s)
  = replace_matches callback 0 s.
Proof.
  induction x as [|c x IH]; intros s; [by destruct s|].
  simpl. apply IH.
Qed.

Lemma take_name_run n : forall after,
  forallb is_name_char (list_ascii_of_string n) = true ->
  take_name (n ++ String "}" after) = (n, String "}" after).
Proof.
  induction n as [|c n IH]; intros after Hn; [done|].
  cbn [list_ascii_of_string forallb] in Hn.
  apply andb_true_iff in Hn as [Hc Hn].
  simpl. by rewrite Hc, IH.
Qed.

Lemma match_here_placeholder n after :
  is_name n = true ->
  match_here (String "$" (String "{" (n ++ String "}" after)))
  = Some (n, after).
Proof.
  destruct n as [|c n]; [done|]. cbn [is_name]. intros H.
  apply andb_true_iff in H as [Hc Hn].
  simpl. rewrite Hc, take_name_run by done. done.
Qed.

Lemma replace_placeholder callback n after :
  is_name n = true ->
  replace_matches callback 0 (String "$" (String "{" (n ++ String "}" after)))
  = match callback n with
    | inl e => inl e
    | inr value =>
        match replace_matches callback 0 after with
        | inl e => inl e
        | inr out => inr (value ++ out)%string
        end
    end.
Proof.
  intros Hn. cbn [replace_matches]. rewrite match_here_placeholder by done.
  destruct (callback n) as [e|value]; [done|].
  replace (String.length n + 2)%nat with (S (String.length n + 1)) by lia.
  cbn [replace_matches].
  replace (String.length n + 1)%nat
    with (String.length (n ++ "}")) by (rewrite length_append; simpl; lia).
  rewrite <- (append_snoc n "}" after). by rewrite replace_skip.
Qed.

Lemma replace_before callback before : forall rest,
  has_char "$" before = false ->
  replace_matches callback 0 (before ++ rest)
  = match replace_matches callback 0 rest with
    | inl e => inl e
    | inr out => inr (before ++ out)%string
    end.
Proof.
  induction before as [|c b IH]; intros rest H.
  - change ("" ++ rest)%string with rest.
    by destruct (replace_matches callback 0 rest).
  - cbn [has_char] in H. apply orb_false_iff in H as [Hc Hb].
    rewrite append_cons. cbn [replace_matches].
    rewrite match_here_no_dollar by done.
    rewrite IH by done. by destruct (replace_matches callback 0 rest).
Qed.

Lemma replace_weaker cb1 cb2 s : forall skip out,
  (forall name v, cb1 name = inr v -> cb2 name = inr v) ->
  replace_matches cb1 skip s = inr out ->
  replace_matches cb2 skip s = inr out.
Proof.
  induction s as [|c r IH]; intros skip out Hcb; [done|].
  cbn [replace_matches]. destruct skip as [|k]; [|by apply IH].
  destruct (match_here (String c r)) as [[name rest]|].
  - destruct (cb1 name) as [e|v] eqn:H1; [done|]. rewrite (Hcb _ _ H1).
    destruct (replace_matches cb1 _ r) as [e|o] eqn:Hr; [done|].
    by rewrite (IH _ _ Hcb Hr).
  - destruct (replace_matches cb1 0 r) as [e|o] eqn:Hr; [done|].
    by rewrite (IH _ _ Hcb Hr).
Qed.

(** A text without a dollar sign comes back unchanged. A placeholder for
    a variable that is set is replaced by the variable's value as it is --
    the value is not searched for placeholders -- and the text after it is
    treated on its own; a placeholder for a variable that is not set makes
    [substituteEnvVars] throw, naming the variable, before anything after
    it is looked at. When [substituteEnvVars] succeeds,
    [loadConfigWithDefaults] substitutes the same text, whatever the
    defaults. *)
Theorem substituteEnvVars_placeholder env :
  (forall text,
      has_char "$" text = false -> substituteEnvVars env text = inr text)
  /\ (forall before n after,
        has_char "$" before = false -> is_name n = true ->
        substituteEnvVars env
          (before ++ String "$" (String "{" (n ++ String "}" after)))
        = match env !! n with
          | None => inl (MissingEnvVar n)
          | Some value =>
              match substituteEnvVars env after with
              | inl e => inl e
              | inr out => inr (before ++ value ++ out)%string
              end
          end)
  /\ (forall defaults text out,
        substituteEnvVars env text = inr out ->
        substituteWithDefaults env defaults text = out).
Proof.
  split; [|split].
  - intros text H. by apply replace_plain.
  - intros before n after Hb Hn. unfold substituteEnvVars.
    rewrite replace_before, replace_placeholder by done.
    destruct (env !! n) as [value|]; [|done].
    by destruct (replace_matches _ 0 after).
  - intros defaults text out H. unfold substituteWithDefaults.
    unfold substituteEnvVars in H.
    erewrite replace_weaker; [done| |exact H].
    intros name v. cbv beta. by destruct (env !! name).
Qed.

Lemma substituteEnvVars_placeholder_witness :
  substituteEnvVars Examples.env "url: ${RPC_URL}!"
  = inr "url: http://node/${OTHER}!".
Proof.
  exact (proj1 (proj2 (substituteEnvVars_placeholder Examples.env))
           "url: " "RPC_URL" "!" eq_refl eq_refl).
Defined.

End ConfigLoaderFacts.
